(** * nbm: a shallow embedding of the workspace manager's core

    The development follows the Python sources module by module:
    [Py] collects the few [str] operations the code relies on,
    [process] embeds [nbm_core/process.py], [git] embeds
    [nbm_core/git.py], [state] embeds [nbm_core/state.py], [project]
    embeds [nbm_core/project.py] and [nbm] embeds the batch runner of
    [nbm.py].  External programs and the file system are explicit
    arguments: a function that spawns a process takes the behaviour of
    that process as input, and a function that touches files threads the
    file contents through. *)

From Stdlib Require Import ZArith String Ascii List Bool Lia.
From Stdlib Require Import Numbers.DecimalString.
From stdpp Require Import base option list gmap strings sorting.

Set Warnings "-register-all,-clear-no-such-hyp".

Local Open Scope string_scope.
Local Open Scope list_scope.

(** ** Python [str] helpers *)

Module Py.

(** Text is modelled as [string], one [ascii] per character; the
    whitespace class is the one [str.strip()] removes inside ASCII. *)
Definition isspace (c : ascii) : bool :=
  let n := nat_of_ascii c in
  (((9 <=? n) && (n <=? 13)) || ((28 <=? n) && (n <=? 32)))%nat.

(** [s.lstrip()] *)
Fixpoint lstrip (s : string) : string :=
  match s with
  | String c s' => if isspace c then lstrip s' else s
  | EmptyString => EmptyString
  end.

(** [s.rstrip()] *)
Fixpoint rstrip (s : string) : string :=
  match s with
  | EmptyString => EmptyString
  | String c s' =>
      match rstrip s' with
      | EmptyString => if isspace c then EmptyString else String c EmptyString
      | r => String c r
      end
  end.

(** [s.strip()] *)
Definition strip (s : string) : string := rstrip (lstrip s).

(** [s.rstrip(",")] *)
Fixpoint rstrip_comma (s : string) : string :=
  match s with
  | EmptyString => EmptyString
  | String c s' =>
      match rstrip_comma s' with
      | EmptyString =>
          if Ascii.eqb c "," then EmptyString else String c EmptyString
      | r => String c r
      end
  end.

(** [s.replace("_", "-")] *)
Fixpoint replace_underscore (s : string) : string :=
  match s with
  | EmptyString => EmptyString
  | String c s' =>
      String (if Ascii.eqb c "_" then "-"%char else c) (replace_underscore s')
  end.

(** [s.startswith(p)] *)
Fixpoint startswith (p s : string) : bool :=
  match p, s with
  | EmptyString, _ => true
  | String a p', String b s' => Ascii.eqb a b && startswith p' s'
  | String _ _, EmptyString => false
  end.

(** [sub in s] *)
Fixpoint contains (sub s : string) : bool :=
  startswith sub s ||
  match s with
  | EmptyString => false
  | String _ s' => contains sub s'
  end.

(** Drop the first [n] characters. *)
Fixpoint drop (n : nat) (s : string) : string :=
  match n, s with
  | O, _ => s
  | S n', String _ s' => drop n' s'
  | S _, EmptyString => EmptyString
  end.

(** [s.split(sep)[0]] for a non-empty [sep]: the text before the first
    occurrence of [sep], or all of [s] when there is none. *)
Fixpoint split_first (sep s : string) : string :=
  if startswith sep s then EmptyString
  else match s with
       | EmptyString => EmptyString
       | String c s' => String c (split_first sep s')
       end.

(** [c in s] for a single character. *)
Fixpoint has_char (c : ascii) (s : string) : bool :=
  match s with
  | EmptyString => false
  | String a s' => Ascii.eqb a c || has_char c s'
  end.

(** [s.split("/")[-1]]: the text after the last slash, or all of [s]. *)
Fixpoint split_last_slash (s : string) : string :=
  match s with
  | EmptyString => EmptyString
  | String a s' =>
      if has_char "/" s' then split_last_slash s'
      else if Ascii.eqb a "/" then s' else s
  end.

(** [" ".join(l)] *)
Fixpoint join (sep : string) (l : list string) : string :=
  match l with
  | [] => EmptyString
  | [x] => x
  | x :: rest => x +:+ sep +:+ join sep rest
  end.

(** [str(n)] for an [int]. *)
Definition str_of_Z (n : Z) : string := NilZero.string_of_int (Z.to_int n).

(** Truth value of a [str]. *)
Definition truthy (s : string) : bool :=
  match s with EmptyString => false | _ => true end.

End Py.

(** ** Shared vocabulary: log records, exceptions, results *)

Inductive Level := DEBUG | INFO | WARNING | ERROR.

(** One call of [config.logger.<level>(msg)]. *)
Definition LogRecord : Type := Level * string.

(** [nbm_core/exceptions.py]: [CmdResult] is the union of the objects a
    finished or timed-out subprocess is described by.  [stdout] of a
    [TimeoutExpired] is whatever was captured before the kill, or
    [None]. *)
Inductive CmdResult :=
| CompletedProcess (returncode : Z) (stdout stderr : string)
| TimeoutExpired (timeout : Z) (stdout : option string).

(** The exceptions the embedded code raises or intercepts; every one of
    them is a subclass of [Exception]. *)
Inductive Exn :=
| CommandError (msg : string) (result : option CmdResult)
| IndexError
| JSONDecodeError
| KeyError (key : string)
| TypeError
| LockException
| OSError (msg : string).

(** [str(e)] *)
Definition str_of_exn (e : Exn) : string :=
  match e with
  | CommandError msg _ => msg
  | IndexError => "list index out of range"
  | JSONDecodeError => "Expecting value"
  | KeyError k => "'" +:+ k +:+ "'"
  | TypeError => "TypeError"
  | LockException => "LockException"
  | OSError msg => msg
  end.

(** Outcome of a call: a returned value or a raised exception. *)
Inductive Res (A : Type) :=
| Ret (a : A)
| Raise (e : Exn).
Arguments Ret {A} a.
Arguments Raise {A} e.

(** [nbm_core/config.py]: the settings the embedded functions read. *)
Record Config := {
  PROJECT_ROOT : string;
  plugins_src_dir : string;
  YOUR_GITHUB_ORG : string;
  MAX_WORKERS : Z;
  COMMAND_TIMEOUT : Z;
  DEV_BRANCH : string
}.

(** [ManagerSettings()] defaults, rooted at a given directory. *)
Definition default_config (root : string) : Config :=
  {| PROJECT_ROOT := root;
     plugins_src_dir := "plugins";
     YOUR_GITHUB_ORG := "my-bot-workspace";
     MAX_WORKERS := 8;
     COMMAND_TIMEOUT := 1200;
     DEV_BRANCH := "dev" |}.

(** [PROJECT_ROOT / settings.plugins_src_dir] *)
Definition PLUGINS_SRC_DIR (cfg : Config) : string :=
  PROJECT_ROOT cfg +:+ "/" +:+ plugins_src_dir cfg.

(** ** [nbm_core/process.py] *)

Module process.

(** What [subprocess.run(cmd, ..., timeout=COMMAND_TIMEOUT)] does: the
    program cannot be started, it is killed at the timeout (with the
    output captured so far), or it finishes. *)
Inductive Spawn :=
| SpawnFileNotFound
| SpawnTimeout (partial_stdout : option string)
| SpawnCompleted (returncode : Z) (stdout stderr : string).

Section run.
Variable cfg : Config.

(** [run(cmd, cwd, check, quiet)], given the behaviour [sp] of the
    spawned process.  The result pairs the log records emitted with the
    value returned or the exception raised. *)
Definition run (sp : Spawn) (cmd : list string) (cwd : string)
    (check quiet : bool) : list LogRecord * Res CmdResult :=
  let log0 :=
    if quiet then []
    else [(DEBUG, "🔩 Running: " +:+ Py.join " " cmd +:+ " in '" +:+ cwd +:+ "'")] in
  match cmd with
  | [] => (log0, Raise IndexError)
  | cmd0 :: _ =>
      match sp with
      | SpawnFileNotFound =>
          let msg := "Command '" +:+ cmd0 +:+
                     "' not found. Is it installed and in your system's PATH?" in
          (log0, Raise (CommandError msg None))
      | SpawnTimeout partial =>
          let e := TimeoutExpired (COMMAND_TIMEOUT cfg) partial in
          let msg := "Command '" +:+ Py.join " " cmd +:+ "' timed out after " +:+
                     Py.str_of_Z (COMMAND_TIMEOUT cfg) +:+ " seconds." in
          if check then (log0, Raise (CommandError msg (Some e)))
          else (log0 ++ (if quiet then [] else [(WARNING, msg)]), Ret e)
      | SpawnCompleted returncode stdout stderr =>
          let proc := CompletedProcess returncode stdout stderr in
          if negb (returncode =? 0)%Z then
            if check then
              let stderr' := Py.strip stderr in
              let stdout' := Py.strip stdout in
              let details := if Py.truthy stderr' then stderr' else stdout' in
              let msg := "Command '" +:+ Py.join " " cmd +:+
                         "' failed with exit code " +:+ Py.str_of_Z returncode +:+
                         ":" +:+ String "010" details in
              (log0, Raise (CommandError msg (Some proc)))
            else
              (log0 ++
                 (if quiet then []
                  else [(DEBUG, "Command '" +:+ Py.join " " cmd +:+
                                "' failed with non-zero exit code " +:+
                                Py.str_of_Z returncode +:+ " (check=False).")]),
               Ret proc)
          else (log0, Ret proc)
      end
  end.

(** [result.stdout] of either kind of [CmdResult]. *)
Definition result_stdout (r : CmdResult) : option string :=
  match r with
  | CompletedProcess _ out _ => Some out
  | TimeoutExpired _ out => out
  end.

(** The common body of [git] and [gh]: the stripped standard output, or
    the empty string when there is none. *)
Definition stripped_stdout (r : list LogRecord * Res CmdResult)
    : list LogRecord * Res string :=
  match r with
  | (log, Raise e) => (log, Raise e)
  | (log, Ret result) =>
      match result_stdout result with
      | None => (log, Ret "")
      | Some out => if Py.truthy out then (log, Ret (Py.strip out)) else (log, Ret "")
      end
  end.

(** [git(args, cwd, check, quiet)] *)
Definition git (sp : Spawn) (args : list string) (cwd : string)
    (check quiet : bool) : list LogRecord * Res string :=
  stripped_stdout (run sp ("git" :: args) cwd check quiet).

(** [gh(args, cwd, check, quiet)] *)
Definition gh (sp : Spawn) (args : list string) (cwd : string)
    (check quiet : bool) : list LogRecord * Res string :=
  stripped_stdout (run sp ("gh" :: args) cwd check quiet).

(** [uv(args, cwd, check, quiet)] *)
Definition uv (sp : Spawn) (args : list string) (cwd : string)
    (check quiet : bool) : list LogRecord * Res CmdResult :=
  run sp ("uv" :: args) cwd check quiet.

End run.
End process.

(** ** Regular expressions, as far as [re.search] is used

    A pattern is a sequence of atoms; matching backtracks the way
    Python's [re] does: a greedy repetition tries the longest run first,
    a lazy one the shortest, an optional group is tried before it is
    skipped.  Only group 1 is ever read, so the matcher returns its
    text. *)

Module Re.

Inductive atom :=
| Lit (l : string)                (* literal text *)
| Class (p : ascii -> bool)       (* one character of a class: [[/:]] *)
| PlusGreedy (p : ascii -> bool)  (* [[^/]+] *)
| PlusLazy (p : ascii -> bool)    (* [[^/]+?] *)
| OptLit (l : string)             (* [(lit)?], a group that is never read *)
| GroupOpen                       (* [(] of group 1 *)
| GroupClose                      (* [)] of group 1 *)
| Eol.                            (* [$] *)

(** Text consumed while group 1 is open is appended to its capture. *)
Definition capture (opened : bool) (g : string) (t : string) : string :=
  if opened then g +:+ t else g.

(** One or more characters of class [p], longest first, then the
    continuation [k] on the rest. *)
Fixpoint plus_greedy (p : ascii -> bool) (k : string -> string -> option string)
    (s t : string) : option string :=
  match s with
  | EmptyString => None
  | String c s' =>
      if p c then
        let t' := t +:+ String c EmptyString in
        match plus_greedy p k s' t' with
        | Some g => Some g
        | None => k s' t'
        end
      else None
  end.

(** One or more characters of class [p], shortest first. *)
Fixpoint plus_lazy (p : ascii -> bool) (k : string -> string -> option string)
    (s t : string) : option string :=
  match s with
  | EmptyString => None
  | String c s' =>
      if p c then
        let t' := t +:+ String c EmptyString in
        match k s' t' with
        | Some g => Some g
        | None => plus_lazy p k s' t'
        end
      else None
  end.

(** [$] without [re.MULTILINE]: the end of the string, or just before a
    newline that is the last character. *)
Definition at_eol (s : string) : bool :=
  match s with
  | EmptyString => true
  | String c EmptyString => Ascii.eqb c "010"
  | _ => false
  end.

(** Match pattern [r] at the start of [s]; [opened] and [g] are the
    state of group 1.  Returns the text of group 1. *)
Fixpoint match_here (r : list atom) (s : string) (opened : bool) (g : string)
    : option string :=
  match r with
  | [] => Some g
  | Lit l :: r' =>
      if Py.startswith l s
      then match_here r' (Py.drop (String.length l) s) opened (capture opened g l)
      else None
  | Class p :: r' =>
      match s with
      | String c s' =>
          if p c
          then match_here r' s' opened (capture opened g (String c EmptyString))
          else None
      | EmptyString => None
      end
  | PlusGreedy p :: r' =>
      plus_greedy p
        (fun s' t => match_here r' s' opened (capture opened g t)) s EmptyString
  | PlusLazy p :: r' =>
      plus_lazy p
        (fun s' t => match_here r' s' opened (capture opened g t)) s EmptyString
  | OptLit l :: r' =>
      match
        (if Py.startswith l s
         then match_here r' (Py.drop (String.length l) s) opened (capture opened g l)
         else None)
      with
      | Some x => Some x
      | None => match_here r' s opened g
      end
  | GroupOpen :: r' => match_here r' s true EmptyString
  | GroupClose :: r' => match_here r' s false g
  | Eol :: r' => if at_eol s then match_here r' s opened g else None
  end.

(** [re.search(r, s)] followed by [.group(1)]: the leftmost start
    position at which the pattern matches. *)
Fixpoint search (r : list atom) (s : string) : option string :=
  match match_here r s false EmptyString with
  | Some g => Some g
  | None =>
      match s with
      | EmptyString => None
      | String _ s' => search r s'
      end
  end.

End Re.

(** ** JSON values, as [json.loads] returns them

    Numbers are the integers; an object is the list of its members. *)

Inductive json :=
| JNull
| JBool (b : bool)
| JInt (n : Z)
| JStr (s : string)
| JList (l : list json)
| JDict (kv : list (string * json)).

Module Json.

(** Truth value of a parsed document. *)
Definition truthy (j : json) : bool :=
  match j with
  | JNull => false
  | JBool b => b
  | JInt n => negb (n =? 0)%Z
  | JStr s => Py.truthy s
  | JList l => match l with [] => false | _ => true end
  | JDict kv => match kv with [] => false | _ => true end
  end.

Fixpoint assoc (k : string) (kv : list (string * json)) : option json :=
  match kv with
  | [] => None
  | (k', v) :: rest => if String.eqb k k' then Some v else assoc k rest
  end.

(** [j[key]] for a string key: a [dict] looks the key up, anything else
    cannot be indexed by a string. *)
Definition subscript (j : json) (key : string) : Res json :=
  match j with
  | JDict kv =>
      match assoc key kv with
      | Some v => Ret v
      | None => Raise (KeyError key)
      end
  | _ => Raise TypeError
  end.

End Json.

(** ** [nbm_core/git.py] *)

Module git.

Definition sep_class (c : ascii) : bool := Ascii.eqb c "/" || Ascii.eqb c ":".
Definition not_slash (c : ascii) : bool := negb (Ascii.eqb c "/").

(** [r"github\.com[/:]([^/]+/[^/]+?)(\.git)?$"] *)
Definition repo_re : list Re.atom :=
  [ Re.Lit "github.com"; Re.Class sep_class;
    Re.GroupOpen; Re.PlusGreedy not_slash; Re.Lit "/"; Re.PlusLazy not_slash;
    Re.GroupClose;
    Re.OptLit ".git"; Re.Eol ].

(** [get_repo_name_from_url(url)] *)
Definition get_repo_name_from_url (url : string) : option string :=
  Re.search repo_re url.

Section default_branch.
Variable cfg : Config.
(** [json.loads]: [None] stands for [JSONDecodeError]. *)
Variable loads : string -> option json.

(** The [try] block of [get_default_branch]: [Ret (Some v)] is its
    [return], [Ret None] is falling out of the block. *)
Definition get_default_branch_try (sp : process.Spawn) (repo_full_name : string)
    : list LogRecord * Res (option json) :=
  match process.gh cfg sp
          ["repo"; "view"; repo_full_name; "--json"; "defaultBranchRef"]
          (PROJECT_ROOT cfg) false true with
  | (log, Raise e) => (log, Raise e)
  | (log, Ret data_str) =>
      if Py.truthy data_str then
        match loads data_str with
        | None => (log, Raise JSONDecodeError)
        | Some data =>
            if Json.truthy data then
              match Json.subscript data "defaultBranchRef" with
              | Raise e => (log, Raise e)
              | Ret ref =>
                  match Json.subscript ref "name" with
                  | Raise e => (log, Raise e)
                  | Ret name => (log, Ret (Some name))
                  end
              end
            else (log, Ret None)
        end
      else (log, Ret None)
  end.

(** [get_default_branch(repo_full_name)]: the two [except] clauses and
    the final [return "main"]. *)
Definition get_default_branch (sp : process.Spawn) (repo_full_name : string)
    : list LogRecord * Res json :=
  match get_default_branch_try sp repo_full_name with
  | (log, Ret (Some name)) => (log, Ret name)
  | (log, Ret None) => (log, Ret (JStr "main"))
  | (log, Raise e) =>
      match e with
      | JSONDecodeError | KeyError _ =>
          (log ++ [(WARNING, "Could not parse default branch for " +:+
                             repo_full_name +:+ ". Falling back to 'main'.")],
           Ret (JStr "main"))
      | _ =>
          (log ++ [(WARNING, "An unexpected error occurred: " +:+ str_of_exn e)],
           Ret (JStr "main"))
      end
  end.

End default_branch.
End git.

(** ** [nbm_core/state.py] *)

Module state.

(** The file system as far as [StateManager] touches it: the content of
    each existing file, by path. *)
Abbreviation FS := (gmap string string).

(** The primitive file operations [write] performs, in source order.
    Entering [portalocker.Lock(path, "w", timeout=5)] is three of them.
    A mode containing [w] asks for a file truncated to zero bytes, as
    with [open]; the lock class opens the file in append mode instead
    (which creates it when missing), takes the lock (waiting up to the
    timeout, then raising [LockException]) and only then truncates the
    locked file.  The target is thus empty from [LockTruncate] until
    [Replace]. *)
Inductive Op :=
| OpenW (p : string)               (* [open(p, "w")]: create or truncate *)
| Write (p : string) (chunk : string)  (* [f.write(chunk)] *)
| LockOpen (p : string)            (* [Lock.__enter__]: [open(p, "a")] *)
| LockAcquire (p : string)         (* [Lock.__enter__]: take the lock *)
| LockTruncate (p : string)        (* [Lock.__enter__]: truncate, mode ["w"] *)
| Replace (src dst : string)       (* [src.replace(dst)], one rename *)
| Unlink (p : string).             (* [p.unlink(missing_ok=True)] *)

(** Effect of an operation that succeeds. *)
Definition apply (op : Op) (fs : FS) : FS :=
  match op with
  | OpenW p => <[p := ""]> fs
  | Write p chunk =>
      match fs !! p with
      | Some old => <[p := old +:+ chunk]> fs
      | None => fs
      end
  | LockOpen p =>
      match fs !! p with
      | Some _ => fs
      | None => <[p := ""]> fs
      end
  | LockAcquire _ => fs
  | LockTruncate p => <[p := ""]> fs
  | Replace src dst =>
      match fs !! src with
      | Some c => delete src (<[dst := c]> fs)
      | None => fs
      end
  | Unlink p => delete p fs
  end.

(** [self.path.with_suffix(self.path.suffix + ".tmp")] *)
Definition temp_path (path : string) : string := path +:+ ".tmp".

(** The operations of the [try] block of [write]; [chunks] are the
    pieces [json.dump] hands to [f.write], in order. *)
Definition try_ops (path : string) (chunks : list string) : list Op :=
  [OpenW (temp_path path)] ++
  map (Write (temp_path path)) chunks ++
  [LockOpen path; LockAcquire path; LockTruncate path;
   Replace (temp_path path) path].

(** Run operations in order; [fault i] tells whether the [i]-th one
    raises (and then has no effect).  Returns the file system reached
    and the exception that ended the run, if any. *)
Fixpoint exec (ops : list Op) (i : nat) (fault : nat -> option Exn) (fs : FS)
    : FS * option Exn :=
  match ops with
  | [] => (fs, None)
  | op :: rest =>
      match fault i with
      | Some e => (fs, Some e)
      | None => exec rest (S i) fault (apply op fs)
      end
  end.

(** [StateManager(path).write(state)]: the [try] block, the [except]
    clause for [LockException] and [OSError], and the [finally]. *)
Definition write (path : string) (chunks : list string)
    (fault : nat -> option Exn) (fs : FS) : FS * list LogRecord * Res unit :=
  let '(fs1, r) := exec (try_ops path chunks) 0 fault fs in
  let fs2 := apply (Unlink (temp_path path)) fs1 in
  match r with
  | None => (fs2, [], Ret tt)
  | Some e =>
      match e with
      | LockException | OSError _ =>
          (fs2,
           [(ERROR, "❌ Failed to write state file '" +:+ path +:+ "': " +:+
                    str_of_exn e)],
           Ret tt)
      | _ => (fs2, [], Raise e)
      end
  end.

(** The file system left behind when the process is stopped after the
    first [n] operations of [write] (nothing after them runs, not even
    the [finally]). *)
Definition write_stopped_after (n : nat) (path : string) (chunks : list string)
    (fs : FS) : FS :=
  fst (exec (take n (try_ops path chunks ++ [Unlink (temp_path path)]))
         0 (fun _ => None) fs).

(** No operation raises. *)
Definition no_fault : nat -> option Exn := fun _ => None.

(** Only operation [i] raises, with [e]. *)
Definition fault_at (i : nat) (e : Exn) : nat -> option Exn :=
  fun j => if Nat.eqb i j then Some e else None.

End state.

(** ** [nbm_core/project.py] *)

Module project.

Inductive Status := success | exists_ | failed.

(** [dir / name] of [pathlib] for a single relative component. *)
Definition path_join (dir name : string) : string :=
  if String.eqb name "." then dir else dir +:+ "/" +:+ name.

(** *** [setup_plugin_repo]

    The outside world is a parameter: [World] is whatever state the file
    system, the network and the hosting service are in; [spawn] says how
    an external program behaves in a world and what world it leaves. *)
Section setup.
Variable cfg : Config.
Variable World : Type.
Variable path_exists : World -> string -> bool.
Variable spawn : World -> list string -> string -> process.Spawn * World.
Variable mkdir_p : World -> string -> World.
Variable rmtree : World -> string -> World.
Variable loads : string -> option json.

(** The state threaded through a call: the world, the log written so
    far, and the command lines run so far. *)
Record St := {
  world : World;
  log : list LogRecord;
  calls : list (list string)
}.

Definition M (A : Type) : Type := St -> St * Res A.

Definition ret {A} (a : A) : M A := fun st => (st, Ret a).
Definition raise {A} (e : Exn) : M A := fun st => (st, Raise e).
Definition bind {A B} (m : M A) (k : A -> M B) : M B :=
  fun st =>
    match m st with
    | (st', Ret a) => k a st'
    | (st', Raise e) => (st', Raise e)
    end.

Notation "'let*' x ':=' m 'in' k" := (bind m (fun x => k))
  (at level 10, x name, m at level 100, k at level 200).
Notation "m ;;; k" := (bind m (fun _ => k))
  (at level 90, right associativity).

(** [try: body except CommandError as e: handler(e)] *)
Definition try_except_CommandError {A} (body : M A) (handler : string -> M A)
    : M A :=
  fun st =>
    match body st with
    | (st', Raise (CommandError msg _)) => handler msg st'
    | r => r
    end.

Definition logger (lvl : Level) (msg : string) : M unit :=
  fun st => ({| world := world st; log := log st ++ [(lvl, msg)];
                calls := calls st |}, Ret tt).

Definition local_path_exists (p : string) : M bool :=
  fun st => (st, Ret (path_exists (world st) p)).

Definition do_mkdir (p : string) : M unit :=
  fun st => ({| world := mkdir_p (world st) p; log := log st;
                calls := calls st |}, Ret tt).

Definition do_rmtree (p : string) : M unit :=
  fun st => ({| world := rmtree (world st) p; log := log st;
                calls := calls st |}, Ret tt).

(** Run one external command through a wrapper [f] of [process]. *)
Definition external {A}
    (f : process.Spawn -> list LogRecord * Res A) (cmd : list string)
    (cwd : string) : M A :=
  fun st =>
    let '(sp, w') := spawn (world st) cmd cwd in
    let '(lg, r) := f sp in
    ({| world := w'; log := log st ++ lg; calls := calls st ++ [cmd] |}, r).

Definition git_ (args : list string) (cwd : string) (check quiet : bool)
    : M string :=
  external (fun sp => process.git cfg sp args cwd check quiet) ("git" :: args) cwd.

Definition gh_ (args : list string) (cwd : string) (check quiet : bool)
    : M string :=
  external (fun sp => process.gh cfg sp args cwd check quiet) ("gh" :: args) cwd.

Definition get_default_branch_ (repo_full_name : string) : M json :=
  external (fun sp => git.get_default_branch cfg loads sp repo_full_name)
    ["gh"; "repo"; "view"; repo_full_name; "--json"; "defaultBranchRef"]
    (PROJECT_ROOT cfg).

(** A value placed in a command line must be a [str]. *)
Definition as_argument (v : json) : M string :=
  match v with
  | JStr s => ret s
  | _ => raise TypeError
  end.

Definition setup_plugin_repo (url : string) : M (Status * option string) :=
  match git.get_repo_name_from_url url with
  | None =>
      logger ERROR ("  - ❌ Invalid GitHub URL: " +:+ url) ;;;
      ret (failed, None)
  | Some EmptyString =>
      logger ERROR ("  - ❌ Invalid GitHub URL: " +:+ url) ;;;
      ret (failed, None)
  | Some repo_name =>
      let plugin_name := Py.split_last_slash repo_name in
      let local_path := path_join (PLUGINS_SRC_DIR cfg) plugin_name in
      let* there := local_path_exists local_path in
      if (there : bool) then
        logger INFO ("  - ✅ Plugin '" +:+ plugin_name +:+
                     "' already exists locally.") ;;;
        ret (exists_, Some local_path)
      else
        logger INFO ("--- Setting up new plugin: " +:+ plugin_name +:+ " ---") ;;;
        try_except_CommandError
          (let fork_repo := YOUR_GITHUB_ORG cfg +:+ "/" +:+ plugin_name in
           let* view := gh_ ["repo"; "view"; fork_repo] (PROJECT_ROOT cfg) false true in
           (if Py.truthy view then ret tt
            else
              logger INFO ("  - Forking " +:+ repo_name +:+ "...") ;;;
              gh_ ["repo"; "fork"; repo_name; "--org=" +:+ YOUR_GITHUB_ORG cfg]
                (PROJECT_ROOT cfg) true false ;;;
              ret tt) ;;;
           logger INFO ("  - Cloning " +:+ fork_repo +:+ "...") ;;;
           let clone_url := "https://github.com/" +:+ fork_repo +:+ ".git" in
           do_mkdir (PLUGINS_SRC_DIR cfg) ;;;
           git_ ["clone"; clone_url; local_path] (PROJECT_ROOT cfg) true false ;;;
           git_ ["remote"; "add"; "upstream"; url] local_path false false ;;;
           logger INFO ("  - Setting up '" +:+ DEV_BRANCH cfg +:+ "' branch...") ;;;
           let* remote_dev_exists :=
             git_ ["ls-remote"; "--heads"; "origin";
                   "refs/heads/" +:+ DEV_BRANCH cfg] local_path false true in
           (if Py.truthy remote_dev_exists then
              git_ ["checkout"; DEV_BRANCH cfg] local_path true false ;;; ret tt
            else
              let* main_value := get_default_branch_ repo_name in
              let* main_branch := as_argument main_value in
              git_ ["fetch"; "upstream"; main_branch] local_path true true ;;;
              git_ ["checkout"; "-b"; DEV_BRANCH cfg; "upstream/" +:+ main_branch]
                local_path true false ;;;
              git_ ["push"; "-u"; "origin"; DEV_BRANCH cfg] local_path true false ;;;
              ret tt) ;;;
           ret (success, Some local_path))
          (fun e =>
             logger ERROR ("  - 💥 Failed to set up " +:+ plugin_name +:+ ": " +:+ e) ;;;
             let* there' := local_path_exists local_path in
             (if (there' : bool) then do_rmtree local_path else ret tt) ;;;
             ret (failed, None))
  end.

End setup.

Arguments Build_St {World} world log calls.
Arguments world {World} s.
Arguments log {World} s.
Arguments calls {World} s.

(** *** [remove_dependency] *)

(** What reading the plugin's own [pyproject.toml] gives: no such file,
    a file whose reading or parsing raises, or a parsed document with
    the value of [project_section.get("name")], if any. *)
Inductive PluginMeta :=
| NoPyproject
| Unparsable
| Parsed (name : option string).

(** The root [pyproject.toml], as far as step 3 looks at it: [members]
    is the [tool.uv.workspace.members] array when it is a non-empty
    [Array], each element given by its [str()]. *)
Record RootDoc := {
  members : option (list string)
}.

(** What the function is run against. *)
Record RemoveEnv := {
  plugin_meta : PluginMeta;
  uv_remove : process.Spawn;           (* behaviour of [uv remove ...] *)
  root_doc : Res RootDoc;              (* [tomlkit.parse(read_text())] *)
  write_text : option Exn              (* does writing the manifest raise *)
}.

(** What the function did to the outside. *)
Inductive Event :=
| UvRemove (pkg : string)
| ReadManifest
| WriteManifest (new_members : list string).

Section remove.
Variable cfg : Config.

(** Step 1: the package name handed to [uv remove]. *)
Definition pkg_name_to_remove (meta : PluginMeta) (pkg_name : string)
    : string * list LogRecord :=
  match meta with
  | Parsed name =>
      let real_pkg_name := match name with Some n => n | None => pkg_name end in
      let r := Py.replace_underscore real_pkg_name in
      (r, [(INFO, "Detected package name '" +:+ r +:+
                  "' from plugin's pyproject.toml.")])
  | Unparsable =>
      (Py.replace_underscore pkg_name,
       [(WARNING, "Could not parse package name. Falling back to folder name '"
                  +:+ pkg_name +:+ "'.")])
  | NoPyproject => (Py.replace_underscore pkg_name, [])
  end.

(** Step 3: the loop over [members]. *)
Definition filter_members (entry_to_remove : string) (ms : list string)
    : list string * bool :=
  (filter (fun m => negb (String.eqb (Py.strip m) entry_to_remove)) ms,
   existsb (fun m => String.eqb (Py.strip m) entry_to_remove) ms).

(** Step 3, with its [except Exception]. *)
Definition cleanup_workspace (env : RemoveEnv) (pkg_name : string)
    : list LogRecord * list Event :=
  let failed e :=
    [(WARNING, "⚠️ Could not automatically clean up workspace members: " +:+
               str_of_exn e);
     (WARNING, "   Please check your pyproject.toml manually.")] in
  match root_doc env with
  | Raise e => (failed e, [ReadManifest])
  | Ret doc =>
      match members doc with
      | None | Some [] => ([], [ReadManifest])
      | Some ms =>
          let entry_to_remove := plugins_src_dir cfg +:+ "/" +:+ pkg_name in
          let '(new_members, removed) := filter_members entry_to_remove ms in
          if removed then
            match write_text env with
            | Some e => (failed e, [ReadManifest])
            | None =>
                ([(INFO, "✅ Cleaned up '" +:+ entry_to_remove +:+
                         "' from workspace members.")],
                 [ReadManifest; WriteManifest new_members])
            end
          else ([], [ReadManifest])
      end
  end.

(** [remove_dependency(pkg_name)]: the returned flag (or the exception
    that escapes), the log and what was done. *)
Definition remove_dependency (env : RemoveEnv) (pkg_name : string)
    : Res bool * list LogRecord * list Event :=
  let '(to_remove, log1) := pkg_name_to_remove (plugin_meta env) pkg_name in
  let '(log2, r) :=
    process.uv cfg (uv_remove env) ["remove"; to_remove] (PROJECT_ROOT cfg)
      true false in
  let step3 (log_step2 : list LogRecord) :=
    let '(log3, ev3) := cleanup_workspace env pkg_name in
    (Ret true, log1 ++ log2 ++ log_step2 ++ log3, UvRemove to_remove :: ev3) in
  match r with
  | Ret _ => step3 []
  | Raise (CommandError msg _) =>
      if Py.contains "not found in dependencies" msg then
        step3 [(WARNING, "⚠️ Dependency '" +:+ to_remove +:+
                         "' not found in project dependencies.")]
      else
        (Ret false,
         log1 ++ log2 ++
           [(ERROR, "❌ Failed to remove dependency '" +:+ to_remove +:+ "':" +:+
                    String "010" msg)],
         [UvRemove to_remove])
  | Raise e => (Raise e, log1 ++ log2, [UvRemove to_remove])
  end.

End remove.

(** *** [create_production_package]: the dependency rewriting *)

(** A value of the parsed manifest, as [process_dependency] inspects it:
    a [Table] with its keys, or anything else; both with their [str()]. *)
Inductive Item :=
| TableItem (keys : list string) (repr : string)
| OtherItem (repr : string).

Definition item_str (i : Item) : string :=
  match i with
  | TableItem _ repr => repr
  | OtherItem repr => repr
  end.

(** [isinstance(dep_info, Table) and "path" in dep_info] *)
Definition is_path_table (i : Item) : bool :=
  match i with
  | TableItem keys _ => existsb (String.eqb "path") keys
  | OtherItem _ => false
  end.

Section package.
Variable cfg : Config.

(** Step 1: [pkg_name_to_repo_name_map].  [plugin_dirs] lists the
    directories under the plugin source directory with the package name
    read from each ([None] when it cannot be read). *)
Definition scan_plugins (plugin_dirs : list (string * option string))
    (m : gmap string string) : gmap string string :=
  foldl (fun acc d =>
           match d.2 with
           | Some pkg_name =>
               if Py.truthy pkg_name
               then <[Py.replace_underscore pkg_name := d.1]> acc
               else acc
           | None => acc
           end) m plugin_dirs.

Definition build_map (workspace_members : list string)
    (plugin_dirs : list (string * option string)) : gmap string string :=
  foldl (fun acc member_pattern =>
           if Py.startswith (plugins_src_dir cfg) member_pattern
           then scan_plugins plugin_dirs acc
           else acc) ∅ workspace_members.

Variable pkg_name_to_repo_name_map : gmap string string.
Variable target_branch : string.

(** The repository a normalized name maps to; an empty name counts as
    no mapping ([if repo_name := map.get(...)]). *)
Definition lookup_repo (normalized : string) : option string :=
  match pkg_name_to_repo_name_map !! normalized with
  | Some repo_name => if Py.truthy repo_name then Some repo_name else None
  | None => None
  end.

Definition pinned (name repo_name : string) : string :=
  let git_url :=
    "https://github.com/" +:+ YOUR_GITHUB_ORG cfg +:+ "/" +:+ repo_name +:+ ".git" in
  name +:+ " @ git+" +:+ git_url +:+ "@" +:+ target_branch.

Definition skip_warning (name : string) : LogRecord :=
  (WARNING, "Could not find repo for local package '" +:+ name +:+ "'. Skipping.").

(** [process_dependency(dep_name, dep_info)] *)
Definition process_dependency (dep_name : string) (dep_info : Item)
    : list LogRecord * option string :=
  if is_path_table dep_info then
    let normalized_dep_name := Py.replace_underscore dep_name in
    match lookup_repo normalized_dep_name with
    | Some repo_name => ([], Some (pinned dep_name repo_name))
    | None => ([skip_warning dep_name], None)
    end
  else
    let dep_str := item_str dep_info in
    if Py.contains " @ file://" dep_str then
      let pkg_name_from_str := Py.strip (Py.split_first " @ " dep_str) in
      let normalized_pkg_name := Py.replace_underscore pkg_name_from_str in
      match lookup_repo normalized_pkg_name with
      | Some repo_name => ([], Some (pinned pkg_name_from_str repo_name))
      | None => ([skip_warning pkg_name_from_str], None)
      end
    else
      let cleaned_dep := Py.rstrip_comma (Py.strip dep_str) in
      ([], if Py.truthy cleaned_dep then Some cleaned_dep else None).

(** [project_section["dependencies"]]: a [Table], an [Array], or
    something else (including its absence). *)
Inductive Dependencies :=
| DepTable (entries : list (string * Item))
| DepArray (items : list Item)
| DepOther.

(** One turn of the loops: [if processed := ...: prod_deps_set.add]. *)
Definition add_processed (acc : gset string * list LogRecord)
    (dep_name : string) (dep_info : Item) : gset string * list LogRecord :=
  let '(lg, processed) := process_dependency dep_name dep_info in
  match processed with
  | Some p => if Py.truthy p then ({[p]} ∪ acc.1, acc.2 ++ lg) else (acc.1, acc.2 ++ lg)
  | None => (acc.1, acc.2 ++ lg)
  end.

(** The loop over an [Array] of dependencies. *)
Definition add_array (items : list Item) (acc : gset string * list LogRecord)
    : gset string * list LogRecord :=
  foldl (fun a item => add_processed a (Py.split_first " @ " (item_str item)) item)
    acc items.

(** [prod_deps_set] after the main and the optional dependencies have
    been processed.  [optional] lists the values of the
    [optional-dependencies] table: [Some items] for an [Array]. *)
Definition prod_deps (dependencies : Dependencies)
    (optional : list (option (list Item))) : gset string * list LogRecord :=
  let main :=
    match dependencies with
    | DepTable entries =>
        foldl (fun a e => add_processed a e.1 e.2) (∅, []) entries
    | DepArray items => add_array items (∅, [])
    | DepOther => (∅, [])
    end in
  foldl (fun a group =>
           match group with
           | Some items => add_array items a
           | None => a
           end) main optional.

End package.

End project.

(** ** [nbm.py]: the batch runner *)

Module nbm.

(** The [dict] a worker returns, as its items. *)
Abbreviation Payload := (list (string * string)).

(** How the future of one worker ends: [future.result()] returns the
    worker's value or re-raises what the worker raised (an instance of
    [Exception]). *)
Inductive Outcome :=
| Returned (res : Payload)
| Raised (exc : string).

(** [path.name] *)
Definition name (path : string) : string := Py.split_last_slash path.

(** Truth value of a [dict]. *)
Definition truthy (res : Payload) : bool :=
  match res with [] => false | _ => true end.

Section execute.
Variable cfg : Config.
Variable description : string.
Variable scope : string.
(** [self.worker], by the way the future of each path ends. *)
Variable worker : string -> Outcome.

(** The body of [for future in p_bar], over the futures in the order
    [as_completed] yields them. *)
Fixpoint collect (completed : list string)
    (acc : gmap string Payload * list LogRecord)
    : gmap string Payload * list LogRecord :=
  match completed with
  | [] => acc
  | path :: rest =>
      match worker path with
      | Returned res =>
          if truthy res
          then collect rest (<[name path := res]> acc.1, acc.2)
          else collect rest acc
      | Raised exc =>
          collect rest
            (acc.1,
             acc.2 ++ [(ERROR, "CRITICAL: Worker for " +:+ name path +:+
                               " failed: " +:+ exc)])
      end
  end.

(** [ConcurrentCommand.execute()].  [completed] is the order in which
    the futures of [target_paths] complete. *)
Definition execute (target_paths completed : list string)
    : gmap string Payload * list LogRecord :=
  let log0 :=
    [(INFO, "🚀 " +:+ description +:+ " (Scope: " +:+ scope +:+
            ", Concurrency: " +:+ Py.str_of_Z (MAX_WORKERS cfg) +:+ ")")] in
  match target_paths with
  | [] =>
      (∅, log0 ++ [(INFO, "🤷‍♀️ No Git repositories found in the specified scope.")])
  | _ => collect completed (∅, log0)
  end.

End execute.

(** [StatusCommand.worker]: its only [return] is [return {}]. *)
Definition status_worker (_ : string) : Outcome := Returned [].

End nbm.

(** ** Message texts used in the statements below *)

(** Text of the [CommandError] raised for a non-zero exit. *)
Definition exit_message (cmd : list string) (returncode : Z) (details : string)
    : string :=
  "Command '" +:+ Py.join " " cmd +:+ "' failed with exit code " +:+
  Py.str_of_Z returncode +:+ ":" +:+ String "010" details.

(** Text of the message for a timeout. *)
Definition timeout_message (cfg : Config) (cmd : list string) : string :=
  "Command '" +:+ Py.join " " cmd +:+ "' timed out after " +:+
  Py.str_of_Z (COMMAND_TIMEOUT cfg) +:+ " seconds.".

(** The two warnings of [get_default_branch]. *)
Definition parse_warning (repo_full_name : string) : LogRecord :=
  (WARNING, "Could not parse default branch for " +:+ repo_full_name +:+
            ". Falling back to 'main'.").

Definition unexpected_warning (e : Exn) : LogRecord :=
  (WARNING, "An unexpected error occurred: " +:+ str_of_exn e).

(** The command line of the default-branch query. *)
Definition repo_view_args (repo_full_name : string) : list string :=
  ["repo"; "view"; repo_full_name; "--json"; "defaultBranchRef"].

(** A [json.loads] that rejects every text. *)
Definition loads_nothing : string -> option json := fun _ => None.

(** A run of [remove_dependency] in which [uv remove] fails for a reason
    other than a missing dependency, while the root manifest lists the
    plugin as a workspace member. *)
Definition env_uv_fails : project.RemoveEnv :=
  {| project.plugin_meta := project.Parsed (Some "foo");
     project.uv_remove :=
       process.SpawnCompleted 2 "" "error: Failed to parse `pyproject.toml`";
     project.root_doc :=
       Ret {| project.members := Some ["plugins/foo"; "plugins/bar"] |};
     project.write_text := None |}.

(** A run in which [uv remove] answers that the dependency is unknown. *)
Definition env_not_found : project.RemoveEnv :=
  {| project.plugin_meta := project.NoPyproject;
     project.uv_remove :=
       process.SpawnCompleted 2 ""
         "error: The dependency `foo` could not be found in dependencies; not found in dependencies";
     project.root_doc :=
       Ret {| project.members := Some ["plugins/foo"; "plugins/bar"] |};
     project.write_text := None |}.

(** The outcome of step 2 of [remove_dependency]. *)
Definition uv_remove_outcome (cfg : Config) (env : project.RemoveEnv)
    (pkg_name : string) : Res CmdResult :=
  (process.uv cfg (project.uv_remove env)
     ["remove"; (project.pkg_name_to_remove (project.plugin_meta env) pkg_name).1]
     (PROJECT_ROOT cfg) true false).2.

(** The log record written when a worker's exception is intercepted. *)
Definition critical_record (path exc : string) : LogRecord :=
  (ERROR, "CRITICAL: Worker for " +:+ nbm.name path +:+ " failed: " +:+ exc).

(** A worker's future ended with a value that the runner keeps. *)
Definition recorded (worker : string -> nbm.Outcome) (path : string) : Prop :=
  exists res, worker path = nbm.Returned res /\ nbm.truthy res = true.

(** Five repositories, and a worker that raises for ["bar"] and reports
    success for the others. *)
Definition five_repos : list string :=
  ["/srv/bot/plugins/alpha"; "/srv/bot/plugins/bar"; "/srv/bot/plugins/foo";
   "/srv/bot/plugins/gamma"; "/srv/bot/plugins/zeta"].

Definition bar_raises (path : string) : nbm.Outcome :=
  if String.eqb (nbm.name path) "bar" then nbm.Raised "boom"
  else nbm.Returned [("status", "success")].

(** One order in which the five futures may complete. *)
Definition five_completed : list string :=
  ["/srv/bot/plugins/foo"; "/srv/bot/plugins/zeta"; "/srv/bot/plugins/bar";
   "/srv/bot/plugins/alpha"; "/srv/bot/plugins/gamma"].

(** A state file and its contents before and after a write, for the
    examples: the texts [json.dump(..., indent=2)] gives for the states
    with the single members [a: 1] and [b: 2], the second one in the
    chunks handed to [f.write]. *)
Definition dq : string := String "034" EmptyString.
Definition newline : string := String "010" EmptyString.
Definition state_path : string := "/srv/bot/.manage_sync_state.json".
Definition old_text : string :=
  "{" +:+ newline +:+ "  " +:+ dq +:+ "a" +:+ dq +:+ ": 1" +:+ newline +:+ "}".
Definition new_chunks : list string :=
  ["{"; newline +:+ "  "; dq +:+ "b" +:+ dq; ": "; "2"; newline; "}"].
Definition new_text : string :=
  "{" +:+ newline +:+ "  " +:+ dq +:+ "b" +:+ dq +:+ ": 2" +:+ newline +:+ "}".
Definition old_fs : state.FS := {[ state_path := old_text ]}.

(** Positions of the lock operations in [try_ops], counted from 0, for a
    state written in [k] chunks. *)
Definition acquire_index (k : nat) : nat := S (S k).
Definition replace_index (k : nat) : nat := S (S (S (S k))).

(** An exception the [except] clause of [write] intercepts. *)
Definition intercepted (e : Exn) : Prop :=
  e = LockException \/ exists msg, e = OSError msg.

(** *** Vocabulary for the manifest rewriting *)

(** A dependency expressed as a local path (case 1 of
    [process_dependency]) or as a resolved local file (case 2). *)
Definition is_local_reference (dep_info : project.Item) : bool :=
  project.is_path_table dep_info ||
  Py.contains " @ file://" (project.item_str dep_info).

(** The package name under which such a dependency is declared. *)
Definition declared_name (dep_name : string) (dep_info : project.Item) : string :=
  if project.is_path_table dep_info then dep_name
  else Py.strip (Py.split_first " @ " (project.item_str dep_info)).

(** The (name, value) pairs handed to [process_dependency], in order:
    the main dependencies first, then every optional group. *)
Definition array_entries (items : list project.Item)
    : list (string * project.Item) :=
  map (fun i => (Py.split_first " @ " (project.item_str i), i)) items.

Definition all_entries (dependencies : project.Dependencies)
    (optional : list (option (list project.Item)))
    : list (string * project.Item) :=
  match dependencies with
  | project.DepTable entries => entries
  | project.DepArray items => array_entries items
  | project.DepOther => []
  end ++
  flat_map (fun g => match g with
                     | Some items => array_entries items
                     | None => []
                     end) optional.

Section emitted.
Variable cfg : Config.
Variable m : gmap string string.
Variable branch : string.

(** What one entry contributes to the output. *)
Definition emits (e : string * project.Item) : option string :=
  match (project.process_dependency cfg m branch e.1 e.2).2 with
  | Some p => if Py.truthy p then Some p else None
  | None => None
  end.

(** The lines a list of entries produces, and the log it leaves. *)
Definition emitted (entries : list (string * project.Item)) : gset string :=
  list_to_set (omap emits entries).

Definition logged (entries : list (string * project.Item)) : list LogRecord :=
  flat_map (fun e => (project.process_dependency cfg m branch e.1 e.2).1) entries.

End emitted.

(** A manifest for the examples: one path dependency and one local file
    reference with a plugin behind them, one local file reference
    without, and an ordinary requirement. *)
Definition demo_map : gmap string string :=
  project.build_map (default_config "/srv/bot") ["plugins/*"]
    [("nonebot-plugin-foo", Some "nonebot_plugin_foo");
     ("bar-repo", Some "bar_pkg");
     ("no-metadata", None)].

Definition demo_dependencies : project.Dependencies :=
  project.DepTable
    [("nonebot_plugin_foo", project.TableItem ["path"; "develop"] "{...}");
     ("fastapi", project.OtherItem ">=0.100")].

Definition demo_optional : list (option (list project.Item)) :=
  [Some [project.OtherItem "bar_pkg @ file:///srv/bot/plugins/bar-repo";
         project.OtherItem "ghost @ file:///srv/bot/plugins/ghost";
         project.OtherItem " httpx>=0.27,"]].

(** *** Vocabulary for repository URLs *)

(** Every character of [s] is in the class [p]. *)
Fixpoint all_chars (p : ascii -> bool) (s : string) : bool :=
  match s with
  | EmptyString => true
  | String c s' => p c && all_chars p s'
  end.

Definition no_slash (s : string) : Prop := Py.has_char "/" s = false.

(** The input contains ["github.com"], then ['/'] or [':'], then an
    owner and a repository segment without slashes up to its end. *)
Definition hosted_form (url : string) : Prop :=
  exists pre sep owner repo,
    url = pre +:+ "github.com" +:+ String sep (owner +:+ "/" +:+ repo) /\
    (sep = "/"%char \/ sep = ":"%char) /\
    owner <> "" /\ no_slash owner /\ repo <> "" /\ no_slash repo.

(** C9 as it is worded: the result is [owner/repo] without slashes in
    either segment, and when the input ends in [".git"] that suffix is
    not part of the result. *)
Definition stripped_pair (url r : string) : Prop :=
  (exists owner repo, r = owner +:+ "/" +:+ repo /\ no_slash owner /\ no_slash repo) /\
  (forall stem, url = stem +:+ ".git" -> exists pre, stem = pre +:+ r).

(** *** A small world for the examples

    The world is the list of directories that exist.  Every tool is
    installed and succeeds without output; [git clone] creates its
    target directory. *)
Definition dir_exists (w : list string) (p : string) : bool :=
  existsb (String.eqb p) w.

Definition quiet_spawn (w : list string) (cmd : list string) (cwd : string)
    : process.Spawn * list string :=
  match cmd with
  | ["git"; "clone"; _; target] => (process.SpawnCompleted 0 "" "", target :: w)
  | _ => (process.SpawnCompleted 0 "" "", w)
  end.

Definition make_dir (w : list string) (p : string) : list string :=
  if dir_exists w p then w else p :: w.

Definition remove_tree (w : list string) (p : string) : list string :=
  filter (fun q => negb (String.eqb p q)) w.

Definition demo_setup (url : string) :=
  project.setup_plugin_repo (default_config "/srv/bot") (list string)
    dir_exists quiet_spawn make_dir remove_tree loads_nothing url.

Definition empty_world : project.St (list string) :=
  project.Build_St [] [] [].

Definition foo_url : string := "https://github.com/acme/foo.git".

(** ** [nbm.py]: the workers of the batch commands

    Each worker runs in the monad of [project]: it threads the world, the
    log and the list of command lines it ran.  [get_current_branch] and
    [is_workspace_dirty] of [nbm_core/git.py] are embedded here as well,
    since they run [git]. *)

Module commands.

(** [s.ljust(n)], as the format [{s:<n}] pads. *)
Fixpoint spaces (n : nat) : string :=
  match n with
  | O => EmptyString
  | S n' => String " " (spaces n')
  end.

Definition ljust (n : nat) (s : string) : string :=
  s +:+ spaces (n - String.length s).

Section workers.
Variable cfg : Config.
Variable World : Type.
Variable spawn : World -> list string -> string -> process.Spawn * World.
Variable loads : string -> option json.
(** [str(v)] for a parsed value [v] that is not a [str]. *)
Variable str_other : json -> string.

Local Notation "'let*' x ':=' m 'in' k" := (project.bind World m (fun x => k))
  (at level 10, x name, m at level 100, k at level 200).
Local Notation "m ;;; k" := (project.bind World m (fun _ => k))
  (at level 90, right associativity).

Definition git_ := project.git_ cfg World spawn.
Definition logger := project.logger World.
Definition ret {A} (a : A) : project.M World A := project.ret World a.

(** [git.get_current_branch(cwd)] *)
Definition get_current_branch (cwd : string) : project.M World string :=
  git_ ["rev-parse"; "--abbrev-ref"; "HEAD"] cwd true true.

(** [git.is_workspace_dirty(cwd)] *)
Definition is_workspace_dirty (cwd : string) : project.M World bool :=
  let* status_output := git_ ["status"; "--porcelain"] cwd true true in
  ret (Py.truthy status_output).

(** The text an f-string gives for the default branch. *)
Definition branch_text (v : json) : string :=
  match v with
  | JStr s => s
  | _ => str_other v
  end.

(** [StatusCommand.worker(path)] *)
Definition status_worker (path : string) : project.M World nbm.Payload :=
  project.try_except_CommandError World
    (let* branch := get_current_branch path in
     let* dirty := is_workspace_dirty path in
     let dirty_str := if (dirty : bool) then "⚠️  Dirty" else "✅ Clean" in
     git_ ["fetch"; "origin"; branch] path false true ;;;
     let* ahead :=
       git_ ["rev-list"; "--count"; "origin/" +:+ branch +:+ "..HEAD"] path true true in
     let* behind :=
       git_ ["rev-list"; "--count"; "HEAD..origin/" +:+ branch] path true true in
     let status := "(" +:+ branch +:+ ") | " +:+ dirty_str +:+ " | Ahead: " +:+
                   ahead +:+ ", Behind: " +:+ behind in
     logger INFO ("  - " +:+ ljust 30 (nbm.name path) +:+ " " +:+ status) ;;;
     ret tt)
    (fun e =>
       logger WARNING ("  - " +:+ ljust 30 (nbm.name path) +:+ " ERROR: " +:+ e)) ;;;
  ret [].

(** [CommitCommand.worker(path)], for [self.args.message] and
    [self.change_id]; the returned [dict] has one Boolean member. *)
Definition commit_worker (message change_id : string) (path : string)
    : project.M World (list (string * bool)) :=
  let* dirty := is_workspace_dirty path in
  if negb dirty then ret []
  else
    let full_message :=
      message +:+ String "010" (String "010" ("Change-ID: " +:+ change_id)) in
    project.try_except_CommandError World
      (git_ ["add"; "."] path true false ;;;
       git_ ["commit"; "-m"; full_message] path true false ;;;
       logger INFO ("  - ✅ Committed changes in " +:+ nbm.name path) ;;;
       ret [("committed", true)])
      (fun e =>
         logger ERROR ("  - ❌ Failed to commit in " +:+ nbm.name path +:+ ": " +:+ e) ;;;
         ret [("committed", false)]).

(** [SyncCommand.worker(path)], for [getattr(self.args, "push", False)]. *)
Definition sync_worker (push : bool) (path : string)
    : project.M World nbm.Payload :=
  let repo_name :=
    if String.eqb path (PROJECT_ROOT cfg) then "root project" else nbm.name path in
  project.try_except_CommandError World
    (let* current_branch := get_current_branch path in
     if negb (String.eqb current_branch (DEV_BRANCH cfg)) then
       logger INFO ("  - 🔄 Skipping " +:+ repo_name +:+ " (not on '" +:+
                    DEV_BRANCH cfg +:+ "' branch)") ;;;
       ret [("status", "skipped"); ("reason", "wrong branch")]
     else
       git_ ["fetch"; "upstream"; "--prune"] path true true ;;;
       git_ ["fetch"; "origin"; "--prune"] path true true ;;;
       let* url := git_ ["remote"; "get-url"; "upstream"] path true false in
       let* main_branch :=
         match git.get_repo_name_from_url url with
         | Some (String c r) =>
             let* v := project.get_default_branch_ cfg World spawn loads (String c r) in
             ret (branch_text v)
         | _ => ret "main"
         end in
       logger INFO ("  - 🧬 Rebasing " +:+ repo_name +:+ " onto upstream/" +:+
                    main_branch +:+ "...") ;;;
       git_ ["rebase"; "upstream/" +:+ main_branch] path true false ;;;
       (if push then
          logger INFO ("  - 🚀 Pushing " +:+ repo_name +:+ " to origin/" +:+
                       DEV_BRANCH cfg +:+ "...") ;;;
          git_ ["push"; "--force-with-lease"; "origin"; DEV_BRANCH cfg] path true false ;;;
          ret tt
        else ret tt) ;;;
       ret [("status", "success")])
    (fun e =>
       logger ERROR ("  - ❌ Failed to sync " +:+ repo_name +:+ ":" +:+ String "010" e) ;;;
       logger INFO ("  💡 To resolve, go to '" +:+ path +:+
                    "' and manually run 'git rebase --abort' or fix conflicts.") ;;;
       ret [("status", "failed")]).

(** [PushCommand.worker(path)], for [self.args.force]. *)
Definition push_worker (force : bool) (path : string)
    : project.M World nbm.Payload :=
  let repo_name := nbm.name path in
  project.try_except_CommandError World
    (let* current_branch := get_current_branch path in
     logger INFO ("  - 🚀 Pushing " +:+ repo_name +:+ " (" +:+ current_branch +:+ ")...") ;;;
     (if force
      then git_ ["push"; "--force-with-lease"; "origin"; current_branch] path true false
      else git_ ["push"; "origin"; current_branch] path true false) ;;;
     ret [("status", "success")])
    (fun e =>
       logger ERROR ("  - ❌ Failed to push " +:+ repo_name +:+ ":" +:+ String "010" e) ;;;
       ret [("status", "failed")]).

(** [CheckoutCommand.worker(path)], for [self.args.branch_name] and
    [self.args.create_new]. *)
Definition checkout_worker (branch : string) (create_new : bool) (path : string)
    : project.M World nbm.Payload :=
  let repo_name := nbm.name path in
  project.try_except_CommandError World
    ((if create_new then
        logger INFO ("  - ✨ Creating branch '" +:+ branch +:+ "' in " +:+
                     repo_name +:+ "...") ;;;
        git_ ["checkout"; "-b"; branch] path true false
      else
        logger INFO ("  - 🔄 Switching to branch '" +:+ branch +:+ "' in " +:+
                     repo_name +:+ "...") ;;;
        git_ ["checkout"; branch] path true false) ;;;
     ret [("status", "success")])
    (fun e =>
       logger ERROR ("  - ❌ Failed to checkout in " +:+ repo_name +:+ ":" +:+
                     String "010" e) ;;;
       ret [("status", "failed")]).

(** [CleanupBranchesCommand.worker(path)], for [self.args.branch_name]. *)
Definition cleanup_worker (branch : string) (path : string)
    : project.M World nbm.Payload :=
  if String.eqb path (PROJECT_ROOT cfg) then
    ret [("status", "skipped"); ("reason", "root project")]
  else
    let repo_name := nbm.name path in
    project.try_except_CommandError World
      (let* remote_branch_exists :=
         git_ ["ls-remote"; "--heads"; "origin"; branch] path false true in
       if Py.truthy remote_branch_exists then
         logger INFO ("  - 🗑️ Deleting remote branch 'origin/" +:+ branch +:+
                      "' in " +:+ repo_name +:+ "...") ;;;
         git_ ["push"; "origin"; "--delete"; branch] path true false ;;;
         ret [("status", "deleted")]
       else ret [("status", "not_found")])
      (fun e =>
         logger ERROR ("  - ❌ Failed to delete branch in " +:+ repo_name +:+ ":" +:+
                       String "010" e) ;;;
         ret [("status", "failed")]).

End workers.

(** How a worker's run ends for the runner: the value of
    [future.result()], or the exception it re-raises. *)
Definition outcome {St : Type} (r : St * Res nbm.Payload) : nbm.Outcome :=
  match r.2 with
  | Ret res => nbm.Returned res
  | Raise e => nbm.Raised (str_of_exn e)
  end.

End commands.

(** *** Vocabulary for the workers *)

(** The exception is a [CommandError]. *)
Definition is_CommandError (e : Exn) : Prop :=
  exists msg res, e = CommandError msg res.

(** The command lines of the sync workflow, in order, for the default
    branch [main]; [lookup] is the hosting-service query, if one is made. *)
Definition sync_plan (cfg : Config) (push : bool) (lookup : list (list string))
    (main : string) : list (list string) :=
  [["git"; "rev-parse"; "--abbrev-ref"; "HEAD"];
   ["git"; "fetch"; "upstream"; "--prune"];
   ["git"; "fetch"; "origin"; "--prune"];
   ["git"; "remote"; "get-url"; "upstream"]] ++
  lookup ++
  [["git"; "rebase"; "upstream/" +:+ main]] ++
  (if push then [["git"; "push"; "--force-with-lease"; "origin"; DEV_BRANCH cfg]]
   else []).

(** No query at all, or one [gh repo view] for a repository name. *)
Definition is_lookup (lookup : list (list string)) : Prop :=
  lookup = [] \/
  exists name, lookup = [["gh"; "repo"; "view"; name; "--json"; "defaultBranchRef"]].

Definition status_of (res : nbm.Payload) : option string :=
  match res with
  | ("status", s) :: _ => Some s
  | _ => None
  end.

(** A world in which every command succeeds and prints [text]. *)
Definition answering (text : string) (w : unit) (cmd : list string)
    (cwd : string) : process.Spawn * unit :=
  (process.SpawnCompleted 0 text "", w).

Definition no_str : json -> string := fun _ => "".

Definition start : project.St unit := project.Build_St tt [] [].

(** ** More [str] methods *)

Module Str.

(** The characters at which [str.splitlines()] breaks a line, inside
    ASCII: LF, VT, FF, CR, FS, GS and RS. *)
Definition is_linebreak (c : ascii) : bool :=
  let n := nat_of_ascii c in
  (((10 <=? n) && (n <=? 13)) || ((28 <=? n) && (n <=? 30)))%nat.

(** [s.splitlines()]: [cur] is the line read so far.  A CR followed by
    LF is one break; a final break opens no further line. *)
Fixpoint splitlines_from (cur s : string) : list string :=
  match s with
  | EmptyString =>
      match cur with
      | EmptyString => []
      | _ => [cur]
      end
  | String c s' =>
      if is_linebreak c then
        cur ::
        match s' with
        | String c' s'' =>
            if Ascii.eqb c "013" && Ascii.eqb c' "010"
            then splitlines_from EmptyString s''
            else splitlines_from EmptyString s'
        | EmptyString => []
        end
      else splitlines_from (cur +:+ String c EmptyString) s'
  end.

Definition splitlines (s : string) : list string := splitlines_from EmptyString s.

(** [s.lower()], inside ASCII. *)
Definition lower_char (c : ascii) : ascii :=
  let n := nat_of_ascii c in
  if ((65 <=? n) && (n <=? 90))%nat then ascii_of_nat (n + 32) else c.

Fixpoint lower (s : string) : string :=
  match s with
  | EmptyString => EmptyString
  | String c s' => String (lower_char c) (lower s')
  end.

(** [s.endswith(suffix)] *)
Fixpoint endswith (suffix s : string) : bool :=
  String.eqb s suffix ||
  match s with
  | EmptyString => false
  | String _ s' => endswith suffix s'
  end.

End Str.

(** ** [nbm_core/project.py]: the plugin list file *)

Module plugins.

Inductive Action := add | remove.

(** A keyword argument that is given and true. *)
Definition given (o : option string) : option string :=
  match o with
  | Some s => if Py.truthy s then Some s else None
  | None => None
  end.

(** The test of the list comprehension of the [remove] branch: the line
    names the plugin. *)
Definition names_plugin (plugin_name line : string) : bool :=
  let l := Str.lower (Py.strip line) in
  Str.endswith ("/" +:+ Str.lower plugin_name) l ||
  Str.endswith ("/" +:+ Str.lower plugin_name +:+ ".git") l.

(** [line.strip()] is true. *)
Definition nonblank (line : string) : bool := Py.truthy (Py.strip line).

(** The text written back: the non-blank lines, each ended by LF. *)
Definition content (lines : list string) : string :=
  Py.join (String "010" EmptyString) (filter (fun l => nonblank l = true) lines)
  +:+ String "010" EmptyString.

Section update.
(** [config.PLUGINS_LIST_FILE.name] *)
Variable list_name : string.

(** [update_plugins_list(url=..., plugin_name=..., action=...)] on the
    text of the list file ([None]: no such file).  Returns the text of
    the file afterwards and the log. *)
Definition update_plugins_list (url plugin_name : option string)
    (action : Action) (file : option string)
    : option string * list LogRecord :=
  match file, action with
  | None, remove => (None, [])
  | _, _ =>
      let lines := match file with
                   | Some text => Str.splitlines text
                   | None => []
                   end in
      let '(lines', lg) :=
        match action, given url, given plugin_name with
        | add, Some u, _ =>
            if existsb (String.eqb u) lines then (lines, [])
            else (lines ++ [u],
                  [(INFO, "✅ Added '" +:+ u +:+ "' to " +:+ list_name +:+ ".")])
        | remove, _, Some n =>
            let kept := filter (fun line => names_plugin n line = false) lines in
            (kept,
             if (length kept <? length lines)%nat
             then [(INFO, "✅ Removed entry for '" +:+ n +:+ "' from " +:+
                          list_name +:+ ".")]
             else [(WARNING, "⚠️ Could not find an entry for '" +:+ n +:+
                             "' in " +:+ list_name +:+ ".")])
        | _, _, _ => (lines, [])
        end in
      (Some (content lines'), lg)
  end.

End update.
End plugins.

(** *** Vocabulary for the plugin list file *)

(** The line contains no line break. *)
Definition one_line (l : string) : Prop :=
  all_chars (fun c => negb (Str.is_linebreak c)) l = true.

(** The lines of the list file that count: the non-blank ones. *)
Definition entries (file : option string) : list string :=
  match file with
  | Some text => filter (fun l => plugins.nonblank l = true) (Str.splitlines text)
  | None => []
  end.

(** The lines of the list file as [update_plugins_list] reads them. *)
Definition read_lines (file : option string) : list string :=
  match file with
  | Some text => Str.splitlines text
  | None => []
  end.

(** Each line followed by LF. *)
Fixpoint lines_text (lines : list string) : string :=
  match lines with
  | [] => EmptyString
  | l :: rest => l +:+ String "010" (lines_text rest)
  end.

(** A list file for the examples. *)
Definition demo_list : string :=
  lines_text ["# plugins"; ""; "https://github.com/acme/bar";
              "https://github.com/Other/Foo.git"; "https://github.com/acme/food"].

(** ** [nbm_core/state.py]: reading the state, the transaction log *)

Module state_io.

(** The exceptions [read] intercepts. *)
Definition read_intercepts (e : Exn) : bool :=
  match e with
  | LockException | OSError _ | JSONDecodeError => true
  | _ => false
  end.

Section read.
(** [json.loads]: [None] stands for [JSONDecodeError]. *)
Variable loads : string -> option json.

(** [StateManager(path).read()]: [lock_fault] is what entering
    [portalocker.Lock(path, "r", timeout=5)] raises, if anything.  The
    file system is not changed. *)
Definition read (path : string) (lock_fault : option Exn) (fs : state.FS)
    : list LogRecord * Res json :=
  let failed e :=
    if read_intercepts e then
      ([(ERROR, "❌ Failed to read state file '" +:+ path +:+ "': " +:+
                str_of_exn e)], Ret (JDict []))
    else ([], Raise e) in
  match fs !! path with
  | None => ([], Ret (JDict []))
  | Some text =>
      match lock_fault with
      | Some e => failed e
      | None =>
          if (0 <? String.length text)%nat then
            match loads text with
            | Some v => ([], Ret v)
            | None => failed JSONDecodeError
            end
          else ([], Ret (JDict []))
      end
  end.

End read.

Section log.
(** [json.dumps(record, ensure_ascii=False)]: [None] stands for the
    [TypeError] of a record that cannot be serialized. *)
Variable dumps : json -> option string.

(** [TransactionLogger.log(record)] on the log file [log_file];
    [write_fault] is what opening or writing the file raises, if
    anything. *)
Definition log (log_file : string) (record : json) (write_fault : option Exn)
    (fs : state.FS) : state.FS * list LogRecord * Res unit :=
  let failed (e : Exn) :=
    (fs, [(ERROR, "❌ Failed to write to transaction log: " +:+ str_of_exn e)],
     Ret tt) in
  match dumps record with
  | None => failed TypeError
  | Some line =>
      match write_fault with
      | Some (OSError msg) => failed (OSError msg)
      | Some TypeError => failed TypeError
      | Some e => (fs, [], Raise e)
      | None =>
          let old := default EmptyString (fs !! log_file) in
          (<[log_file := old +:+ line +:+ String "010" EmptyString]> fs, [], Ret tt)
      end
  end.

(** A sequence of [log] calls; it stops at an exception that escapes. *)
Fixpoint log_all (log_file : string) (records : list (json * option Exn))
    (fs : state.FS) : state.FS * Res unit :=
  match records with
  | [] => (fs, Ret tt)
  | (record, fault) :: rest =>
      match log log_file record fault fs with
      | (fs', _, Ret _) => log_all log_file rest fs'
      | (fs', _, Raise e) => (fs', Raise e)
      end
  end.

End log.
End state_io.

(** *** Vocabulary for the state file and the log *)

(** The text [json.dump] writes, from its chunks. *)
Definition written_text (chunks : list string) : string :=
  foldr String.append EmptyString chunks.

(** The lines that the records of a run put in the log: one per record
    that is serialized and written without error. *)
Definition logged_lines (dumps : json -> option string)
    (records : list (json * option Exn)) : list string :=
  omap (fun rf => match rf.2 with
                  | None => dumps rf.1
                  | Some _ => None
                  end) records.

(** Only errors that [log] intercepts occur. *)
Definition log_faults_intercepted (records : list (json * option Exn)) : Prop :=
  Forall (fun rf => match rf.2 with
                    | None | Some (OSError _) | Some TypeError => True
                    | Some _ => False
                    end) records.

(** A serializer and a parser for the examples: they know the two state
    texts used above. *)
Definition demo_loads (text : string) : option json :=
  if String.eqb text new_text then Some (JDict [("b", JInt 2)])
  else if String.eqb text old_text then Some (JDict [("a", JInt 1)])
  else None.

Definition demo_dumps (v : json) : option string :=
  match v with
  | JDict [(k, JInt n)] =>
      if String.eqb k "synced" && (n =? 3)%Z
      then Some ("{" +:+ dq +:+ "synced" +:+ dq +:+ ": 3}")
      else if String.eqb k "pushed" && (n =? 2)%Z
      then Some ("{" +:+ dq +:+ "pushed" +:+ dq +:+ ": 2}")
      else if String.eqb k "failed" && (n =? 1)%Z
      then Some ("{" +:+ dq +:+ "failed" +:+ dq +:+ ": 1}")
      else None
  | _ => None
  end.

(** ** [nbm_core/project.py]: the production package, end to end *)

Module package.

(** [sorted(l)] for a list of [str]: Python orders strings by code
    point, which on their UTF-8 bytes is the bytewise order [String.le]. *)
Definition sorted (l : list string) : list string := merge_sort String.le l.

(** What the root [pyproject.toml] holds, once parsed, and what listing
    the plugin source directory gives (the directories with the package
    name read from each, or the exception [iterdir] raises).  The
    warning [_get_package_name_from_plugin_dir] logs for a plugin whose
    manifest cannot be parsed is not part of the log modelled here. *)
Record Manifest := {
  workspace_members : list string;
  plugin_dirs : Res (list (string * option string));
  dependencies : project.Dependencies;
  optional : list (option (list project.Item))
}.

Section create.
Variable cfg : Config.

(** The [logger.debug] records of the loop that builds the map. *)
Definition mapped (d : string * option string) : list LogRecord :=
  match d.2 with
  | Some pkg_name =>
      if Py.truthy pkg_name
      then [(DEBUG, "  - Mapped '" +:+ Py.replace_underscore pkg_name +:+
                    "' -> '" +:+ d.1 +:+ "'")]
      else []
  | None => []
  end.

Definition map_log (workspace_members : list string)
    (plugin_dirs : list (string * option string)) : list LogRecord :=
  flat_map (fun member_pattern =>
              if Py.startswith (plugins_src_dir cfg) member_pattern
              then flat_map mapped plugin_dirs
              else []) workspace_members.

Definition prod_input_path : string := PROJECT_ROOT cfg +:+ "/requirements.prod.in".
Definition prod_lock_path : string := PROJECT_ROOT cfg +:+ "/requirements.prod.txt".

Definition compile_command : list string :=
  ["uv"; "pip"; "compile"; prod_input_path; "-o"; prod_lock_path].

(** The [except Exception] clause. *)
Definition on_exception (e : Exn) (fs : state.FS) (log : list LogRecord)
    (calls : list (list string))
    : state.FS * list LogRecord * list (list string) :=
  (delete prod_input_path fs,
   log ++ [(ERROR, "❌ Failed to create production package: " +:+ str_of_exn e)],
   calls).

(** [create_production_package(target_branch)].  [manifest] is the
    result of reading and parsing the root manifest, [write_fault] what
    writing the input file raises, if anything, and [compile] how
    [uv pip compile] behaves.  The lock file written by [uv] is not part
    of the model. *)
Definition create_production_package (target_branch : string)
    (manifest : Res Manifest) (write_fault : option Exn)
    (compile : process.Spawn) (fs : state.FS)
    : state.FS * list LogRecord * list (list string) :=
  match manifest with
  | Raise e => on_exception e fs [] []
  | Ret data =>
      let log0 := [(INFO, "Building package name to repository name map...")] in
      let scanned :=
        if existsb (Py.startswith (plugins_src_dir cfg)) (workspace_members data)
        then plugin_dirs data else Ret [] in
      match scanned with
      | Raise e => on_exception e fs log0 []
      | Ret dirs =>
          let pkg_name_to_repo_name_map :=
            project.build_map cfg (workspace_members data) dirs in
          let '(prod_deps_set, warnings) :=
            project.prod_deps cfg pkg_name_to_repo_name_map target_branch
              (dependencies data) (optional data) in
          let log1 := map_log (workspace_members data) dirs ++ warnings in
          if decide (prod_deps_set = ∅) then
            (fs,
             log0 ++ log1 ++
               [(WARNING, "No dependencies found to generate production file.")],
             [])
          else
            let sorted_deps := sorted (elements prod_deps_set) in
            let log2 :=
              log0 ++ log1 ++
              [(INFO, "Generated " +:+ Py.str_of_Z (Z.of_nat (length sorted_deps)) +:+
                      " unique production dependency entries.")] in
            match write_fault with
            | Some e => on_exception e fs log2 []
            | None =>
                let fs1 :=
                  <[prod_input_path :=
                      Py.join (String "010" EmptyString) sorted_deps +:+
                      String "010" EmptyString]> fs in
                let log3 :=
                  log2 ++
                  [(INFO, "✅ Production input file 'requirements.prod.in' created.");
                   (INFO, "⚡️ Generating production lock file 'requirements.prod.txt'...")] in
                match process.uv cfg compile ["pip"; "compile"; prod_input_path;
                                              "-o"; prod_lock_path]
                        (PROJECT_ROOT cfg) true false with
                | (lg, Ret _) =>
                    (fs1,
                     log3 ++ lg ++
                       [(INFO, "✅ Production lock file generated successfully.")],
                     [compile_command])
                | (lg, Raise e) => on_exception e fs1 (log3 ++ lg) [compile_command]
                end
            end
      end
  end.

End create.
End package.

(** *** Vocabulary for the production package *)

(** The run ended in the [except] clause. *)
Definition gave_up (log : list LogRecord) : Prop :=
  exists msg, last log = Some (ERROR, "❌ Failed to create production package: " +:+ msg).

(** A manifest for the examples, over the plugins of [demo_map]. *)
Definition demo_manifest : package.Manifest :=
  {| package.workspace_members := ["plugins/*"];
     package.plugin_dirs :=
       Ret [("nonebot-plugin-foo", Some "nonebot_plugin_foo");
            ("bar-repo", Some "bar_pkg");
            ("no-metadata", None)];
     package.dependencies :=
       project.DepArray
         [project.OtherItem "nonebot_plugin_foo @ file:///srv/bot/plugins/nonebot-plugin-foo";
          project.OtherItem "fastapi>=0.100";
          project.OtherItem "fastapi>=0.100"];
     package.optional := demo_optional |}.


(** The last record of a run that produced the lock file, and of a run
    that found nothing to write. *)
Definition compile_succeeded : LogRecord :=
  (INFO, "✅ Production lock file generated successfully.").
Definition nothing_to_do : LogRecord :=
  (WARNING, "No dependencies found to generate production file.").

(** The same manifest with its dependencies listed once each and in
    another order. *)
Definition demo_manifest_reordered : package.Manifest :=
  {| package.workspace_members := ["plugins/*"];
     package.plugin_dirs :=
       Ret [("nonebot-plugin-foo", Some "nonebot_plugin_foo");
            ("bar-repo", Some "bar_pkg");
            ("no-metadata", None)];
     package.dependencies :=
       project.DepArray
         [project.OtherItem "fastapi>=0.100";
          project.OtherItem "nonebot_plugin_foo @ file:///srv/bot/plugins/nonebot-plugin-foo"];
     package.optional :=
       [None;
        Some [project.OtherItem " httpx>=0.27,";
              project.OtherItem "ghost @ file:///srv/bot/plugins/ghost"];
        Some [project.OtherItem "bar_pkg @ file:///srv/bot/plugins/bar-repo"]] |}.


(** ** [nbm_core/project.py]: the configuration templates *)

Module configs.

Definition MANAGE_TOML_TEMPLATE : string :=
  Py.join newline
    ["# nbm (NoneBot Manager) 配置文件";
     "# 请根据你的实际情况修改此文件";
     "";
     "[manager]";
     "# [必填] 你的 GitHub组织/用户名，用于存放所有插件的 Fork";
     "github_org = " +:+ dq +:+ "my-bot-workspace" +:+ dq;
     "";
     "# [可选] 存放插件源码的本地目录名";
     "plugins_src_dir = " +:+ dq +:+ "plugins" +:+ dq;
     "";
     "# [可选] 记录插件仓库地址列表的文件名";
     "plugins_list_file = " +:+ dq +:+ "plugins.txt" +:+ dq;
     "";
     "# [可选] 你希望在插件 Fork 中使用的主要开发分支名";
     "dev_branch = " +:+ dq +:+ "dev" +:+ dq;
     "";
     "# [可选] 并发执行任务时使用的最大线程数";
     "max_workers = 8";
     "";
     "# [可选] 执行外部命令（如 git, uv）的超时时间（秒）";
     "command_timeout = 1200"] +:+ newline.

Definition PLUGINS_TXT_TEMPLATE : string :=
  "# 请在此处逐行输入插件的 GitHub 仓库地址" +:+ newline.

Section check.
Variable cfg : Config.

Definition manage_toml : string := PROJECT_ROOT cfg +:+ "/manage.toml".
Definition plugins_txt : string := PROJECT_ROOT cfg +:+ "/plugins.txt".

(** One turn of the loop over [files_to_check]. *)
Definition ensure_file (path content : string) (fs : state.FS) : state.FS :=
  match fs !! path with
  | Some _ => fs
  | None => <[path := Py.strip content +:+ newline]> fs
  end.

(** [check_and_setup_configs()] on the files of the project root. *)
Definition check_and_setup_configs (fs : state.FS) : state.FS * list LogRecord :=
  let is_first_run :=
    match fs !! manage_toml with Some _ => false | None => true end in
  let fs' :=
    ensure_file plugins_txt PLUGINS_TXT_TEMPLATE
      (ensure_file manage_toml MANAGE_TOML_TEMPLATE fs) in
  (fs',
   if is_first_run then
     [(INFO, "⚠️  检测到首次运行，已为您创建模板配置文件。");
      (INFO, "👉 请打开并修改 'manage.toml'（特别是 'github_org'），");
      (INFO, "   并编辑 'plugins.txt'，然后重新运行。")]
   else []).

(** [SetupCommand.execute()] *)
Definition setup_command (fs : state.FS) : state.FS * list LogRecord :=
  let '(fs', lg) := check_and_setup_configs fs in
  (fs', lg ++ [(INFO, "✅ Configuration files are ready.")]).

End check.
End configs.

(** ** [nbm.py]: the commands that run once *)

Module cli.

(** How a command ends when no exception escapes it: it returns, or
    [sys.exit(code)] ends the process. *)
Inductive Ending := Finished | SysExit (code : Z).

(** What the direct [subprocess.run(["uv", "venv"], check=True, ...)] of
    [ensure_venv_exists] does: the program cannot be started, or it
    exits with a code.  This call has no timeout. *)
Inductive Bootstrap := ToolMissing | Exited (returncode : Z).

Section commands.
Variable cfg : Config.
(** [config.PLUGINS_LIST_FILE.name] *)
Variable list_name : string.
Variable World : Type.
Variable path_exists : World -> string -> bool.
Variable is_dir : World -> string -> bool.
Variable read_text : World -> string -> Res string.
Variable mkdir_p : World -> string -> World.
Variable spawn : World -> list string -> string -> process.Spawn * World.
Variable uv_venv : World -> Bootstrap * World.
(** [str(result)] for a [CompletedProcess]. *)
Variable str_result : CmdResult -> string.

Local Notation "'let*' x ':=' m 'in' k" := (project.bind World m (fun x => k))
  (at level 10, x name, m at level 100, k at level 200).
Local Notation "m ;;; k" := (project.bind World m (fun _ => k))
  (at level 90, right associativity).
Local Abbreviation M := (project.M World).

Definition git_ := project.git_ cfg World spawn.
Definition logger := project.logger World.
Definition ret {A} (a : A) : M A := project.ret World a.

Definition uv_ (args : list string) (cwd : string) (check quiet : bool)
    : M CmdResult :=
  project.external World spawn
    (fun sp => process.uv cfg sp args cwd check quiet) ("uv" :: args) cwd.

Definition do_read_text (p : string) : M string :=
  fun st => (st, read_text (project.world st) p).

(** Go on with [k] unless [m] ended the process. *)
Definition unless_exit (m k : M Ending) : M Ending :=
  let* e := m in
  match e with
  | Finished => k
  | SysExit code => ret (SysExit code)
  end.

(** [for x in l: body(x)] *)
Fixpoint for_each {A} (l : list A) (body : A -> M unit) : M unit :=
  match l with
  | [] => ret tt
  | x :: rest => body x ;;; for_each rest body
  end.

Definition venv_path : string := PROJECT_ROOT cfg +:+ "/.venv".

(** [ensure_venv_exists()] *)
Definition ensure_venv_exists : M Ending :=
  fun st =>
    if is_dir (project.world st) venv_path then (st, Ret Finished)
    else
      let log1 :=
        project.log st ++
        [(INFO, " Virtual environment not found. Creating one with `uv venv`...")] in
      let '(b, w') := uv_venv (project.world st) in
      let calls1 := project.calls st ++ [["uv"; "venv"]] in
      match b with
      | Exited 0 =>
          ({| project.world := w';
              project.log :=
                log1 ++ [(INFO, "✅ Virtual environment created at: " +:+ venv_path)];
              project.calls := calls1 |}, Ret Finished)
      | _ =>
          ({| project.world := w';
              project.log :=
                log1 ++
                [(ERROR, "❌ Failed to create virtual environment. " +:+
                         "Is `uv` installed and in your PATH?")];
              project.calls := calls1 |}, Ret (SysExit 1))
      end.

(** Truth value of a result object: neither class defines [__bool__]
    or [__len__]. *)
Definition truthy_result (result : CmdResult) : bool := true.

(** [DiagnoseCommand.execute()] *)
Definition diagnose : M Ending :=
  unless_exit ensure_venv_exists
    (logger INFO "🩺 Running dependency resolver to diagnose conflicts..." ;;;
     let* result := uv_ ["lock"] (PROJECT_ROOT cfg) false false in
     match result with
     | CompletedProcess 0 _ _ =>
         logger INFO "✅ No dependency conflicts detected!" ;;;
         ret Finished
     | _ =>
         logger ERROR (newline +:+ "--- ❗ Dependency Conflict Report ---") ;;;
         match result with
         | CompletedProcess _ _ (String c err) =>
             logger ERROR (Py.strip (String c err))
         | TimeoutExpired timeout _ =>
             logger ERROR ("The command timed out after " +:+ Py.str_of_Z timeout +:+
                           " seconds.")
         | _ =>
             if truthy_result result then
               logger ERROR ("The command failed with an unexpected result: " +:+
                             str_result result)
             else
               logger ERROR "Could not get output from uv. Is it installed correctly?"
         end ;;;
         ret Finished
     end).

Definition list_file : string := PROJECT_ROOT cfg +:+ "/" +:+ list_name.

(** The comprehension that reads the URLs from the text of the list
    file. *)
Definition read_urls (text : string) : list string :=
  map Py.strip
    (filter (fun ln => Py.truthy (Py.strip ln) && negb (Py.startswith "#" ln) = true)
       (Str.splitlines text)).

(** The arguments of the two [git] calls of the loop. *)
Definition pull_args (local_path : string) : list string :=
  ["-C"; local_path; "pull"; "origin"; DEV_BRANCH cfg].

Definition clone_args (clone_url local_path : string) : list string :=
  ["clone"; "--depth=1"; "-b"; DEV_BRANCH cfg; clone_url; local_path].

(** The body of the loop of [ProdSetupCommand.execute]. *)
Definition prod_setup_one (url : string) : M unit :=
  match git.get_repo_name_from_url url with
  | None => logger WARNING ("  - Invalid URL, skipping: " +:+ url)
  | Some EmptyString => logger WARNING ("  - Invalid URL, skipping: " +:+ url)
  | Some repo_name_with_owner =>
      let plugin_name := Py.split_last_slash repo_name_with_owner in
      let local_path := project.path_join (PLUGINS_SRC_DIR cfg) plugin_name in
      let fork_repo := YOUR_GITHUB_ORG cfg +:+ "/" +:+ plugin_name in
      let clone_url := "https://github.com/" +:+ fork_repo +:+ ".git" in
      let* there := project.local_path_exists World path_exists local_path in
      if (there : bool) then
        logger INFO ("  - Updating existing repo: " +:+ plugin_name) ;;;
        project.try_except_CommandError World
          (git_ (pull_args local_path) (PROJECT_ROOT cfg) true false ;;;
           ret tt)
          (fun e =>
             logger ERROR ("  - ❌ Failed to pull updates for " +:+ plugin_name +:+
                           ": " +:+ e))
      else
        logger INFO ("  - Cloning new repo: " +:+ plugin_name) ;;;
        project.try_except_CommandError World
          (git_ (clone_args clone_url local_path) (PROJECT_ROOT cfg) true false ;;;
           ret tt)
          (fun e =>
             logger ERROR ("  - ❌ Failed to clone " +:+ plugin_name +:+ ": " +:+ e))
  end.

(** [ProdSetupCommand.execute()] *)
Definition prod_setup : M Ending :=
  unless_exit ensure_venv_exists
    (let* there := project.local_path_exists World path_exists list_file in
     if negb there then
       logger WARNING ("🤷‍♀️ '" +:+ list_name +:+ "' not found. Aborting clone phase.") ;;;
       ret Finished
     else
       let* text := do_read_text list_file in
       let urls := read_urls text in
       logger INFO ("🚀 Starting to clone/update " +:+
                    Py.str_of_Z (Z.of_nat (length urls)) +:+
                    " plugin repositories...") ;;;
       project.do_mkdir World mkdir_p (PLUGINS_SRC_DIR cfg) ;;;
       for_each urls prod_setup_one ;;;
       logger INFO (newline +:+ "✅ All plugin sources are ready.") ;;;
       logger INFO "🔧 Syncing environment from lock file..." ;;;
       project.try_except_CommandError World
         (uv_ ["sync"; "--all-extras"] (PROJECT_ROOT cfg) true false ;;;
          logger INFO (newline +:+
                       "🎉 Production setup complete! Environment is ready.") ;;;
          ret Finished)
         (fun e =>
            logger ERROR (newline +:+ "❌ Failed to sync environment: " +:+ e) ;;;
            ret (SysExit 1))).

End commands.
End cli.


(** *** Vocabulary for the commands that run once *)

(** The command lines the loop of [prod-setup] may run for one URL:
    none for a URL that names no repository, otherwise one [git pull]
    or one [git clone] for the plugin. *)
Definition url_commands (cfg : Config) (url : string)
    (cmds : list (list string)) : Prop :=
  match git.get_repo_name_from_url url with
  | Some (String c r) =>
      let plugin_name := Py.split_last_slash (String c r) in
      let local_path := project.path_join (PLUGINS_SRC_DIR cfg) plugin_name in
      let fork_repo := YOUR_GITHUB_ORG cfg +:+ "/" +:+ plugin_name in
      let clone_url := "https://github.com/" +:+ fork_repo +:+ ".git" in
      cmds = ["git" :: cli.pull_args cfg local_path] \/
      cmds = ["git" :: cli.clone_args cfg clone_url local_path]
  | _ => cmds = []
  end.

Definition missing_output : LogRecord :=
  (ERROR, "Could not get output from uv. Is it installed correctly?").

Definition uv_not_found : Exn :=
  CommandError "Command 'uv' not found. Is it installed and in your system's PATH?"
    None.

(** A list file for the examples and the command run on it in the small
    world of directories. *)
Definition demo_urls : string :=
  "# plugins" +:+ newline +:+
  "https://github.com/acme/foo.git" +:+ newline +:+
  newline +:+
  "  not a repository" +:+ newline +:+
  "git@github.com:acme/bar" +:+ newline.

Definition demo_prod_setup :=
  cli.prod_setup (default_config "/srv/bot") "plugins.txt" (list string)
    dir_exists (fun _ _ => true) (fun _ _ => Ret demo_urls) make_dir quiet_spawn
    (fun w => (cli.Exited 0, w)).

(** The list file and the plugin [bar] exist. *)
Definition demo_prod_start : project.St (list string) :=
  project.Build_St ["/srv/bot/plugins.txt"; "/srv/bot/plugins/bar"] [] [].

(** * Properties *)

(** ** Sanity checks of the string helpers *)

Example strip_example : Py.strip (String "009" "  fatal: x " +:+ String "010" "") = "fatal: x".
Proof. reflexivity. Qed.

Example split_first_example :
  Py.split_first " @ " "my_pkg @ file:///srv/x" = "my_pkg" /\
  Py.split_first " @ " "fastapi>=0.1" = "fastapi>=0.1".
Proof. split; reflexivity. Qed.

Example split_last_slash_example :
  Py.split_last_slash "acme/foo" = "foo" /\ Py.split_last_slash "foo" = "foo".
Proof. split; reflexivity. Qed.

Example str_of_Z_example :
  Py.str_of_Z (-9) = "-9" /\ Py.str_of_Z 128 = "128" /\ Py.str_of_Z 0 = "0".
Proof. repeat split; reflexivity. Qed.

Lemma string_app_cons (x : Ascii.ascii) (a b : string) :
  String x a +:+ b = String x (a +:+ b).
Proof. reflexivity. Qed.
Lemma string_app_assoc (a b c : string) : (a +:+ b) +:+ c = a +:+ (b +:+ c).
Proof. induction a as [|x a IH]; [reflexivity|]. rewrite !string_app_cons. by rewrite IH. Qed.
Lemma string_app_length (a b : string) :
  String.length (a +:+ b) = String.length a + String.length b.
Proof. induction a as [|x a IH]; [reflexivity|]. rewrite string_app_cons. simpl. by rewrite IH. Qed.
Lemma string_app_nil_r (a : string) : a +:+ "" = a.
Proof. induction a as [|x a IH]; [reflexivity|]. rewrite string_app_cons. by rewrite IH. Qed.

Lemma contains_app_r (sub a b : string) :
  Py.contains sub b = true -> Py.contains sub (a +:+ b) = true.
Proof.
  intros H. induction a as [|c a IH]; simpl; [exact H|].
  rewrite IH. apply orb_true_r.
Qed.

Lemma truthy_true (s : string) : Py.truthy s = true <-> s <> "".
Proof. destruct s; simpl; split; congruence. Qed.

(** ** [process.run] *)

(** C4, as stated, fails: with [check=False] a timeout does not make
    [run] fail; the [TimeoutExpired] object is returned as the result
    (here for [uv lock], the call [DiagnoseCommand] makes). *)
Lemma run_timeout_unchecked_returns :
  let r := process.run (default_config "/srv/bot") (process.SpawnTimeout None)
             ["uv"; "lock"] "/srv/bot" false false in
  r.2 = Ret (TimeoutExpired 1200 None) /\
  ~ (exists msg res, r.2 = Raise (CommandError msg res)).
Proof.
  simpl. split; [reflexivity|]. intros (msg & res & H). discriminate H.
Qed.

(** C4 (amended): outcome of [run] on a non-empty command line.  A
    missing executable raises; a timeout raises when [check] holds and
    is returned as data otherwise; a non-zero exit raises exactly when
    [check] holds, with the stripped stderr as details when that is not
    empty and the stripped stdout otherwise; in every other case the
    completed process is returned. *)
Theorem run_outcomes (cfg : Config) (sp : process.Spawn) (cmd0 : string)
    (rest : list string) (cwd : string) (check quiet : bool) :
  let cmd := cmd0 :: rest in
  let r := (process.run cfg sp cmd cwd check quiet).2 in
  (sp = process.SpawnFileNotFound ->
     r = Raise (CommandError
                  ("Command '" +:+ cmd0 +:+
                   "' not found. Is it installed and in your system's PATH?")
                  None)) /\
  (forall partial, sp = process.SpawnTimeout partial ->
     let e := TimeoutExpired (COMMAND_TIMEOUT cfg) partial in
     (check = true -> r = Raise (CommandError (timeout_message cfg cmd) (Some e))) /\
     (check = false -> r = Ret e)) /\
  (forall rc out err, sp = process.SpawnCompleted rc out err ->
     let proc := CompletedProcess rc out err in
     (check = true -> rc <> 0%Z -> Py.strip err <> "" ->
        r = Raise (CommandError (exit_message cmd rc (Py.strip err)) (Some proc))) /\
     (check = true -> rc <> 0%Z -> Py.strip err = "" ->
        r = Raise (CommandError (exit_message cmd rc (Py.strip out)) (Some proc))) /\
     (check = false \/ rc = 0%Z -> r = Ret proc)) /\
  ((exists msg rc out err,
      r = Raise (CommandError msg (Some (CompletedProcess rc out err)))) <->
   (check = true /\
    exists rc out err, sp = process.SpawnCompleted rc out err /\ rc <> 0%Z)).
Proof.
  intros cmd r. subst r cmd.
  split; [|split; [|split; [|split]]].
  - intros ->. reflexivity.
  - intros partial -> e. subst e. split; intros ->; reflexivity.
  - intros rc out err -> proc. subst proc. simpl.
    split; [|split].
    + intros -> Hrc Herr.
      apply Z.eqb_neq in Hrc. rewrite Hrc. simpl.
      apply truthy_true in Herr. rewrite Herr. reflexivity.
    + intros -> Hrc Herr.
      apply Z.eqb_neq in Hrc. rewrite Hrc. simpl.
      rewrite Herr. reflexivity.
    + intros [-> | ->]; simpl.
      * destruct (rc =? 0)%Z; reflexivity.
      * reflexivity.
  - intros (msg & rc & out & err & H).
    destruct sp as [|partial|rc' out' err']; simpl in H.
    + discriminate H.
    + destruct check; discriminate H.
    + destruct (rc' =? 0)%Z eqn:E; simpl in H; [discriminate H|].
      apply Z.eqb_neq in E. destruct check; [|discriminate H].
      split; [reflexivity|]. exists rc', out', err'. split; [reflexivity|exact E].
  - intros (-> & rc & out & err & -> & Hrc). simpl.
    apply Z.eqb_neq in Hrc. rewrite Hrc. simpl. eauto.
Qed.

(** ** [git.get_default_branch] *)

Lemma stripped_text {A} (log : A) (out : string) :
  (if Py.truthy out then (log, Ret (Py.strip out)) else (log, Ret ""))
  = (log, Ret (Py.strip out)).
Proof. destruct out; reflexivity. Qed.

(** What a quiet, unchecked [gh] call gives for each behaviour of the
    tool. *)
Lemma gh_quiet_unchecked (cfg : Config) (sp : process.Spawn)
    (args : list string) (cwd : string) :
  process.gh cfg sp args cwd false true =
  match sp with
  | process.SpawnFileNotFound =>
      ([], Raise (CommandError
                    "Command 'gh' not found. Is it installed and in your system's PATH?"
                    None))
  | process.SpawnTimeout partial =>
      ([], Ret (match partial with Some out => Py.strip out | None => "" end))
  | process.SpawnCompleted _ out _ => ([], Ret (Py.strip out))
  end.
Proof.
  unfold process.gh. destruct sp as [|[out|]|rc out err]; simpl; try reflexivity.
  - apply stripped_text.
  - destruct (rc =? 0)%Z; simpl; apply stripped_text.
Qed.

(** C6, as stated, fails: when the hosting tool exits with an error and
    prints nothing on its standard output (an authentication failure),
    ["main"] is returned but no warning is logged. *)
Lemma default_branch_auth_failure_not_logged :
  let r := git.get_default_branch (default_config "/srv/bot") loads_nothing
             (process.SpawnCompleted 4 "" "gh: To get started, run: gh auth login")
             "acme/foo" in
  r = ([], Ret (JStr "main")) /\
  ~ (exists msg, In (WARNING, msg) r.1).
Proof.
  split; [reflexivity|]. intros (msg & H). exact H.
Qed.

(** C6 (amended): [get_default_branch] always returns and never raises.
    It returns ["main"] on every failure of the query; a warning is
    logged when the failure is an exception (tool missing, unparsable
    response, missing or wrongly shaped field), and nothing is logged
    when the response is empty (as after a network or authentication
    error) or parses to a false value.  Otherwise it returns the value
    found at [defaultBranchRef.name]. *)
Theorem get_default_branch_fallback (cfg : Config) (loads : string -> option json)
    (sp : process.Spawn) (repo : string) :
  let r := git.get_default_branch cfg loads sp repo in
  (exists v, r.2 = Ret v) /\
  (sp = process.SpawnFileNotFound ->
     exists e, r = ([unexpected_warning e], Ret (JStr "main"))) /\
  (forall rc out err, sp = process.SpawnCompleted rc out err ->
     Py.strip out = "" -> r = ([], Ret (JStr "main"))) /\
  (forall text,
     (process.gh cfg sp (repo_view_args repo) (PROJECT_ROOT cfg) false true).2
       = Ret text ->
     (text = "" -> r = ([], Ret (JStr "main"))) /\
     (text <> "" -> loads text = None ->
        r = ([parse_warning repo], Ret (JStr "main"))) /\
     (forall data, text <> "" -> loads text = Some data ->
        (Json.truthy data = false -> r = ([], Ret (JStr "main"))) /\
        (Json.truthy data = true ->
           (forall e, Json.subscript data "defaultBranchRef" = Raise e ->
              r.2 = Ret (JStr "main") /\ exists w, r.1 = [(WARNING, w)]) /\
           (forall ref, Json.subscript data "defaultBranchRef" = Ret ref ->
              (forall e, Json.subscript ref "name" = Raise e ->
                 r.2 = Ret (JStr "main") /\ exists w, r.1 = [(WARNING, w)]) /\
              (forall name, Json.subscript ref "name" = Ret name ->
                 r = ([], Ret name)))))).
Proof.
  intros r. subst r.
  unfold git.get_default_branch, git.get_default_branch_try, repo_view_args.
  rewrite gh_quiet_unchecked.
  split; [|split; [|split]].
  - destruct sp as [|partial|rc out err].
    + eauto.
    + destruct (Py.truthy _); [|eauto].
      destruct (loads _) as [data|]; [|eauto].
      destruct (Json.truthy data); [|eauto].
      destruct (Json.subscript data "defaultBranchRef") as [ref|[]]; eauto.
      destruct (Json.subscript ref "name") as [name|[]]; eauto.
    + destruct (Py.truthy _); [|eauto].
      destruct (loads _) as [data|]; [|eauto].
      destruct (Json.truthy data); [|eauto].
      destruct (Json.subscript data "defaultBranchRef") as [ref|[]]; eauto.
      destruct (Json.subscript ref "name") as [name|[]]; eauto.
  - intros ->. eauto.
  - intros rc out err -> Hout. rewrite Hout. reflexivity.
  - intros text Hgh.
    assert (Hbody :
      match sp with
      | process.SpawnFileNotFound =>
          ([], Raise (CommandError
                  "Command 'gh' not found. Is it installed and in your system's PATH?"
                  None))
      | process.SpawnTimeout partial =>
          ([], Ret (match partial with Some out => Py.strip out | None => "" end))
      | process.SpawnCompleted _ out _ => ([], Ret (Py.strip out))
      end = (@nil LogRecord, Ret text)).
    { destruct sp as [|partial|rc out err]; simpl in Hgh |- *; congruence. }
    rewrite Hbody. clear Hbody Hgh.
    split; [|split].
    + intros ->. reflexivity.
    + intros Hne Hl. apply truthy_true in Hne. rewrite Hne, Hl. reflexivity.
    + intros data Hne Hl. apply truthy_true in Hne. rewrite Hne, Hl.
      split.
      * intros ->. reflexivity.
      * intros ->. split.
        -- intros e ->. destruct e; simpl; eauto.
        -- intros ref ->. split.
           ++ intros e ->. destruct e; simpl; eauto.
           ++ intros name ->. reflexivity.
Qed.

(** ** [project.remove_dependency] *)

(** C8, as stated, fails: when [uv remove] fails for another reason than
    a missing dependency, the function returns [False] at once and the
    workspace-member list of the root manifest is not even read. *)
Lemma remove_dependency_uv_failure_skips_cleanup :
  let out := project.remove_dependency (default_config "/srv/bot")
               env_uv_fails "foo" in
  out.1.1 = Ret false /\
  out.2 = [project.UvRemove "foo"] /\
  ~ In project.ReadManifest out.2.
Proof.
  vm_compute. split; [reflexivity|]. split; [reflexivity|].
  intros [H|[]]. discriminate H.
Qed.

Example remove_dependency_not_found_continues :
  let out := project.remove_dependency (default_config "/srv/bot")
               env_not_found "foo" in
  out.1.1 = Ret true /\
  out.2 = [project.UvRemove "foo"; project.ReadManifest;
           project.WriteManifest ["plugins/bar"]].
Proof. vm_compute. split; reflexivity. Qed.

(** C8 (amended): the removal through the dependency tool always runs
    first.  When it succeeds, or fails with a message containing "not
    found in dependencies", the workspace-member cleanup runs and the
    function returns [True], whatever the cleanup itself meets (its own
    failures are only logged).  When it fails in any other way the
    function returns [False] and the cleanup is skipped. *)
Theorem remove_dependency_steps (cfg : Config) (env : project.RemoveEnv)
    (pkg_name : string) :
  let out := project.remove_dependency cfg env pkg_name in
  let to_remove :=
    (project.pkg_name_to_remove (project.plugin_meta env) pkg_name).1 in
  let cleanup := project.cleanup_workspace cfg env pkg_name in
  (exists rest, out.2 = project.UvRemove to_remove :: rest) /\
  (forall res, uv_remove_outcome cfg env pkg_name = Ret res ->
     out.1.1 = Ret true /\ out.2 = project.UvRemove to_remove :: cleanup.2) /\
  (forall msg res,
     uv_remove_outcome cfg env pkg_name = Raise (CommandError msg res) ->
     Py.contains "not found in dependencies" msg = true ->
     out.1.1 = Ret true /\ out.2 = project.UvRemove to_remove :: cleanup.2) /\
  (forall msg res,
     uv_remove_outcome cfg env pkg_name = Raise (CommandError msg res) ->
     Py.contains "not found in dependencies" msg = false ->
     out.1.1 = Ret false /\ out.2 = [project.UvRemove to_remove]) /\
  (forall rc out_text err,
     project.uv_remove env = process.SpawnCompleted rc out_text err ->
     rc <> 0%Z ->
     Py.contains "not found in dependencies" (Py.strip err) = true ->
     out.1.1 = Ret true /\ In project.ReadManifest out.2) /\
  In project.ReadManifest cleanup.2.
Proof.
  intros out to_remove cleanup. subst out to_remove cleanup.
  unfold uv_remove_outcome, project.remove_dependency.
  destruct (project.pkg_name_to_remove (project.plugin_meta env) pkg_name)
    as [to_remove log1] eqn:Hname. simpl.
  assert (Hclean : In project.ReadManifest
                     (project.cleanup_workspace cfg env pkg_name).2).
  { unfold project.cleanup_workspace.
    destruct (project.root_doc env) as [doc|e]; simpl; [|auto].
    destruct (project.members doc) as [[|m ms]|]; simpl; auto.
    destruct (_ || _); simpl; [|auto].
    destruct (project.write_text env); simpl; auto. }
  destruct (process.uv cfg (project.uv_remove env) ["remove"; to_remove]
              (PROJECT_ROOT cfg) true false) as [log2 r] eqn:Huv. simpl.
  destruct (project.cleanup_workspace cfg env pkg_name) as [log3 ev3] eqn:Hcl.
  simpl in Hclean.
  split; [|split; [|split; [|split; [|split]]]].
  - destruct r as [res|[msg res| | | | | |]]; simpl; eauto.
    destruct (Py.contains _ msg); simpl; eauto.
  - intros res ->. simpl. auto.
  - intros msg res -> Hc. rewrite Hc. simpl. auto.
  - intros msg res -> Hc. rewrite Hc. simpl. auto.
  - intros rc out_text err Hsp Hrc Herr.
    rewrite Hsp in Huv. unfold process.uv in Huv. simpl in Huv.
    apply Z.eqb_neq in Hrc. rewrite Hrc in Huv. simpl in Huv.
    assert (Hne : Py.truthy (Py.strip err) = true).
    { destruct (Py.strip err); [discriminate Herr|reflexivity]. }
    rewrite Hne in Huv. injection Huv as <- <-.
    match goal with
    | |- context [Py.contains ?sub ?msg] =>
        assert (Hc : Py.contains sub msg = true)
    end.
    { do 5 apply contains_app_r.
      change (Py.contains "not found in dependencies"
                (String "010" (Py.strip err)) = true).
      simpl. exact Herr. }
    rewrite Hc. simpl. auto.
  - exact Hclean.
Qed.

(** ** [nbm.ConcurrentCommand.execute] *)

Section collect_facts.
Variable worker : string -> nbm.Outcome.

Lemma collect_lookup_other (l : list string)
    (acc : gmap string nbm.Payload * list LogRecord) (n : string) :
  (forall p, p ∈ l -> nbm.name p = n -> ~ recorded worker p) ->
  (nbm.collect worker l acc).1 !! n = acc.1 !! n.
Proof.
  revert acc. induction l as [|p l IH]; intros acc Hno; simpl; [reflexivity|].
  assert (Hl : forall q, q ∈ l -> nbm.name q = n -> ~ recorded worker q).
  { intros q Hq. apply Hno. by right. }
  destruct (worker p) as [res|exc] eqn:Hw.
  - destruct (nbm.truthy res) eqn:Ht.
    + rewrite IH by exact Hl. simpl.
      apply lookup_insert_ne. intros Hn.
      apply (Hno p); [by left|exact Hn|]. exists res. auto.
    + apply IH, Hl.
  - rewrite IH by exact Hl. reflexivity.
Qed.

Lemma collect_keys (l : list string)
    (acc : gmap string nbm.Payload * list LogRecord) (n : string) :
  is_Some ((nbm.collect worker l acc).1 !! n) <->
  is_Some (acc.1 !! n) \/ exists p, p ∈ l /\ nbm.name p = n /\ recorded worker p.
Proof.
  revert acc. induction l as [|p l IH]; intros acc; simpl.
  - split; [auto|]. intros [H|(p & Hp & _)]; [exact H|]. by apply elem_of_nil in Hp.
  - assert (Hstep : forall acc',
      (is_Some (acc'.1 !! n) <->
       is_Some (acc.1 !! n) \/ (nbm.name p = n /\ recorded worker p)) ->
      is_Some ((nbm.collect worker l acc').1 !! n) <->
      is_Some (acc.1 !! n) \/
      exists q, q ∈ p :: l /\ nbm.name q = n /\ recorded worker q).
    { intros acc' Hacc. rewrite IH, Hacc. split.
      - intros [[H|[Hn Hr]]|(q & Hq & Hn & Hr)]; [by left| |].
        + right. exists p. split; [by left|auto].
        + right. exists q. split; [by right|auto].
      - intros [H|(q & Hq & Hn & Hr)]; [by left; left|].
        apply elem_of_cons in Hq as [->|Hq].
        + left. right. auto.
        + right. exists q. auto. }
    destruct (worker p) as [res|exc] eqn:Hw.
    + destruct (nbm.truthy res) eqn:Ht.
      * apply Hstep. simpl. rewrite lookup_insert.
        case_decide as Hn.
        -- split; [|intros _; by eexists].
           intros _. right. split; [exact Hn|]. exists res. auto.
        -- split; [by left|]. intros [H|[Hn' _]]; [exact H|contradiction].
      * apply Hstep. split; [by left|].
        intros [H|[_ (res' & Hr & Ht')]]; [exact H|]. congruence.
    + apply Hstep. simpl. split; [by left|].
      intros [H|[_ (res' & Hr & _)]]; [exact H|]. congruence.
Qed.

Lemma collect_size (l : list string)
    (acc : gmap string nbm.Payload * list LogRecord) :
  size (nbm.collect worker l acc).1 <= size acc.1 + length l.
Proof.
  revert acc. induction l as [|p l IH]; intros acc; simpl; [lia|].
  destruct (worker p) as [res|exc].
  - destruct (nbm.truthy res).
    + etransitivity; [apply IH|]. simpl. rewrite map_size_insert.
      destruct (acc.1 !! nbm.name p); unfold id; lia.
    + etransitivity; [apply IH|]. lia.
  - etransitivity; [apply IH|]. simpl. lia.
Qed.

Lemma collect_lookup_unique (l : list string)
    (acc : gmap string nbm.Payload * list LogRecord) (p : string)
    (res : nbm.Payload) :
  NoDup (nbm.name <$> l) -> p ∈ l ->
  worker p = nbm.Returned res -> nbm.truthy res = true ->
  (nbm.collect worker l acc).1 !! nbm.name p = Some res.
Proof.
  revert acc. induction l as [|q l IH]; intros acc Hnd Hp Hw Ht.
  - by apply elem_of_nil in Hp.
  - rewrite fmap_cons in Hnd. apply NoDup_cons in Hnd as [Hq Hnd].
    apply elem_of_cons in Hp as [<-|Hp]; simpl.
    + rewrite Hw, Ht. rewrite collect_lookup_other.
      * simpl. apply lookup_insert_eq.
      * intros q' Hq' Hn _. apply Hq. rewrite <- Hn.
        by apply list_elem_of_fmap_2.
    + destruct (worker q) as [res'|exc]; [destruct (nbm.truthy res')|];
        by apply IH.
Qed.

Lemma collect_log_mono (l : list string)
    (acc : gmap string nbm.Payload * list LogRecord) (r : LogRecord) :
  In r acc.2 -> In r (nbm.collect worker l acc).2.
Proof.
  revert acc. induction l as [|p l IH]; intros acc Hr; simpl; [exact Hr|].
  destruct (worker p) as [res|exc]; [destruct (nbm.truthy res)|]; apply IH; simpl;
    try exact Hr.
  apply in_or_app. by left.
Qed.

Lemma collect_logs_raised (l : list string)
    (acc : gmap string nbm.Payload * list LogRecord) (p exc : string) :
  p ∈ l -> worker p = nbm.Raised exc ->
  In (critical_record p exc) (nbm.collect worker l acc).2.
Proof.
  revert acc. induction l as [|q l IH]; intros acc Hp Hw.
  - by apply elem_of_nil in Hp.
  - apply elem_of_cons in Hp as [<-|Hp]; simpl.
    + rewrite Hw. apply collect_log_mono. simpl.
      apply in_or_app. right. by left.
    + destruct (worker q) as [res'|exc']; [destruct (nbm.truthy res')|];
        by apply IH.
Qed.

End collect_facts.

Lemma NoDup_names_inj (l : list string) (p q : string) :
  NoDup (nbm.name <$> l) -> p ∈ l -> q ∈ l -> nbm.name p = nbm.name q -> p = q.
Proof.
  induction l as [|x l IH]; intros Hnd Hp Hq Hn.
  - by apply elem_of_nil in Hp.
  - rewrite fmap_cons in Hnd. apply NoDup_cons in Hnd as [Hx Hnd].
    apply elem_of_cons in Hp as [->|Hp]; apply elem_of_cons in Hq as [->|Hq].
    + reflexivity.
    + exfalso. apply Hx. rewrite Hn. by apply list_elem_of_fmap_2.
    + exfalso. apply Hx. rewrite <- Hn. by apply list_elem_of_fmap_2.
    + by apply IH.
Qed.

(** C1, as stated, fails: the status command over one repository returns
    an empty mapping, because its worker returns an empty [dict] and the
    runner only keeps results that are true. *)
Lemma execute_status_returns_no_entry :
  let repos := ["/srv/bot/plugins/foo"] in
  let results :=
    (nbm.execute (default_config "/srv/bot") "status" "all"
       nbm.status_worker repos repos).1 in
  results = ∅ /\ size results <> length repos.
Proof.
  simpl. split; [reflexivity|]. rewrite map_size_empty. discriminate.
Qed.

(** C1 (amended): whatever the order in which the futures complete, the
    mapping returned by a batch run has at most [|R|] entries, and its
    keys are exactly the names of the repositories whose worker returned
    a non-empty result. *)
Theorem execute_result_keys (cfg : Config) (description scope : string)
    (worker : string -> nbm.Outcome) (R completed : list string) :
  completed ≡ₚ R ->
  let results := (nbm.execute cfg description scope worker R completed).1 in
  size results <= length R /\
  forall n, is_Some (results !! n) <->
            exists p, p ∈ R /\ nbm.name p = n /\ recorded worker p.
Proof.
  intros Hperm results. subst results. unfold nbm.execute.
  destruct R as [|p0 R'].
  - simpl. split.
    + rewrite map_size_empty. lia.
    + intros n. rewrite lookup_empty. split.
      * intros [x Hx]. discriminate Hx.
      * intros (p & Hp & _). by apply elem_of_nil in Hp.
  - split.
    + etransitivity; [apply collect_size|]. simpl.
      rewrite map_size_empty. apply Permutation_length in Hperm.
      simpl in Hperm. lia.
    + intros n. rewrite collect_keys. simpl. rewrite lookup_empty.
      split.
      * intros [[x Hx]|(p & Hp & H)]; [discriminate Hx|].
        exists p. split; [|exact H]. by rewrite <- Hperm.
      * intros (p & Hp & H). right. exists p. split; [|exact H].
        by rewrite Hperm.
Qed.

Lemma execute_result_keys_witness :
  five_completed ≡ₚ five_repos /\
  let results :=
    (nbm.execute (default_config "/srv/bot") "sync" "plugins" bar_raises
       five_repos five_completed).1 in
  size results <= length five_repos /\
  forall n, is_Some (results !! n) <->
            exists p, p ∈ five_repos /\ nbm.name p = n /\ recorded bar_raises p.
Proof.
  assert (H : five_completed ≡ₚ five_repos).
  { unfold five_completed, five_repos. solve_Permutation. }
  split; [exact H|].
  exact (execute_result_keys (default_config "/srv/bot") "sync" "plugins"
           bar_raises five_repos five_completed H).
Defined.

(** C2, as stated, fails: among five repositories the one whose worker
    raises gets no entry at all in the returned mapping (so no failed
    outcome either); the other four are there. *)
Lemma execute_raising_worker_not_recorded :
  let out := nbm.execute (default_config "/srv/bot") "sync" "plugins"
               bar_raises five_repos five_completed in
  out.1 !! "bar" = None /\
  size out.1 = 4 /\
  In (critical_record "/srv/bot/plugins/bar" "boom") out.2.
Proof.
  split; [|split].
  - vm_compute. reflexivity.
  - vm_compute. reflexivity.
  - vm_compute. right. left. reflexivity.
Qed.

(** C2 (amended): when the worker of a repository raises, the exception
    is intercepted and logged, the repository gets no entry in the
    returned mapping, and every other repository whose worker returned a
    non-empty result is in the mapping with that result (repository
    names being pairwise distinct). *)
Theorem execute_isolates_raising_worker (cfg : Config)
    (description scope : string) (worker : string -> nbm.Outcome)
    (R completed : list string) (bar exc : string) :
  completed ≡ₚ R ->
  NoDup (nbm.name <$> R) ->
  bar ∈ R ->
  worker bar = nbm.Raised exc ->
  let out := nbm.execute cfg description scope worker R completed in
  In (critical_record bar exc) out.2 /\
  out.1 !! nbm.name bar = None /\
  forall q res, q ∈ R -> worker q = nbm.Returned res -> nbm.truthy res = true ->
                out.1 !! nbm.name q = Some res.
Proof.
  intros Hperm Hnd Hbar Hw out. subst out. unfold nbm.execute.
  destruct R as [|p0 R']; [by apply elem_of_nil in Hbar|].
  assert (Hnd' : NoDup (nbm.name <$> completed)) by (by rewrite Hperm).
  split; [|split].
  - apply collect_logs_raised; [by rewrite Hperm|exact Hw].
  - rewrite collect_lookup_other; [apply lookup_empty|].
    intros p Hp Hn (res & Hr & _).
    assert (p = bar) as ->; [|congruence].
    rewrite Hperm in Hp.
    exact (NoDup_names_inj _ _ _ Hnd Hp Hbar Hn).
  - intros q res Hq Hr Ht.
    apply collect_lookup_unique; [exact Hnd'|by rewrite Hperm|exact Hr|exact Ht].
Qed.

Lemma execute_isolates_raising_worker_witness :
  five_completed ≡ₚ five_repos /\
  NoDup (nbm.name <$> five_repos) /\
  "/srv/bot/plugins/bar" ∈ five_repos /\
  bar_raises "/srv/bot/plugins/bar" = nbm.Raised "boom" /\
  let out := nbm.execute (default_config "/srv/bot") "sync" "plugins"
               bar_raises five_repos five_completed in
  In (critical_record "/srv/bot/plugins/bar" "boom") out.2 /\
  out.1 !! nbm.name "/srv/bot/plugins/bar" = None /\
  forall q res, q ∈ five_repos -> bar_raises q = nbm.Returned res ->
                nbm.truthy res = true -> out.1 !! nbm.name q = Some res.
Proof.
  assert (H1 : five_completed ≡ₚ five_repos).
  { unfold five_completed, five_repos. solve_Permutation. }
  assert (H2 : NoDup (nbm.name <$> five_repos)).
  { apply (bool_decide_unpack _). vm_compute. exact I. }
  assert (H3 : "/srv/bot/plugins/bar" ∈ five_repos).
  { apply (bool_decide_unpack _). vm_compute. exact I. }
  assert (H4 : bar_raises "/srv/bot/plugins/bar" = nbm.Raised "boom")
    by reflexivity.
  split; [exact H1|]. split; [exact H2|]. split; [exact H3|].
  split; [exact H4|].
  exact (execute_isolates_raising_worker (default_config "/srv/bot") "sync"
           "plugins" bar_raises five_repos five_completed
           "/srv/bot/plugins/bar" "boom" H1 H2 H3 H4).
Defined.

(** ** [state.StateManager.write] *)

Example write_succeeds :
  state.write state_path new_chunks state.no_fault old_fs
  = ({[ state_path := new_text ]}, [], Ret tt).
Proof. vm_compute. reflexivity. Qed.

(** C3 fails on the code: if execution stops once the lock on the target
    has been taken and before the replace, the target is an empty file,
    which is neither the prior nor the new state (and the temporary file
    is still there). *)
Theorem write_stopped_before_replace_truncates :
  let fs := state.write_stopped_after (replace_index (length new_chunks))
              state_path new_chunks old_fs in
  fs !! state_path = Some "" /\
  fs !! state_path <> Some old_text /\
  fs !! state_path <> Some new_text /\
  fs !! state.temp_path state_path = Some new_text.
Proof.
  vm_compute. repeat split; discriminate.
Qed.

(** The same for every prior content and every serialized state: after
    the lock is taken the target is empty until the replace happens. *)
Lemma try_ops_prefix (path : string) (chunks : list string) :
  take (replace_index (length chunks))
    (state.try_ops path chunks ++ [state.Unlink (state.temp_path path)])
  = [state.OpenW (state.temp_path path)] ++
    map (state.Write (state.temp_path path)) chunks ++
    [state.LockOpen path; state.LockAcquire path; state.LockTruncate path].
Proof.
  unfold state.try_ops, replace_index. simpl. f_equal.
  rewrite <- app_assoc.
  induction chunks as [|c chunks IH]; simpl; [reflexivity|].
  f_equal. exact IH.
Qed.

Lemma exec_no_fault_app (ops1 ops2 : list state.Op) (i : nat) (fs : state.FS) :
  (state.exec (ops1 ++ ops2) i (fun _ => None) fs).1
  = (state.exec ops2 (i + length ops1) (fun _ => None)
       (state.exec ops1 i (fun _ => None) fs).1).1.
Proof.
  revert i fs. induction ops1 as [|op ops1 IH]; intros i fs; simpl.
  - by rewrite Nat.add_0_r.
  - rewrite IH. by rewrite Nat.add_succ_r.
Qed.

Lemma write_stopped_before_replace (path : string) (chunks : list string)
    (fs : state.FS) :
  state.write_stopped_after (replace_index (length chunks)) path chunks fs
    !! path = Some "".
Proof.
  unfold state.write_stopped_after. rewrite try_ops_prefix.
  rewrite app_assoc, exec_no_fault_app. simpl.
  apply lookup_insert_eq.
Qed.

(** C10 fails on the code: when the replace raises [OSError], the call
    returns normally and logs the error, the temporary file is removed,
    but the target has already been truncated, so its previous content
    is lost. *)
Theorem write_replace_error_loses_state :
  let out := state.write state_path new_chunks
               (state.fault_at (replace_index (length new_chunks))
                  (OSError "[WinError 5] Access is denied"))
               old_fs in
  out.2 = Ret tt /\
  (exists msg, out.1.2 = [(ERROR, msg)]) /\
  out.1.1 !! state.temp_path state_path = None /\
  out.1.1 !! state_path = Some "" /\
  out.1.1 !! state_path <> Some old_text.
Proof.
  vm_compute. repeat split; try discriminate. eexists. reflexivity.
Qed.



(** A lock timeout leaves the content of an existing target as it was. *)
Lemma write_lock_timeout_keeps_target (path : string) (chunks : list string)
    (fs : state.FS) (old : string) :
  fs !! path = Some old ->
  (state.write path chunks
     (state.fault_at (acquire_index (length chunks)) LockException) fs).1.1
    !! path = Some old.
Proof.
  intros Hold. unfold state.write.
  assert (Hne : state.temp_path path <> path).
  { unfold state.temp_path. intros H.
    apply (f_equal String.length) in H. rewrite string_app_length in H.
    simpl in H. lia. }
  assert (He : forall l i fs0,
    fs0 !! path = Some old ->
    i + length l = S (length chunks) ->
    (state.exec
       (map (state.Write (state.temp_path path)) l ++
        [state.LockOpen path; state.LockAcquire path; state.LockTruncate path;
         state.Replace (state.temp_path path) path])
       i (state.fault_at (acquire_index (length chunks)) LockException) fs0)
    = ((state.exec (map (state.Write (state.temp_path path)) l) i
          (fun _ => None) fs0).1, Some LockException) /\
    (state.exec (map (state.Write (state.temp_path path)) l) i
          (fun _ => None) fs0).1 !! path = Some old).
  { induction l as [|c l IH]; intros i fs0 H0 Hi; simpl in *.
    - unfold state.fault_at, acquire_index.
      replace i with (S (length chunks)) by lia.
      destruct (Nat.eqb_spec (S (S (length chunks))) (S (length chunks)));
        [lia|].
      rewrite Nat.eqb_refl, H0. auto.
    - unfold state.fault_at at 1. unfold acquire_index.
      destruct (Nat.eqb_spec (S (S (length chunks))) i); [lia|].
      apply IH; [|lia].
      destruct (fs0 !! state.temp_path path); [|exact H0].
      by rewrite lookup_insert_ne. }
  unfold state.try_ops. simpl.
  destruct (He chunks 1 (<[state.temp_path path := ""]> fs)) as [-> Hl].
  - by rewrite lookup_insert_ne.
  - simpl. lia.
  - simpl. by rewrite lookup_delete_ne.
Qed.

(** ** [project.create_production_package]: rewriting the dependencies *)

Example demo_map_contents :
  map_to_list demo_map
  = [("bar-pkg", "bar-repo"); ("nonebot-plugin-foo", "nonebot-plugin-foo")] \/
  map_to_list demo_map
  = [("nonebot-plugin-foo", "nonebot-plugin-foo"); ("bar-pkg", "bar-repo")].
Proof. vm_compute. auto. Qed.

Example demo_prod_deps :
  elements (project.prod_deps (default_config "/srv/bot") demo_map "dev"
              demo_dependencies demo_optional).1
  ≡ₚ [">=0.100";
      "nonebot_plugin_foo @ git+https://github.com/my-bot-workspace/nonebot-plugin-foo.git@dev";
      "bar_pkg @ git+https://github.com/my-bot-workspace/bar-repo.git@dev";
      "httpx>=0.27"].
Proof. vm_compute. solve_Permutation. Qed.

Section rewriting_facts.
Variable cfg : Config.
Variable m : gmap string string.
Variable branch : string.

Lemma add_processed_spec (acc : gset string * list LogRecord)
    (e : string * project.Item) :
  project.add_processed cfg m branch acc e.1 e.2
  = (emitted cfg m branch [e] ∪ acc.1, acc.2 ++ logged cfg m branch [e]).
Proof.
  unfold project.add_processed, emitted, logged, emits. simpl.
  destruct (project.process_dependency cfg m branch e.1 e.2) as [lg [p|]]; simpl.
  - rewrite app_nil_r. destruct (Py.truthy p); simpl; f_equal; set_solver.
  - rewrite app_nil_r. f_equal. set_solver.
Qed.

Lemma emitted_app (l1 l2 : list (string * project.Item)) :
  emitted cfg m branch (l1 ++ l2)
  = emitted cfg m branch l1 ∪ emitted cfg m branch l2.
Proof. unfold emitted. rewrite omap_app. set_solver. Qed.

Lemma logged_app (l1 l2 : list (string * project.Item)) :
  logged cfg m branch (l1 ++ l2) = logged cfg m branch l1 ++ logged cfg m branch l2.
Proof. unfold logged. apply flat_map_app. Qed.

Lemma fold_entries (l : list (string * project.Item))
    (acc : gset string * list LogRecord) :
  foldl (fun a e => project.add_processed cfg m branch a e.1 e.2) acc l
  = (acc.1 ∪ emitted cfg m branch l, acc.2 ++ logged cfg m branch l).
Proof.
  revert acc. induction l as [|e l IH]; intros acc.
  - unfold emitted, logged. simpl. rewrite app_nil_r.
    destruct acc as [s lg]. simpl. f_equal. set_solver.
  - cbn [foldl]. change (e :: l) with ([e] ++ l).
    rewrite emitted_app, logged_app, IH, add_processed_spec.
    cbn [fst snd]. rewrite <- app_assoc. f_equal. set_solver.
Qed.

Lemma add_array_spec (items : list project.Item)
    (acc : gset string * list LogRecord) :
  project.add_array cfg m branch items acc
  = (acc.1 ∪ emitted cfg m branch (array_entries items),
     acc.2 ++ logged cfg m branch (array_entries items)).
Proof.
  unfold project.add_array, array_entries.
  rewrite <- fold_entries. generalize acc.
  induction items as [|i items IH]; intros acc0; simpl; [reflexivity|].
  apply IH.
Qed.

(** The output of the pipeline is what its entries emit, one by one. *)
Lemma prod_deps_spec (dependencies : project.Dependencies)
    (optional : list (option (list project.Item))) :
  project.prod_deps cfg m branch dependencies optional
  = (emitted cfg m branch (all_entries dependencies optional),
     logged cfg m branch (all_entries dependencies optional)).
Proof.
  unfold project.prod_deps, all_entries.
  rewrite emitted_app, logged_app.
  set (main := match dependencies with
               | project.DepTable entries => entries
               | project.DepArray items => array_entries items
               | project.DepOther => []
               end).
  assert (Hmain :
    match dependencies with
    | project.DepTable entries =>
        foldl (fun a e => project.add_processed cfg m branch a e.1 e.2) (∅, []) entries
    | project.DepArray items => project.add_array cfg m branch items (∅, [])
    | project.DepOther => (∅, [])
    end = (emitted cfg m branch main, logged cfg m branch main)).
  { subst main. destruct dependencies as [entries|items|].
    - rewrite fold_entries. simpl. f_equal. set_solver.
    - rewrite add_array_spec. simpl. f_equal. set_solver.
    - reflexivity. }
  rewrite Hmain. generalize (emitted cfg m branch main) (logged cfg m branch main).
  induction optional as [|g optional IH]; intros s lg; simpl.
  - unfold emitted, logged. simpl. rewrite app_nil_r. f_equal. set_solver.
  - destruct g as [items|].
    + rewrite add_array_spec, IH. simpl.
      rewrite emitted_app, logged_app, <- app_assoc. f_equal. set_solver.
    + apply IH.
Qed.

End rewriting_facts.

Lemma emitted_elem (cfg : Config) (m : gmap string string) (branch : string)
    (l : list (string * project.Item)) (e : string * project.Item) (x : string) :
  e ∈ l -> emits cfg m branch e = Some x -> x ∈ emitted cfg m branch l.
Proof.
  intros He Hx. unfold emitted. apply elem_of_list_to_set.
  apply list_elem_of_omap. eauto.
Qed.



Example unmatched_local_dependency_is_dropped :
  let cfg := default_config "/srv/bot" in
  project.process_dependency cfg demo_map "dev" "ghost"
    (project.OtherItem "ghost @ file:///srv/bot/plugins/ghost")
  = ([project.skip_warning "ghost"], None).
Proof. vm_compute. reflexivity. Qed.

(** ** [git.get_repo_name_from_url] *)

Example repo_name_examples :
  map git.get_repo_name_from_url
    ["https://github.com/acme/foo.git"; "git@github.com:acme/foo";
     "https://github.com/acme/foo.git.git"; "https://github.com/acme/foo/";
     "https://github.com/acme/foo/tree/main"; "https://gitlab.com/acme/foo";
     "https://github.com/acme/foo.git" +:+ newline]
  = [Some "acme/foo"; Some "acme/foo"; Some "acme/foo.git"; None; None; None;
     Some "acme/foo"].
Proof. vm_compute. reflexivity. Qed.

Lemma startswith_split (p s : string) :
  Py.startswith p s = true -> s = p +:+ Py.drop (String.length p) s.
Proof.
  revert s. induction p as [|a p IH]; intros s H; [reflexivity|].
  destruct s as [|b s]; [discriminate H|]. simpl in H.
  apply andb_true_iff in H as [Hab H].
  apply Ascii.eqb_eq in Hab as ->.
  rewrite string_app_cons. simpl. f_equal. by apply IH.
Qed.

Lemma startswith_app (p s : string) : Py.startswith p (p +:+ s) = true.
Proof.
  induction p as [|a p IH]; [reflexivity|].
  rewrite string_app_cons. simpl. by rewrite Ascii.eqb_refl, IH.
Qed.

Lemma drop_app (p s : string) : Py.drop (String.length p) (p +:+ s) = s.
Proof. induction p as [|a p IH]; [reflexivity|]. exact IH. Qed.

Lemma all_chars_app (p : ascii -> bool) (a b : string) :
  all_chars p (a +:+ b) = all_chars p a && all_chars p b.
Proof.
  induction a as [|c a IH]; [reflexivity|].
  rewrite string_app_cons. simpl. by rewrite IH, andb_assoc.
Qed.

Lemma all_not_slash (s : string) :
  all_chars git.not_slash s = true <-> no_slash s.
Proof.
  unfold no_slash, git.not_slash. induction s as [|c s IH]; simpl; [done|].
  destruct (Ascii.eqb c "/"); simpl; [split; discriminate|exact IH].
Qed.

Lemma has_char_app (c : ascii) (a b : string) :
  Py.has_char c (a +:+ b) = Py.has_char c a || Py.has_char c b.
Proof.
  induction a as [|x a IH]; [reflexivity|].
  rewrite string_app_cons. simpl. by rewrite IH, orb_assoc.
Qed.

(** The two repetitions: what a successful match consumed. *)
Lemma plus_greedy_sound (p : ascii -> bool)
    (k : string -> string -> option string) (s t g : string) :
  Re.plus_greedy p k s t = Some g ->
  exists a b, a <> "" /\ s = a +:+ b /\ all_chars p a = true /\
              k b (t +:+ a) = Some g.
Proof.
  revert t. induction s as [|c s IH]; intros t H; simpl in H; [discriminate|].
  destruct (p c) eqn:Hc; [|discriminate].
  destruct (Re.plus_greedy p k s (t +:+ String c "")) as [g'|] eqn:Hrec.
  - injection H as ->. apply IH in Hrec as (a & b & Ha & -> & Hall & Hk).
    exists (String c a), b. repeat split; [discriminate| |].
    + simpl. by rewrite Hc, Hall.
    + rewrite string_app_assoc in Hk. exact Hk.
  - exists (String c ""), s. repeat split; [discriminate| |exact H].
    simpl. by rewrite Hc.
Qed.

Lemma plus_lazy_sound (p : ascii -> bool)
    (k : string -> string -> option string) (s t g : string) :
  Re.plus_lazy p k s t = Some g ->
  exists a b, a <> "" /\ s = a +:+ b /\ all_chars p a = true /\
              k b (t +:+ a) = Some g /\
              forall a' b', a' <> "" -> s = a' +:+ b' ->
                            String.length a' < String.length a ->
                            k b' (t +:+ a') = None.
Proof.
  revert t. induction s as [|c s IH]; intros t H; simpl in H; [discriminate|].
  destruct (p c) eqn:Hc; [|discriminate].
  destruct (k s (t +:+ String c "")) as [g'|] eqn:Hk.
  - injection H as ->. exists (String c ""), s.
    repeat split; [discriminate| |exact Hk|].
    + simpl. by rewrite Hc.
    + intros a' b' Ha' _ Hlen. destruct a'; [done|]. simpl in Hlen. lia.
  - apply IH in H as (a & b & Ha & -> & Hall & Hkb & Hmin).
    exists (String c a), b. repeat split; [discriminate| | |].
    + simpl. by rewrite Hc, Hall.
    + rewrite string_app_assoc in Hkb. exact Hkb.
    + intros a' b' Ha' Heq Hlen. destruct a' as [|c' a']; [done|].
      rewrite !string_app_cons in Heq. injection Heq as <- Heq.
      destruct a' as [|c'' a'].
      * change ("" +:+ b') with b' in Heq. subst b'. exact Hk.
      * specialize (Hmin (String c'' a') b').
        rewrite string_app_assoc in Hmin. apply Hmin.
        -- discriminate.
        -- exact Heq.
        -- simpl in Hlen |- *. lia.
Qed.

Lemma search_sound (r : list Re.atom) (s g : string) :
  Re.search r s = Some g ->
  exists pre s', s = pre +:+ s' /\ Re.match_here r s' false "" = Some g.
Proof.
  induction s as [|c s IH]; simpl; intros H.
  - destruct (Re.match_here r "" false "") eqn:Hm; [|discriminate].
    exists "", "". split; [reflexivity|]. congruence.
  - destruct (Re.match_here r (String c s) false "") eqn:Hm.
    + exists "", (String c s). split; [reflexivity|]. congruence.
    + apply IH in H as (pre & s' & -> & H).
      exists (String c pre), s'. split; [reflexivity|exact H].
Qed.

(** The end of the pattern, [(\.git)?$]: what may follow the capture. *)
Lemma tail_sound (b g x : string) :
  Re.match_here [Re.OptLit ".git"; Re.Eol] b false g = Some x ->
  x = g /\ exists suf nl, b = suf +:+ nl /\ (suf = "" \/ suf = ".git") /\
                          (nl = "" \/ nl = newline).
Proof.
  cbn [Re.match_here Re.capture String.length]. intros H.
  assert (Heol : forall s, Re.at_eol s = true -> s = "" \/ s = newline).
  { intros [|c [|c' s]]; simpl; intros Hs; [by left| |discriminate].
    apply Ascii.eqb_eq in Hs as ->. by right. }
  destruct (Py.startswith ".git" b) eqn:Hs.
  - apply startswith_split in Hs. cbn [String.length] in Hs.
    destruct (Re.at_eol (Py.drop 4 b)) eqn:He.
    + injection H as <-. split; [reflexivity|].
      exists ".git", (Py.drop 4 b). split; [exact Hs|]. split; [by right|].
      by apply Heol.
    + destruct (Re.at_eol b) eqn:He'; [|discriminate]. injection H as <-.
      split; [reflexivity|]. exists "", b. split; [reflexivity|].
      split; [by left|]. by apply Heol.
  - destruct (Re.at_eol b) eqn:He'; [|discriminate]. injection H as <-.
    split; [reflexivity|]. exists "", b. split; [reflexivity|].
    split; [by left|]. by apply Heol.
Qed.

Lemma tail_complete_git (nl g : string) :
  nl = "" \/ nl = newline ->
  Re.match_here [Re.OptLit ".git"; Re.Eol] (".git" +:+ nl) false g = Some g.
Proof. intros [->| ->]; reflexivity. Qed.

(** Shape of every successful parse. *)
Lemma repo_name_shape (url r : string) :
  git.get_repo_name_from_url url = Some r ->
  exists pre sep owner repo suf nl,
    url = pre +:+ "github.com" +:+ String sep (owner +:+ "/" +:+ repo +:+ suf +:+ nl) /\
    r = owner +:+ "/" +:+ repo /\
    (sep = "/"%char \/ sep = ":"%char) /\
    owner <> "" /\ no_slash owner /\ repo <> "" /\ no_slash repo /\
    (suf = "" \/ suf = ".git") /\ (nl = "" \/ nl = newline) /\
    (suf = "" -> forall x, repo = x +:+ ".git" -> x = "").
Proof.
  unfold git.get_repo_name_from_url. intros H.
  apply search_sound in H as (pre & s' & -> & H).
  unfold git.repo_re in H.
  cbn [Re.match_here Re.capture String.length] in H.
  destruct (Py.startswith "github.com" s') eqn:Hlit; [|discriminate].
  apply startswith_split in Hlit. cbn [String.length] in Hlit.
  destruct (Py.drop 10 s') as [|sep s2] eqn:Hs2; [discriminate|].
  destruct (git.sep_class sep) eqn:Hsep; [|discriminate].
  apply plus_greedy_sound in H as (owner & b & Howner & -> & Hall & H).
  change ("" +:+ owner) with owner in H.
  destruct (Py.startswith "/" b) eqn:Hslash; [|discriminate].
  apply startswith_split in Hslash. cbn [String.length] in Hslash.
  apply plus_lazy_sound in H as (repo & b2 & Hrepo & Hb2 & Hall2 & H & Hmin).
  change ("" +:+ repo) with repo in H.
  apply tail_sound in H as (-> & suf & nl & -> & Hsuf & Hnl).
  exists pre, sep, owner, repo, suf, nl.
  split; [|split; [|split; [|split; [|split; [|split; [|split; [|split;
    [|split]]]]]]]].
  - rewrite Hlit, Hslash, Hb2. reflexivity.
  - change ("" +:+ owner) with owner. change ("" +:+ repo) with repo.
    by rewrite !string_app_assoc.
  - unfold git.sep_class in Hsep. apply orb_true_iff in Hsep as [Hc|Hc];
      apply Ascii.eqb_eq in Hc; auto.
  - exact Howner.
  - by apply all_not_slash.
  - exact Hrepo.
  - by apply all_not_slash.
  - exact Hsuf.
  - exact Hnl.
  - intros -> x ->. destruct x as [|c x]; [reflexivity|]. exfalso.
    specialize (Hmin (String c x) (".git" +:+ nl)).
    assert (Hnone :
      match
        (if Py.startswith ".git" (".git" +:+ nl)
         then
          if Re.at_eol (Py.drop 4 (".git" +:+ nl))
          then Some ((("" +:+ owner) +:+ "/") +:+ "" +:+ String c x)
          else None
         else None)
      with
      | Some x0 => Some x0
      | None =>
          if Re.at_eol (".git" +:+ nl)
          then Some ((("" +:+ owner) +:+ "/") +:+ "" +:+ String c x)
          else None
      end = None).
    { apply Hmin.
      - discriminate.
      - rewrite Hb2. change ("" +:+ nl) with nl.
        by rewrite !string_app_assoc.
      - rewrite string_app_length. simpl. lia. }
    rewrite startswith_app in Hnone.
    change 4 with (String.length ".git") in Hnone.
    rewrite drop_app in Hnone.
    destruct Hnl as [-> | ->]; discriminate Hnone.
Qed.

Lemma repo_name_nonempty (url r : string) :
  git.get_repo_name_from_url url = Some r -> r <> "".
Proof.
  intros H. apply repo_name_shape in H
    as (pre & sep & owner & repo & suf & nl & _ & -> & _ & Ho & _).
  destruct owner; [done|discriminate].
Qed.

(** Conversely, every input of that form is parsed. *)
Lemma plus_greedy_complete (p : ascii -> bool)
    (k : string -> string -> option string) (a b t : string) :
  a <> "" -> all_chars p a = true -> is_Some (k b (t +:+ a)) ->
  is_Some (Re.plus_greedy p k (a +:+ b) t).
Proof.
  revert t. induction a as [|c a IH]; intros t Ha Hall Hk; [done|].
  rewrite string_app_cons. simpl in Hall |- *.
  apply andb_true_iff in Hall as [Hc Hall]. rewrite Hc.
  destruct a as [|c' a].
  - change ("" +:+ b) with b.
    destruct (Re.plus_greedy p k b (t +:+ String c "")); [by eexists|exact Hk].
  - destruct (IH (t +:+ String c "")) as [g Hg]; [discriminate|exact Hall| |].
    + by rewrite string_app_assoc.
    + by rewrite Hg.
Qed.

Lemma plus_lazy_complete (p : ascii -> bool)
    (k : string -> string -> option string) (a b t : string) :
  a <> "" -> all_chars p a = true -> is_Some (k b (t +:+ a)) ->
  is_Some (Re.plus_lazy p k (a +:+ b) t).
Proof.
  revert t. induction a as [|c a IH]; intros t Ha Hall Hk; [done|].
  rewrite string_app_cons. simpl in Hall |- *.
  apply andb_true_iff in Hall as [Hc Hall]. rewrite Hc.
  destruct (k (a +:+ b) (t +:+ String c "")) eqn:Hka; [by eexists|].
  destruct a as [|c' a].
  - change ("" +:+ b) with b in Hka. rewrite Hka in Hk. by destruct Hk.
  - apply IH; [discriminate|exact Hall|]. by rewrite string_app_assoc.
Qed.

Lemma search_complete (r : list Re.atom) (pre s : string) :
  is_Some (Re.match_here r s false "") -> is_Some (Re.search r (pre +:+ s)).
Proof.
  intros Hs. induction pre as [|c pre IH].
  - change ("" +:+ s) with s. destruct s; simpl; destruct Hs as [g ->]; by eexists.
  - rewrite string_app_cons. simpl.
    destruct (Re.match_here r (String c (pre +:+ s)) false ""); [by eexists|exact IH].
Qed.

(** Every input that ends with ["github.com"], a ['/'] or [':'], and
    an owner and a repository segment, both non-empty and without a
    slash, is parsed: the result is not [None]. *)
Lemma repo_name_found (url : string) :
  hosted_form url -> is_Some (git.get_repo_name_from_url url).
Proof.
  intros (pre & sep & owner & repo & -> & Hsep & Ho & Hos & Hr & Hrs).
  unfold git.get_repo_name_from_url. apply search_complete.
  unfold git.repo_re. cbn [Re.match_here Re.capture String.length].
  rewrite startswith_app.
  change 10 with (String.length "github.com"). rewrite drop_app.
  assert (Hc : git.sep_class sep = true) by (by destruct Hsep as [-> | ->]).
  rewrite Hc.
  apply plus_greedy_complete; [exact Ho|by apply all_not_slash|].
  rewrite startswith_app.
  change 1 with (String.length "/"). rewrite drop_app.
  rewrite <- (string_app_nil_r repo).
  apply plus_lazy_complete; [exact Hr|by apply all_not_slash|].
  by eexists.
Qed.

Lemma repo_name_found_witness :
  hosted_form "git@github.com:acme/foo.git" /\
  is_Some (git.get_repo_name_from_url "git@github.com:acme/foo.git").
Proof.
  assert (H : hosted_form "git@github.com:acme/foo.git").
  { exists "git@", ":"%char, "acme", "foo.git".
    split; [reflexivity|]. split; [by right|].
    split; [discriminate|]. split; [reflexivity|].
    split; [discriminate|reflexivity]. }
  split; [exact H|exact (repo_name_found _ H)].
Defined.

Lemma suffix_is_drop (stem pre r : string) :
  stem = pre +:+ r ->
  Py.drop (String.length stem - String.length r) stem = r.
Proof.
  intros ->. rewrite string_app_length.
  replace (String.length pre + String.length r - String.length r)
    with (String.length pre) by lia.
  apply drop_app.
Qed.

(** C9, as stated, fails: for a repository segment that is exactly
    [".git"] the suffix is kept, since the segment may not be empty. *)
Lemma repo_name_keeps_bare_git_segment :
  git.get_repo_name_from_url "https://github.com/acme/.git" = Some "acme/.git" /\
  ~ stripped_pair "https://github.com/acme/.git" "acme/.git".
Proof.
  split; [vm_compute; reflexivity|].
  intros [_ H].
  destruct (H "https://github.com/acme/" eq_refl) as [pre Hpre].
  apply suffix_is_drop in Hpre. vm_compute in Hpre. discriminate Hpre.
Qed.

(** C9 (amended): [get_repo_name_from_url] returns [None] or a string
    [owner/repo] whose two segments are non-empty and free of slashes;
    the input then ends with ["github.com"], ['/'] or [':'], that pair,
    an optional [".git"] and an optional final newline, so that one
    trailing [".git"] is left out of the result unless the repository
    segment is [".git"] itself.  It returns [None] whenever the input
    has no ["github.com"], separator and slash-free pair at its end. *)
Theorem repo_name_result (url : string) :
  (git.get_repo_name_from_url url = None \/
   exists pre sep owner repo suf nl,
     git.get_repo_name_from_url url = Some (owner +:+ "/" +:+ repo) /\
     url = pre +:+ "github.com" +:+
           String sep (owner +:+ "/" +:+ repo +:+ suf +:+ nl) /\
     (sep = "/"%char \/ sep = ":"%char) /\
     owner <> "" /\ no_slash owner /\ repo <> "" /\ no_slash repo /\
     (suf = "" \/ suf = ".git") /\ (nl = "" \/ nl = newline) /\
     (suf = "" -> forall x, repo = x +:+ ".git" -> x = "")) /\
  (~ hosted_form url -> git.get_repo_name_from_url url = None).
Proof.
  destruct (git.get_repo_name_from_url url) as [r|] eqn:Hr; [|by split; [left|]].
  apply repo_name_shape in Hr
    as (pre & sep & owner & repo & suf & nl & Hurl & -> & Hsep & Ho & Hos & Hre
        & Hrs & Hsuf & Hnl & Hstrip).
  split.
  - right. exists pre, sep, owner, repo, suf, nl. repeat split; auto.
  - intros Hno. exfalso. apply Hno.
    exists pre, sep, owner, (repo +:+ suf +:+ nl).
    repeat split; auto.
    + destruct repo; [done|discriminate].
    + unfold no_slash in *. rewrite !has_char_app, Hrs.
      destruct Hsuf as [-> | ->], Hnl as [-> | ->]; reflexivity.
Qed.

(** Completeness on the usual forms: a final [owner/repo] or
    [owner/repo.git] after the host is found. *)
Example repo_name_scenario :
  git.get_repo_name_from_url "https://github.com/acme/foo.git" = Some "acme/foo" /\
  Py.split_last_slash "acme/foo" = "foo" /\
  project.path_join (PLUGINS_SRC_DIR (default_config "/srv/bot")) "foo"
  = "/srv/bot/plugins/foo".
Proof. vm_compute. auto. Qed.

(** ** [project.setup_plugin_repo] *)

(** A first call clones and reports success; a second call with the same
    URL reports that the plugin exists and runs nothing. *)
Example setup_twice :
  let '(st1, r1) := demo_setup foo_url empty_world in
  let '(st2, r2) := demo_setup foo_url st1 in
  r1 = Ret (project.success, Some "/srv/bot/plugins/foo") /\
  project.calls st1 =
    [["gh"; "repo"; "view"; "my-bot-workspace/foo"];
     ["gh"; "repo"; "fork"; "acme/foo"; "--org=my-bot-workspace"];
     ["git"; "clone"; "https://github.com/my-bot-workspace/foo.git";
      "/srv/bot/plugins/foo"];
     ["git"; "remote"; "add"; "upstream"; foo_url];
     ["git"; "ls-remote"; "--heads"; "origin"; "refs/heads/dev"];
     ["gh"; "repo"; "view"; "acme/foo"; "--json"; "defaultBranchRef"];
     ["git"; "fetch"; "upstream"; "main"];
     ["git"; "checkout"; "-b"; "dev"; "upstream/main"];
     ["git"; "push"; "-u"; "origin"; "dev"]] /\
  r2 = Ret (project.exists_, Some "/srv/bot/plugins/foo") /\
  project.calls st2 = project.calls st1 /\
  project.world st2 = project.world st1.
Proof. vm_compute. repeat split; reflexivity. Qed.

Section setup_facts.
Variable cfg : Config.
Variable World : Type.
Variable path_exists : World -> string -> bool.
Variable spawn : World -> list string -> string -> process.Spawn * World.
Variable mkdir_p : World -> string -> World.
Variable rmtree : World -> string -> World.
Variable loads : string -> option json.

Local Abbreviation setup :=
  (project.setup_plugin_repo cfg World path_exists spawn mkdir_p rmtree loads).

(** C7: with a parsable URL whose canonical plugin directory exists,
    [setup_plugin_repo] returns ["exists"] with that path, runs no
    external command and leaves the world as it is; calling it again in
    the state it returns gives the same answer, again without running
    anything. *)
Theorem setup_existing_plugin (url repo_name : string)
    (st : project.St World) :
  git.get_repo_name_from_url url = Some repo_name ->
  let local_path :=
    project.path_join (PLUGINS_SRC_DIR cfg) (Py.split_last_slash repo_name) in
  path_exists (project.world st) local_path = true ->
  exists st1 st2,
    setup url st = (st1, Ret (project.exists_, Some local_path)) /\
    project.world st1 = project.world st /\
    project.calls st1 = project.calls st /\
    setup url st1 = (st2, Ret (project.exists_, Some local_path)) /\
    project.world st2 = project.world st /\
    project.calls st2 = project.calls st.
Proof.
  intros Hurl local_path Hthere.
  assert (Hne : repo_name <> "") by exact (repo_name_nonempty _ _ Hurl).
  assert (Hstep : forall s : project.St World,
    project.world s = project.world st ->
    exists s',
      setup url s = (s', Ret (project.exists_, Some local_path)) /\
      project.world s' = project.world s /\
      project.calls s' = project.calls s).
  { intros s Hs. unfold project.setup_plugin_repo.
    rewrite Hurl. destruct repo_name as [|c rn]; [done|].
    fold local_path.
    unfold project.bind, project.local_path_exists, project.logger, project.ret.
    rewrite Hs, Hthere. eexists. split; [reflexivity|].
    split; simpl; congruence. }
  destruct (Hstep st eq_refl) as (st1 & H1 & Hw1 & Hc1).
  destruct (Hstep st1 Hw1) as (st2 & H2 & Hw2 & Hc2).
  exists st1, st2. repeat split; congruence.
Qed.

End setup_facts.

Lemma setup_existing_plugin_witness :
  let st := project.Build_St ["/srv/bot/plugins/foo"] [] [] in
  git.get_repo_name_from_url foo_url = Some "acme/foo" /\
  dir_exists (project.world st) "/srv/bot/plugins/foo" = true /\
  exists st1 st2,
    demo_setup foo_url st
      = (st1, Ret (project.exists_, Some "/srv/bot/plugins/foo")) /\
    project.world st1 = project.world st /\
    project.calls st1 = project.calls st /\
    demo_setup foo_url st1
      = (st2, Ret (project.exists_, Some "/srv/bot/plugins/foo")) /\
    project.world st2 = project.world st /\
    project.calls st2 = project.calls st.
Proof.
  intros st.
  assert (H1 : git.get_repo_name_from_url foo_url = Some "acme/foo")
    by (vm_compute; reflexivity).
  assert (H2 : dir_exists (project.world st)
                 (project.path_join (PLUGINS_SRC_DIR (default_config "/srv/bot"))
                    (Py.split_last_slash "acme/foo")) = true)
    by (vm_compute; reflexivity).
  split; [exact H1|]. split; [exact H2|].
  exact (setup_existing_plugin (default_config "/srv/bot") (list string)
           dir_exists quiet_spawn make_dir remove_tree loads_nothing
           foo_url "acme/foo" st H1 H2).
Defined.

(** ** The workers of the batch commands *)

Section worker_facts.
Variable cfg : Config.
Variable World : Type.
Variable spawn : World -> list string -> string -> process.Spawn * World.
Variable loads : string -> option json.
Variable str_other : json -> string.

Local Abbreviation St := (project.St World).

(** How each building block of a worker can end. *)
Lemma bind_inv {A B} (m : project.M World A) (k : A -> project.M World B)
    (st st' : St) (r : Res B) :
  project.bind World m k st = (st', r) ->
  (exists st1 a, m st = (st1, Ret a) /\ k a st1 = (st', r)) \/
  (exists e, m st = (st', Raise e) /\ r = Raise e).
Proof.
  unfold project.bind. destruct (m st) as [st1 [a|e]]; intros H.
  - left. eauto.
  - right. injection H as <- <-. eauto.
Qed.

Lemma ret_inv {A} (a : A) (st st' : St) (r : Res A) :
  commands.ret World a st = (st', r) -> st' = st /\ r = Ret a.
Proof. intros [= <- <-]. auto. Qed.

Lemma logger_inv (lvl : Level) (msg : string) (st st' : St) (r : Res unit) :
  commands.logger World lvl msg st = (st', r) ->
  r = Ret tt /\ project.calls st' = project.calls st /\
  project.world st' = project.world st.
Proof. intros [= <- <-]. auto. Qed.

Lemma run_raises_CommandError (sp : process.Spawn) (cmd0 : string)
    (rest : list string) (cwd : string) (check quiet : bool) (e : Exn) :
  (process.run cfg sp (cmd0 :: rest) cwd check quiet).2 = Raise e ->
  is_CommandError e.
Proof.
  unfold is_CommandError.
  destruct sp as [|partial|rc out err]; simpl.
  - intros [= <-]. eauto.
  - destruct check; simpl; [|discriminate]. intros [= <-]. eauto.
  - destruct (rc =? 0)%Z; simpl; [discriminate|].
    destruct check; simpl; [|discriminate]. intros [= <-]. eauto.
Qed.

Lemma git_inv (args : list string) (cwd : string) (check quiet : bool)
    (st st' : St) (r : Res string) :
  commands.git_ cfg World spawn args cwd check quiet st = (st', r) ->
  project.calls st' = project.calls st ++ ["git" :: args] /\
  (forall e, r = Raise e -> is_CommandError e) /\
  exists sp, sp = (spawn (project.world st) ("git" :: args) cwd).1 /\
             r = (process.git cfg sp args cwd check quiet).2.
Proof.
  unfold commands.git_, project.git_, project.external.
  destruct (spawn (project.world st) ("git" :: args) cwd) as [sp w'] eqn:Hsp.
  destruct (process.git cfg sp args cwd check quiet) as [lg r0] eqn:Hg.
  intros [= <- <-]. split; [reflexivity|]. split.
  - intros e ->. unfold process.git, process.stripped_stdout in Hg.
    destruct (process.run cfg sp ("git" :: args) cwd check quiet)
      as [lg' [res|e']] eqn:Hr.
    + destruct (process.result_stdout res) as [out|];
        [destruct (Py.truthy out)|]; discriminate Hg.
    + injection Hg as <- <-.
      apply (run_raises_CommandError sp "git" args cwd check quiet).
      by rewrite Hr.
  - exists sp. simpl. by rewrite Hg.
Qed.

Lemma default_branch_inv (name : string) (st st' : St) (r : Res json) :
  project.get_default_branch_ cfg World spawn loads name st = (st', r) ->
  project.calls st' =
    project.calls st ++ [["gh"; "repo"; "view"; name; "--json"; "defaultBranchRef"]] /\
  exists v, r = Ret v.
Proof.
  unfold project.get_default_branch_, project.external.
  destruct (spawn _ _ _) as [sp w'].
  destruct (git.get_default_branch cfg loads sp name) as [lg r0] eqn:Hg.
  intros [= <- <-]. split; [reflexivity|].
  unfold git.get_default_branch in Hg.
  destruct (git.get_default_branch_try cfg loads sp name) as [lg' [[v|]|e]].
  - injection Hg as <- <-. eauto.
  - injection Hg as <- <-. eauto.
  - destruct e; injection Hg as <- <-; eauto.
Qed.

Lemma try_inv {A} (body : project.M World A) (h : string -> project.M World A)
    (st st' : St) (r : Res A) :
  project.try_except_CommandError World body h st = (st', r) ->
  (exists a, body st = (st', Ret a) /\ r = Ret a) \/
  (exists st1 msg res, body st = (st1, Raise (CommandError msg res)) /\
                       h msg st1 = (st', r)) \/
  (exists e, body st = (st', Raise e) /\ ~ is_CommandError e /\ r = Raise e).
Proof.
  unfold project.try_except_CommandError.
  destruct (body st) as [st1 [a|e]]; intros H.
  - left. injection H as <- <-. eauto.
  - destruct e; try (right; right; injection H as <- <-; eexists;
      split; [reflexivity|]; split; [|reflexivity];
      intros (m & r0 & Hm); discriminate Hm).
    right. left. eauto.
Qed.

End worker_facts.

Lemma collect_size_all_recorded (worker : string -> nbm.Outcome)
    (l : list string) (acc : gmap string nbm.Payload * list LogRecord) :
  NoDup (nbm.name <$> l) ->
  (forall p, p ∈ l -> recorded worker p) ->
  (forall p, p ∈ l -> acc.1 !! nbm.name p = None) ->
  size (nbm.collect worker l acc).1 = size acc.1 + length l.
Proof.
  revert acc. induction l as [|p l IH]; intros acc Hnd Hrec Hfresh; simpl; [lia|].
  rewrite fmap_cons in Hnd. apply NoDup_cons in Hnd as [Hp Hnd].
  destruct (Hrec p) as (res & -> & ->); [by left|].
  rewrite IH; [| exact Hnd | intros q Hq; apply Hrec; by right |].
  - simpl. rewrite map_size_insert_None; [lia|]. apply Hfresh. by left.
  - intros q Hq. simpl. rewrite lookup_insert_ne.
    + apply Hfresh. by right.
    + intros Heq. apply Hp. rewrite Heq. by apply list_elem_of_fmap_2.
Qed.

(** When every worker returns a non-empty result and the repository
    names are pairwise distinct, the mapping has one entry per
    repository, holding that repository's result. *)
Theorem execute_complete_mapping (cfg : Config) (description scope : string)
    (worker : string -> nbm.Outcome) (R completed : list string) :
  completed ≡ₚ R ->
  NoDup (nbm.name <$> R) ->
  (forall p, p ∈ R -> recorded worker p) ->
  let results := (nbm.execute cfg description scope worker R completed).1 in
  size results = length R /\
  forall p, p ∈ R ->
    exists res, results !! nbm.name p = Some res /\ worker p = nbm.Returned res.
Proof.
  intros Hperm Hnd Hrec results. subst results. unfold nbm.execute.
  assert (Hnd' : NoDup (nbm.name <$> completed)) by (by rewrite Hperm).
  destruct R as [|p0 R'].
  - apply Permutation_nil_r in Hperm as ->. split; [reflexivity|].
    intros p Hp. by apply elem_of_nil in Hp.
  - split.
    + rewrite collect_size_all_recorded.
      * simpl. rewrite map_size_empty. by rewrite Hperm.
      * exact Hnd'.
      * intros p Hp. apply Hrec. by rewrite <- Hperm.
      * intros p _. apply lookup_empty.
    + intros p Hp. destruct (Hrec p Hp) as (res & Hw & Ht).
      exists res. split; [|exact Hw].
      apply collect_lookup_unique; [exact Hnd'|by rewrite Hperm|exact Hw|exact Ht].
Qed.

Lemma execute_complete_mapping_witness :
  let worker := fun _ : string => nbm.Returned [("status", "success")] in
  five_completed ≡ₚ five_repos /\
  NoDup (nbm.name <$> five_repos) /\
  (forall p, p ∈ five_repos -> recorded worker p) /\
  size (nbm.execute (default_config "/srv/bot") "push" "plugins" worker
          five_repos five_completed).1 = length five_repos.
Proof.
  intros worker.
  assert (H1 : five_completed ≡ₚ five_repos).
  { unfold five_completed, five_repos. solve_Permutation. }
  assert (H2 : NoDup (nbm.name <$> five_repos)).
  { apply (bool_decide_unpack _). vm_compute. exact I. }
  assert (H3 : forall p, p ∈ five_repos -> recorded worker p).
  { intros p _. exists [("status", "success")]. split; reflexivity. }
  split; [exact H1|]. split; [exact H2|]. split; [exact H3|].
  exact (proj1 (execute_complete_mapping (default_config "/srv/bot") "push"
                  "plugins" worker five_repos five_completed H1 H2 H3)).
Defined.
Section worker_theorems.
Variable cfg : Config.
Variable World : Type.
Variable spawn : World -> list string -> string -> process.Spawn * World.
Variable loads : string -> option json.
Variable str_other : json -> string.

Local Abbreviation St := (project.St World).

Ltac inv_step :=
  match goal with
  | H : project.bind _ _ _ _ = _ |- _ =>
      apply bind_inv in H as [(? & ? & ? & H) | (? & ? & ?)]
  | H : commands.git_ _ _ _ _ _ _ _ _ = _ |- _ =>
      apply git_inv in H as (? & ? & _)
  | H : commands.logger _ _ _ _ = _ |- _ =>
      apply logger_inv in H as (? & ? & _)
  | H : commands.ret _ _ _ = _ |- _ => apply ret_inv in H as (? & ?)
  | H : commands.get_current_branch _ _ _ _ _ = _ |- _ =>
      unfold commands.get_current_branch in H
  | H : commands.is_workspace_dirty _ _ _ _ _ = _ |- _ =>
      unfold commands.is_workspace_dirty in H
  | H : project.get_default_branch_ _ _ _ _ _ _ = _ |- _ =>
      apply default_branch_inv in H as (? & ? & ?)
  | H : (if ?c then _ else _) _ = _ |- _ => destruct c eqn:?
  | H : match ?x with _ => _ end _ = _ |- _ => destruct x eqn:?
  end; simplify_eq.

Ltac chase_calls :=
  repeat match goal with
         | H : project.calls ?x = _ |- context [project.calls ?x] => rewrite H
         end;
  rewrite <- ?app_assoc.

Ltac absurd_raise :=
  match goal with
  | Hn : ~ is_CommandError ?e, Hc : forall e', Raise ?e = Raise e' -> is_CommandError e'
    |- _ => exfalso; apply Hn, Hc; reflexivity
  end.

Ltac pick_lookup :=
  match goal with
  | H : context [["gh"; "repo"; "view"; ?n; "--json"; "defaultBranchRef"]] |- _ =>
      exists [["gh"; "repo"; "view"; n; "--json"; "defaultBranchRef"]]
  | _ => exists (@nil (list string))
  end.

Ltac pick_main :=
  match goal with
  | H : context [["git"; "rebase"; "upstream/" +:+ ?m]] |- _ => exists m
  | _ => exists ""
  end.

Ltac prefix_of_plan :=
  unfold sync_plan; simpl; repeat apply prefix_cons;
  first [apply prefix_nil | reflexivity].








(** A repository that is not on the development branch is left alone. *)
Theorem sync_worker_skips_other_branch (push : bool) (path branch : string)
    (st : St) :
  (process.git cfg
     (spawn (project.world st) ["git"; "rev-parse"; "--abbrev-ref"; "HEAD"] path).1
     ["rev-parse"; "--abbrev-ref"; "HEAD"] path true true).2 = Ret branch ->
  branch <> DEV_BRANCH cfg ->
  let out := commands.sync_worker cfg World spawn loads str_other push path st in
  out.2 = Ret [("status", "skipped"); ("reason", "wrong branch")] /\
  project.calls out.1 =
    project.calls st ++ [["git"; "rev-parse"; "--abbrev-ref"; "HEAD"]].
Proof.
  intros Hgit Hne out. subst out.
  unfold commands.sync_worker, project.try_except_CommandError, project.bind,
    commands.get_current_branch, commands.git_, project.git_, project.external.
  destruct (spawn (project.world st) ["git"; "rev-parse"; "--abbrev-ref"; "HEAD"] path)
    as [sp w'].
  cbn [fst] in Hgit.
  destruct (process.git cfg sp ["rev-parse"; "--abbrev-ref"; "HEAD"] path true true)
    as [lg r]. cbn [snd] in Hgit. subst r.
  apply String.eqb_neq in Hne. rewrite Hne. cbn [negb].
  split; reflexivity.
Qed.

Lemma sync_worker_status (push : bool) (path : string) (st : St) :
  exists res s,
    (commands.sync_worker cfg World spawn loads str_other push path st).2 = Ret res /\
    status_of res = Some s /\
    (s = "skipped" \/ s = "success" \/ s = "failed").
Proof.
  destruct (commands.sync_worker cfg World spawn loads str_other push path st)
    as [st' r] eqn:H.
  unfold commands.sync_worker in H. cbn [fst snd].
  apply try_inv in H
    as [(a & H & ->) | [(st1 & msg & res & H & Hh) | (e & H & Hne & ->)]].
  - repeat inv_step; eexists _, _; (split; [reflexivity|]);
      (split; [reflexivity|auto]).
  - repeat inv_step; eexists _, _; (split; [reflexivity|]);
      (split; [reflexivity|auto]).
  - repeat inv_step; absurd_raise.
Qed.


End worker_theorems.
Lemma sync_worker_skips_other_branch_witness :
  let cfg := default_config "/srv/bot" in
  let spawn := answering ("main" +:+ newline) in
  (process.git cfg
     (spawn (project.world start) ["git"; "rev-parse"; "--abbrev-ref"; "HEAD"]
        "/srv/bot/plugins/foo").1
     ["rev-parse"; "--abbrev-ref"; "HEAD"] "/srv/bot/plugins/foo" true true).2
    = Ret "main" /\
  "main" <> DEV_BRANCH cfg /\
  (commands.sync_worker cfg unit spawn loads_nothing no_str true
     "/srv/bot/plugins/foo" start).2
    = Ret [("status", "skipped"); ("reason", "wrong branch")].
Proof.
  intros cfg spawn.
  assert (H1 : (process.git cfg
     (spawn (project.world start) ["git"; "rev-parse"; "--abbrev-ref"; "HEAD"]
        "/srv/bot/plugins/foo").1
     ["rev-parse"; "--abbrev-ref"; "HEAD"] "/srv/bot/plugins/foo" true true).2
    = Ret "main") by (vm_compute; reflexivity).
  assert (H2 : "main" <> DEV_BRANCH cfg) by discriminate.
  split; [exact H1|]. split; [exact H2|].
  exact (proj1 (sync_worker_skips_other_branch cfg unit spawn loads_nothing no_str
                  true "/srv/bot/plugins/foo" "main" start H1 H2)).
Defined.


Example sync_on_dev_branch :
  let out := commands.sync_worker (default_config "/srv/bot") unit
               (answering ("dev" +:+ newline)) loads_nothing no_str true
               "/srv/bot/plugins/foo" start in
  out.2 = Ret [("status", "success")] /\
  project.calls out.1 =
    sync_plan (default_config "/srv/bot") true [] "main".
Proof. vm_compute. split; reflexivity. Qed.

(** ** [project.update_plugins_list] *)

Example splitlines_examples :
  Str.splitlines ("a" +:+ newline +:+ newline +:+ "b" +:+ String "013" newline +:+ "c")
  = ["a"; ""; "b"; "c"] /\
  Str.splitlines newline = [""] /\ Str.splitlines "" = [].
Proof. vm_compute. auto. Qed.

Lemma splitlines_from_line (l cur s : string) :
  one_line l ->
  Str.splitlines_from cur (l +:+ s) = Str.splitlines_from (cur +:+ l) s.
Proof.
  unfold one_line. revert cur. induction l as [|c l IH]; intros cur Hl.
  - by rewrite string_app_nil_r.
  - simpl in Hl. apply andb_true_iff in Hl as [Hc Hl].
    rewrite string_app_cons. cbn [Str.splitlines_from].
    apply negb_true_iff in Hc. rewrite Hc. rewrite IH by exact Hl.
    by rewrite string_app_assoc.
Qed.

Lemma splitlines_from_LF (cur s : string) :
  Str.splitlines_from cur (String "010" s)
  = cur :: Str.splitlines_from "" s.
Proof. destruct s; reflexivity. Qed.

Lemma splitlines_lines_text (lines : list string) :
  Forall one_line lines -> Str.splitlines (lines_text lines) = lines.
Proof.
  unfold Str.splitlines. induction 1 as [|l lines Hl _ IH]; [reflexivity|].
  cbn [lines_text]. rewrite splitlines_from_line by exact Hl.
  rewrite splitlines_from_LF. change ("" +:+ l) with l. by rewrite IH.
Qed.

Lemma join_lines_text (l : string) (lines : list string) :
  Py.join newline (l :: lines) +:+ newline = lines_text (l :: lines).
Proof.
  revert l. induction lines as [|l' lines IH]; intros l.
  - reflexivity.
  - change (Py.join newline (l :: l' :: lines))
      with (l +:+ newline +:+ Py.join newline (l' :: lines)).
    rewrite !string_app_assoc, IH. reflexivity.
Qed.

Lemma one_line_app (a b : string) : one_line a -> one_line b -> one_line (a +:+ b).
Proof. unfold one_line. intros Ha Hb. by rewrite all_chars_app, Ha, Hb. Qed.

Lemma splitlines_from_one_line (cur s : string) :
  one_line cur -> Forall one_line (Str.splitlines_from cur s).
Proof.
  remember (String.length s) as n eqn:Hn.
  assert (Hle : String.length s <= n) by lia. clear Hn.
  revert cur s Hle. induction n as [|n IH]; intros cur s Hle Hcur.
  - destruct s; [|simpl in Hle; lia].
    simpl. destruct cur; [constructor|]. by repeat constructor.
  - destruct s as [|c s].
    + simpl. destruct cur; [constructor|]. by repeat constructor.
    + simpl in Hle. cbn [Str.splitlines_from].
      destruct (Str.is_linebreak c) eqn:Hc.
      * constructor; [exact Hcur|].
        destruct s as [|c' s']; [constructor|]. simpl in Hle.
        destruct (Ascii.eqb c "013" && Ascii.eqb c' "010").
        -- apply IH; [lia|reflexivity].
        -- apply IH; [simpl; lia|reflexivity].
      * apply IH; [lia|]. apply one_line_app; [exact Hcur|].
        unfold one_line. simpl. by rewrite Hc.
Qed.

Lemma splitlines_one_line (s : string) : Forall one_line (Str.splitlines s).
Proof. by apply splitlines_from_one_line. Qed.

(** Reading back what was written gives the non-blank lines. *)
Lemma entries_content (lines : list string) :
  Forall one_line lines ->
  entries (Some (plugins.content lines))
  = filter (fun l => plugins.nonblank l = true) lines.
Proof.
  intros Hl. unfold entries, plugins.content.
  assert (Hf : Forall one_line (filter (fun l => plugins.nonblank l = true) lines)).
  { apply Forall_forall. intros l Hin. apply list_elem_of_filter in Hin as [_ Hin].
    by eapply Forall_forall in Hl. }
  destruct (filter (fun l => plugins.nonblank l = true) lines) as [|l ls] eqn:Hfl.
  - reflexivity.
  - change (String "010" "") with newline.
    rewrite join_lines_text, splitlines_lines_text by exact Hf.
    rewrite <- Hfl. apply list_filter_filter_l. auto.
Qed.

Lemma filter_nonblank_comm (P : string -> bool) (l : list string) :
  filter (fun x => plugins.nonblank x = true) (filter (fun x => P x = false) l)
  = filter (fun x => P x = false) (filter (fun x => plugins.nonblank x = true) l).
Proof.
  induction l as [|x l IH]; [reflexivity|].
  rewrite !filter_cons.
  destruct (decide (P x = false)), (decide (plugins.nonblank x = true));
    rewrite ?filter_cons; repeat case_decide; try done; by rewrite IH.
Qed.

Lemma update_remove_entries (list_name : string) (url : option string)
    (n : string) (file : option string) :
  n <> "" ->
  entries (plugins.update_plugins_list list_name url (Some n) plugins.remove file).1
  = filter (fun l => plugins.names_plugin n l = false) (entries file).
Proof.
  intros Hn. destruct file as [text|]; [|reflexivity].
  unfold plugins.update_plugins_list.
  assert (Hg : plugins.given (Some n) = Some n).
  { unfold plugins.given. apply truthy_true in Hn. by rewrite Hn. }
  rewrite Hg. cbn [fst].
  rewrite entries_content.
  - apply filter_nonblank_comm.
  - apply Forall_forall. intros l Hin. apply list_elem_of_filter in Hin as [_ Hin].
    eapply Forall_forall in Hin; [exact Hin|apply splitlines_one_line].
Qed.

(** Removing a plugin leaves the other entries as they were, in order,
    and no entry that designates the plugin; it never creates the file. *)
Theorem remove_keeps_other_entries (list_name : string) (url : option string)
    (n : string) (file : option string) :
  n <> "" ->
  let out := plugins.update_plugins_list list_name url (Some n) plugins.remove file in
  entries out.1 = filter (fun l => plugins.names_plugin n l = false) (entries file) /\
  (forall l, l ∈ entries out.1 -> plugins.names_plugin n l = false) /\
  (forall l, l ∈ entries file -> plugins.names_plugin n l = false ->
             l ∈ entries out.1) /\
  (out.1 = None <-> file = None).
Proof.
  intros Hn out. subst out.
  rewrite update_remove_entries by exact Hn.
  split; [reflexivity|]. split; [|split].
  - intros l Hl. by apply list_elem_of_filter in Hl as [Hl _].
  - intros l Hl Hnm. by apply list_elem_of_filter.
  - destruct file as [text|]; simpl.
    + unfold plugins.given. destruct (Py.truthy n); split; discriminate.
    + split; reflexivity.
Qed.

Lemma remove_keeps_other_entries_witness :
  "foo" <> "" /\
  entries (plugins.update_plugins_list "plugins.txt" None (Some "foo")
             plugins.remove (Some demo_list)).1
  = ["# plugins"; "https://github.com/acme/bar"; "https://github.com/acme/food"].
Proof.
  assert (H : "foo" <> "") by discriminate.
  split; [exact H|].
  rewrite (proj1 (remove_keeps_other_entries "plugins.txt" None "foo"
                    (Some demo_list) H)).
  vm_compute. reflexivity.
Defined.

Lemma content_ext (l1 l2 : list string) :
  filter (fun l => plugins.nonblank l = true) l1
  = filter (fun l => plugins.nonblank l = true) l2 ->
  plugins.content l1 = plugins.content l2.
Proof. unfold plugins.content. by intros ->. Qed.

Lemma existsb_eqb_elem (u : string) (l : list string) :
  existsb (String.eqb u) l = true <-> u ∈ l.
Proof.
  rewrite existsb_exists. split.
  - intros (x & Hx & He). apply String.eqb_eq in He as ->. by apply list_elem_of_In.
  - intros Hu. exists u. split; [by apply list_elem_of_In|apply String.eqb_refl].
Qed.

Lemma read_lines_one_line (file : option string) : Forall one_line (read_lines file).
Proof. destruct file; [apply splitlines_one_line|constructor]. Qed.

Lemma update_add_written (list_name : string) (u : string)
    (plugin_name : option string) (file : option string) :
  u <> "" ->
  (plugins.update_plugins_list list_name (Some u) plugin_name plugins.add file).1
  = Some (plugins.content
            (if existsb (String.eqb u) (read_lines file) then read_lines file
             else read_lines file ++ [u])).
Proof.
  intros Hu. unfold plugins.update_plugins_list.
  assert (Hg : plugins.given (Some u) = Some u).
  { unfold plugins.given. apply truthy_true in Hu. by rewrite Hu. }
  destruct file as [text|]; rewrite Hg; cbn [read_lines];
    destruct (existsb _ _); reflexivity.
Qed.

(** Adding a URL keeps the entries and puts the URL after them unless it
    is already a line of the file; adding it again changes nothing. *)
Theorem add_appends_once (list_name : string) (u : string)
    (plugin_name : option string) (file : option string) :
  u <> "" -> one_line u ->
  let out := plugins.update_plugins_list list_name (Some u) plugin_name
               plugins.add file in
  entries out.1 =
    entries file ++
    (if existsb (String.eqb u) (read_lines file) then []
     else filter (fun l => plugins.nonblank l = true) [u]) /\
  (plugins.update_plugins_list list_name (Some u) plugin_name plugins.add out.1).1
    = out.1.
Proof.
  intros Hu Hone out. subst out.
  rewrite update_add_written by exact Hu.
  set (lines := read_lines file).
  assert (Hlines : Forall one_line lines) by apply read_lines_one_line.
  set (lines1 := if existsb (String.eqb u) lines then lines else lines ++ [u]).
  assert (H1 : Forall one_line lines1).
  { subst lines1. destruct (existsb _ _); [exact Hlines|].
    apply Forall_app. split; [exact Hlines|by constructor]. }
  assert (Hent : entries (Some (plugins.content lines1))
                 = entries file ++
                   (if existsb (String.eqb u) lines then []
                    else filter (fun l => plugins.nonblank l = true) [u])).
  { rewrite entries_content by exact H1. subst lines1 lines.
    destruct (existsb _ _).
    - rewrite app_nil_r. by destruct file.
    - rewrite filter_app. by destruct file. }
  split; [exact Hent|].
  rewrite update_add_written by exact Hu. f_equal. apply content_ext.
  cbn [read_lines].
  change (filter (fun l => plugins.nonblank l = true)
            (Str.splitlines (plugins.content lines1)))
    with (entries (Some (plugins.content lines1))).
  destruct (existsb (String.eqb u) (Str.splitlines (plugins.content lines1)))
    eqn:Hin2.
  - change (filter (fun l => plugins.nonblank l = true)
              (Str.splitlines (plugins.content lines1)))
      with (entries (Some (plugins.content lines1))).
    by rewrite entries_content.
  - rewrite filter_app.
    change (filter (fun l => plugins.nonblank l = true)
              (Str.splitlines (plugins.content lines1)))
      with (entries (Some (plugins.content lines1))).
    rewrite entries_content by exact H1.
    assert (Hblank : filter (fun l => plugins.nonblank l = true) [u] = []).
    { rewrite filter_cons. case_decide as Hnb; [|reflexivity]. exfalso.
      assert (Hu1 : u ∈ filter (fun l => plugins.nonblank l = true) lines1).
      { apply list_elem_of_filter. split; [exact Hnb|].
        subst lines1. destruct (existsb (String.eqb u) lines) eqn:Hin.
        - by apply existsb_eqb_elem.
        - apply elem_of_app. right. by left. }
      rewrite <- entries_content in Hu1 by exact H1.
      unfold entries in Hu1. apply list_elem_of_filter in Hu1 as [_ Hu1].
      apply existsb_eqb_elem in Hu1. congruence. }
    rewrite Hblank. by rewrite app_nil_r.
Qed.

Lemma add_appends_once_witness :
  let u := "https://github.com/acme/new.git" in
  u <> "" /\ one_line u /\
  entries (plugins.update_plugins_list "plugins.txt" (Some u) None plugins.add
             (Some demo_list)).1
  = entries (Some demo_list) ++ [u].
Proof.
  intros u.
  assert (H1 : u <> "") by discriminate.
  assert (H2 : one_line u) by reflexivity.
  split; [exact H1|]. split; [exact H2|].
  rewrite (proj1 (add_appends_once "plugins.txt" u None (Some demo_list) H1 H2)).
  vm_compute. reflexivity.
Defined.

Lemma string_app_nil_l (a : string) : "" +:+ a = a.
Proof. reflexivity. Qed.

Ltac str_norm :=
  unfold newline;
  repeat (rewrite string_app_assoc || rewrite string_app_cons ||
          rewrite string_app_nil_r || rewrite string_app_nil_l).

Lemma lower_app (a b : string) : Str.lower (a +:+ b) = Str.lower a +:+ Str.lower b.
Proof.
  induction a as [|c a IH]; [reflexivity|].
  rewrite string_app_cons. simpl. by rewrite IH.
Qed.

Lemma endswith_app (suffix a : string) : Str.endswith suffix (a +:+ suffix) = true.
Proof.
  induction a as [|c a IH].
  - change ("" +:+ suffix) with suffix.
    destruct suffix; simpl; [reflexivity|].
    by rewrite Ascii.eqb_refl, String.eqb_refl.
  - rewrite string_app_cons. cbn [Str.endswith]. rewrite IH. apply orb_true_r.
Qed.

Lemma split_last_slash_pair (owner repo : string) :
  no_slash repo -> Py.split_last_slash (owner +:+ "/" +:+ repo) = repo.
Proof.
  unfold no_slash. intros Hr. induction owner as [|c owner IH].
  - change ("" +:+ "/" +:+ repo) with (String "/" repo). simpl.
    rewrite Hr. reflexivity.
  - rewrite string_app_cons. cbn [Py.split_last_slash].
    rewrite has_char_app. change ("/" +:+ repo) with (String "/" repo). simpl.
    rewrite orb_true_r. exact IH.
Qed.

Lemma rstrip_last (t a : string) (x : ascii) :
  Py.rstrip t = a +:+ String x "" -> Py.isspace x = false.
Proof.
  revert a. induction t as [|c t IH]; intros a; simpl.
  - destruct a; discriminate.
  - destruct (Py.rstrip t) as [|c' r] eqn:Hr.
    + destruct (Py.isspace c) eqn:Hc.
      * destruct a; discriminate.
      * destruct a as [|c1 a]; [|destruct a; discriminate].
        intros [= <-]. exact Hc.
    + destruct a as [|c1 a]; [discriminate|].
      rewrite string_app_cons. intros [= <- Ha]. by apply (IH a).
Qed.

(** A URL that parses to a repository designates the plugin named after
    that repository. *)
Lemma parsed_url_names_plugin (url repo_name : string) :
  git.get_repo_name_from_url url = Some repo_name ->
  Py.strip url = url ->
  plugins.names_plugin (Py.split_last_slash repo_name) url = true.
Proof.
  intros Hp Hs.
  apply repo_name_shape in Hp
    as (pre & sep & owner & repo & suf & nl & Hurl & -> & _ & _ & _ & _ & Hrs
        & Hsuf & Hnl & _).
  rewrite split_last_slash_pair by exact Hrs.
  assert (Hnl' : nl = "").
  { destruct Hnl as [->| ->]; [reflexivity|]. exfalso.
    assert (Hsp : Py.isspace "010" = false); [|discriminate Hsp].
    apply (rstrip_last (Py.lstrip url)
             (pre +:+ "github.com" +:+ String sep (owner +:+ "/" +:+ repo +:+ suf))).
    fold (Py.strip url). rewrite Hs, Hurl. by str_norm. }
  subst nl. unfold plugins.names_plugin. rewrite Hs, Hurl.
  set (head := pre +:+ "github.com" +:+ String sep owner).
  assert (Hform : pre +:+ "github.com" +:+
                  String sep (owner +:+ "/" +:+ repo +:+ suf +:+ "")
                  = head +:+ "/" +:+ repo +:+ suf).
  { subst head. by str_norm. }
  rewrite Hform, !lower_app.
  change (Str.lower "/") with "/".
  destruct Hsuf as [->| ->].
  - change (Str.lower "") with "". rewrite string_app_nil_r.
    rewrite <- (string_app_assoc (Str.lower head)).
    rewrite <- string_app_assoc.
    rewrite (string_app_assoc (Str.lower head)).
    by rewrite endswith_app.
  - change (Str.lower ".git") with ".git".
    rewrite <- !(string_app_assoc "/").
    by rewrite endswith_app, orb_true_r.
Qed.

(** A URL added to the list is no longer an entry once the plugin it
    parses to has been removed. *)
Theorem add_then_remove (list_name : string) (url repo_name : string)
    (file : option string) :
  git.get_repo_name_from_url url = Some repo_name ->
  Py.strip url = url ->
  one_line url ->
  let added := (plugins.update_plugins_list list_name (Some url) None
                  plugins.add file).1 in
  let removed := (plugins.update_plugins_list list_name None
                    (Some (Py.split_last_slash repo_name)) plugins.remove added).1 in
  (url ∉ entries removed) /\
  forall l, l ∈ entries file ->
            plugins.names_plugin (Py.split_last_slash repo_name) l = false ->
            l ∈ entries removed.
Proof.
  intros Hp Hs Hone added removed.
  assert (Hnames := parsed_url_names_plugin url repo_name Hp Hs).
  assert (Hn : Py.split_last_slash repo_name <> "").
  { intros Hn. rewrite Hn in Hnames. unfold plugins.names_plugin in Hnames.
    apply repo_name_shape in Hp
      as (pre & sep & owner & repo & suf & nl & _ & -> & _ & _ & _ & Hre & Hrs & _).
    rewrite split_last_slash_pair in Hn by exact Hrs. contradiction. }
  assert (Hu : url <> "").
  { intros ->. discriminate Hp. }
  subst removed. rewrite update_remove_entries by exact Hn.
  split.
  - intros Hin. apply list_elem_of_filter in Hin as [Hin _]. congruence.
  - intros l Hl Hnm. apply list_elem_of_filter. split; [exact Hnm|].
    subst added. rewrite update_add_written by exact Hu.
    rewrite entries_content.
    + apply list_elem_of_filter.
      unfold entries in Hl. destruct file as [text|]; [|by apply elem_of_nil in Hl].
      apply list_elem_of_filter in Hl as [Hnb Hl]. split; [exact Hnb|].
      cbn [read_lines]. destruct (existsb _ _); [exact Hl|].
      apply elem_of_app. by left.
    + assert (Hl' := read_lines_one_line file).
      destruct (existsb _ _); [exact Hl'|].
      apply Forall_app. split; [exact Hl'|by constructor].
Qed.

Lemma add_then_remove_witness :
  let url := "https://github.com/Acme/Foo.git" in
  git.get_repo_name_from_url url = Some "Acme/Foo" /\
  Py.strip url = url /\ one_line url /\
  (url ∉ entries
     (plugins.update_plugins_list "plugins.txt" None
        (Some (Py.split_last_slash "Acme/Foo")) plugins.remove
        (plugins.update_plugins_list "plugins.txt" (Some url) None plugins.add
           (Some demo_list)).1).1).
Proof.
  intros url.
  assert (H1 : git.get_repo_name_from_url url = Some "Acme/Foo")
    by (vm_compute; reflexivity).
  assert (H2 : Py.strip url = url) by (vm_compute; reflexivity).
  assert (H3 : one_line url) by reflexivity.
  split; [exact H1|]. split; [exact H2|]. split; [exact H3|].
  exact (proj1 (add_then_remove "plugins.txt" url "Acme/Foo" (Some demo_list)
                  H1 H2 H3)).
Defined.

(** ** [state.StateManager.read] and [state.TransactionLogger.log] *)

Lemma temp_path_differs (path : string) : state.temp_path path <> path.
Proof.
  unfold state.temp_path. intros H.
  apply (f_equal String.length) in H. rewrite string_app_length in H.
  simpl in H. lia.
Qed.

Lemma exec_writes (temp : string) (chunks : list string) (i : nat)
    (fs : state.FS) (sofar : string) :
  fs !! temp = Some sofar ->
  (state.exec (map (state.Write temp) chunks) i (fun _ => None) fs).1
  = <[temp := sofar +:+ written_text chunks]> fs.
Proof.
  revert i fs sofar. induction chunks as [|c chunks IH]; intros i fs sofar Hs.
  - simpl. rewrite string_app_nil_r. symmetry. by apply insert_id.
  - simpl. rewrite Hs. erewrite IH by apply lookup_insert_eq.
    rewrite insert_insert_eq. by rewrite string_app_assoc.
Qed.

(** What a write without faults leaves behind. *)
Lemma write_no_fault (path : string) (chunks : list string) (fs : state.FS) :
  state.write path chunks state.no_fault fs
  = (<[path := written_text chunks]> (delete (state.temp_path path) fs), [], Ret tt).
Proof.
  unfold state.write, state.try_ops, state.no_fault.
  assert (Hne := temp_path_differs path).
  simpl. 
  destruct (state.exec
              (map (state.Write (state.temp_path path)) chunks ++
               [state.LockOpen path; state.LockAcquire path;
                state.LockTruncate path;
                state.Replace (state.temp_path path) path]) 1
              (fun _ => None) (<[state.temp_path path := ""]> fs))
    as [fs1 r] eqn:He.
  assert (H1 := exec_no_fault_app
            (map (state.Write (state.temp_path path)) chunks)
            [state.LockOpen path; state.LockAcquire path;
             state.LockTruncate path;
             state.Replace (state.temp_path path) path] 1
            (<[state.temp_path path := ""]> fs)).
  rewrite He in H1. cbn [fst] in H1.
  rewrite (exec_writes _ _ _ _ "") in H1 by apply lookup_insert_eq.
  rewrite insert_insert_eq in H1. change ("" +:+ written_text chunks)
    with (written_text chunks) in H1.
  assert (Hr : r = None).
  { revert He. generalize 1 (<[state.temp_path path := ""]> fs).
    generalize (map (state.Write (state.temp_path path)) chunks ++
               [state.LockOpen path; state.LockAcquire path;
                state.LockTruncate path;
                state.Replace (state.temp_path path) path]).
    induction l as [|op l IHl]; intros i fs0; simpl.
    - by intros [= _ <-].
    - apply IHl. }
  subst r. f_equal. f_equal. rewrite H1. clear H1 He.
  set (tmp := state.temp_path path) in *.
  set (fs0 := <[tmp := written_text chunks]> fs).
  simpl.
  assert (Hopen : (match fs0 !! path with
                   | Some _ => fs0
                   | None => <[path := ""]> fs0
                   end) !! tmp = Some (written_text chunks)).
  { destruct (fs0 !! path); [|rewrite lookup_insert_ne by done];
      subst fs0; apply lookup_insert_eq. }
  rewrite lookup_insert_ne by done. rewrite Hopen.
  apply map_eq. intros k.
  destruct (decide (k = tmp)) as [->|Hk].
  - rewrite lookup_delete_eq. rewrite lookup_insert_ne by done.
    by rewrite lookup_delete_eq.
  - rewrite !(lookup_delete_ne _ tmp k) by done.
    destruct (decide (k = path)) as [->|Hkp].
    + by rewrite !lookup_insert_eq.
    + rewrite !lookup_insert_ne by done.
      rewrite !(lookup_delete_ne _ tmp k) by done.
      destruct (fs0 !! path); [|rewrite lookup_insert_ne by done];
        subst fs0; by rewrite lookup_insert_ne.
Qed.

(** A state that was written is read back. *)
Theorem write_then_read (loads : string -> option json) (path : string)
    (chunks : list string) (fs : state.FS) (v : json) :
  written_text chunks <> "" ->
  loads (written_text chunks) = Some v ->
  let fs' := (state.write path chunks state.no_fault fs).1.1 in
  state_io.read loads path None fs' = ([], Ret v) /\
  fs' !! state.temp_path path = None /\
  forall other, other <> path -> other <> state.temp_path path ->
                fs' !! other = fs !! other.
Proof.
  intros Hne Hl fs'. subst fs'. rewrite write_no_fault. cbn [fst].
  assert (Hd := temp_path_differs path).
  split; [|split].
  - unfold state_io.read. rewrite lookup_insert_eq.
    destruct (written_text chunks) as [|c t]; [done|]. by rewrite Hl.
  - rewrite lookup_insert_ne by done. apply lookup_delete_eq.
  - intros other H1 H2. rewrite lookup_insert_ne by done.
    by rewrite lookup_delete_ne.
Qed.

Lemma write_then_read_witness :
  written_text new_chunks <> "" /\
  demo_loads (written_text new_chunks) = Some (JDict [("b", JInt 2)]) /\
  state_io.read demo_loads state_path None
    (state.write state_path new_chunks state.no_fault old_fs).1.1
  = ([], Ret (JDict [("b", JInt 2)])).
Proof.
  assert (H1 : written_text new_chunks <> "") by discriminate.
  assert (H2 : demo_loads (written_text new_chunks) = Some (JDict [("b", JInt 2)]))
    by (vm_compute; reflexivity).
  split; [exact H1|]. split; [exact H2|].
  exact (proj1 (write_then_read demo_loads state_path new_chunks old_fs
                  (JDict [("b", JInt 2)]) H1 H2)).
Defined.

(** After a write that stops once the lock on the target is held, the
    next read finds an empty file and reports the empty state, without
    an error. *)
Theorem read_after_interrupted_write (loads : string -> option json)
    (path : string) (chunks : list string) (fs : state.FS) :
  state_io.read loads path None
    (state.write_stopped_after (replace_index (length chunks)) path chunks fs)
  = ([], Ret (JDict [])).
Proof.
  unfold state_io.read. by rewrite write_stopped_before_replace.
Qed.

Lemma log_all_appends (dumps : json -> option string) (log_file : string)
    (records : list (json * option Exn)) (fs : state.FS) :
  log_faults_intercepted records ->
  let out := state_io.log_all dumps log_file records fs in
  out.2 = Ret tt /\
  (forall other, other <> log_file -> out.1 !! other = fs !! other) /\
  match logged_lines dumps records with
  | [] => out.1 !! log_file = fs !! log_file
  | lines =>
      out.1 !! log_file
      = Some (default "" (fs !! log_file) +:+ lines_text lines)
  end.
Proof.
  intros Hf. revert fs. induction Hf as [|[record fault] records Hrf _ IH];
    intros fs out; subst out.
  - simpl. auto.
  - cbn [state_io.log_all]. unfold state_io.log.
    unfold logged_lines. cbn [omap list_omap fst snd].
    fold (logged_lines dumps records).
    destruct (dumps record) as [line|] eqn:Hd.
    + destruct fault as [e|].
      * simpl in Hrf. destruct e; try done; apply IH.
      * cbn [option_bind mbind]. specialize (IH (<[log_file:=default "" (fs !! log_file) +:+ line +:+ String "010" ""]> fs)).
        cbn zeta in IH. destruct IH as (H1 & H2 & H3).
        split; [exact H1|]. split.
        -- intros other Ho. rewrite H2 by exact Ho. by rewrite lookup_insert_ne.
        -- rewrite lookup_insert_eq in H3. cbn [default] in H3.
           destruct (logged_lines dumps records) as [|l ls].
           ++ rewrite H3. cbn [lines_text]. f_equal; unfold id; try by str_norm.
           ++ rewrite H3. cbn [lines_text]. f_equal; unfold id; try by str_norm.
    + assert (Hsame : match fault with
                      | None => @None string
                      | Some _ => None
                      end = None) by (by destruct fault).
      destruct fault as [e|]; apply IH.
Qed.

(** The lines of a fresh transaction log are the serialized records, in
    order: records that cannot be serialized or written are skipped and
    do not stop the later ones. *)
Theorem log_lines_are_records (dumps : json -> option string) (log_file : string)
    (records : list (json * option Exn)) (fs : state.FS) :
  log_faults_intercepted records ->
  (forall r line, dumps r = Some line -> one_line line) ->
  fs !! log_file = None ->
  let out := state_io.log_all dumps log_file records fs in
  out.2 = Ret tt /\
  read_lines (out.1 !! log_file) = logged_lines dumps records /\
  forall other, other <> log_file -> out.1 !! other = fs !! other.
Proof.
  intros Hf Hone Hfresh out.
  destruct (log_all_appends dumps log_file records fs Hf) as (H1 & H2 & H3).
  fold out in H1, H2, H3.
  split; [exact H1|]. split; [|exact H2].
  assert (Hl : Forall one_line (logged_lines dumps records)).
  { apply Forall_forall. intros l Hin. unfold logged_lines in Hin.
    apply list_elem_of_omap in Hin as ([r f] & _ & Hr). simpl in Hr.
    destruct f; [discriminate|]. by apply (Hone r). }
  destruct (logged_lines dumps records) as [|l ls] eqn:Hlines.
  - rewrite H3, Hfresh. reflexivity.
  - rewrite H3, Hfresh. cbn [default read_lines]. change ("" +:+ ?x) with x.
    by apply splitlines_lines_text.
Qed.

Lemma log_lines_are_records_witness :
  let records :=
    [(JDict [("synced", JInt 3)], None);
     (JList [], None);
     (JDict [("failed", JInt 1)], Some (OSError "disk full"));
     (JDict [("pushed", JInt 2)], None)] in
  log_faults_intercepted records /\
  (forall r line, demo_dumps r = Some line -> one_line line) /\
  (∅ : state.FS) !! "sync_log.jsonl" = None /\
  read_lines ((state_io.log_all demo_dumps "sync_log.jsonl" records ∅).1
                !! "sync_log.jsonl")
  = ["{" +:+ dq +:+ "synced" +:+ dq +:+ ": 3}";
     "{" +:+ dq +:+ "pushed" +:+ dq +:+ ": 2}"].
Proof.
  intros records.
  assert (H1 : log_faults_intercepted records).
  { repeat constructor. }
  assert (H2 : forall r line, demo_dumps r = Some line -> one_line line).
  { intros r line. unfold demo_dumps.
    destruct r as [| | | |l|[|[k [| |n| | |]] [|? ?]]]; try discriminate.
    repeat (case_match; try discriminate); intros [= <-]; reflexivity. }
  assert (H3 : (∅ : state.FS) !! "sync_log.jsonl" = None) by reflexivity.
  split; [exact H1|]. split; [exact H2|]. split; [exact H3|].
  rewrite (proj1 (proj2 (log_lines_are_records demo_dumps "sync_log.jsonl"
                           records ∅ H1 H2 H3))).
  vm_compute. reflexivity.
Defined.


Lemma write_lock_timeout_keeps_target_witness :
  old_fs !! state_path = Some old_text /\
  (state.write state_path new_chunks
     (state.fault_at (acquire_index (length new_chunks)) LockException) old_fs).1.1
    !! state_path = Some old_text.
Proof.
  assert (H : old_fs !! state_path = Some old_text) by (vm_compute; reflexivity).
  split; [exact H|].
  exact (write_lock_timeout_keeps_target state_path new_chunks old_fs old_text H).
Defined.

(** ** [project.create_production_package]: the whole run *)

Lemma build_map_no_member (cfg : Config) (members : list string)
    (dirs : list (string * option string)) :
  existsb (Py.startswith (plugins_src_dir cfg)) members = false ->
  project.build_map cfg members dirs = project.build_map cfg members [].
Proof.
  unfold project.build_map. generalize (∅ : gmap string string).
  induction members as [|mb members IH]; intros acc H; [reflexivity|].
  simpl in H. apply orb_false_iff in H as [H1 H2].
  simpl. rewrite H1. by apply IH.
Qed.

Lemma elem_of_emitted (cfg : Config) (m : gmap string string) (branch : string)
    (entries : list (string * project.Item)) (x : string) :
  x ∈ emitted cfg m branch entries
  <-> exists e, e ∈ entries /\ emits cfg m branch e = Some x.
Proof.
  unfold emitted. rewrite elem_of_list_to_set, list_elem_of_omap. reflexivity.
Qed.


Lemma last_snoc_inv {A} (l : list A) (x y : A) : last (l ++ [x]) = Some y -> x = y.
Proof. rewrite last_snoc. congruence. Qed.

Lemma emits_nonempty (cfg : Config) (m : gmap string string) (branch : string)
    (e : string * project.Item) (x : string) :
  emits cfg m branch e = Some x -> x <> "".
Proof.
  unfold emits. destruct (project.process_dependency _ _ _ _ _).2 as [p|]; [|done].
  destruct p; simpl; [done|]. intros [= <-]. done.
Qed.

(** After a successful run the input file lists, in increasing order
    and without repetition, exactly the non-empty lines that
    [process_dependency] returns for the entries of the manifest. *)
Theorem production_input_lines (cfg : Config) (target_branch : string)
    (data : package.Manifest) (dirs : list (string * option string))
    (compile : process.Spawn) (fs : state.FS) :
  package.plugin_dirs data = Ret dirs ->
  let out := package.create_production_package cfg target_branch (Ret data)
               None compile fs in
  let m := project.build_map cfg (package.workspace_members data) dirs in
  last out.1.2 = Some compile_succeeded ->
  exists lines,
    out.1.1 !! package.prod_input_path cfg = Some (Py.join newline lines +:+ newline) /\
    Sorted String.le lines /\ NoDup lines /\
    forall x, x ∈ lines <->
      x <> "" /\
      exists e, e ∈ all_entries (package.dependencies data) (package.optional data) /\
                (project.process_dependency cfg m target_branch e.1 e.2).2 = Some x.
Proof.
  intros Hdirs out m. subst out.
  unfold package.create_production_package, package.on_exception.
  assert (Hscan :
    exists dirs0,
      (if existsb (Py.startswith (plugins_src_dir cfg)) (package.workspace_members data)
       then package.plugin_dirs data else Ret []) = Ret dirs0 /\
      project.build_map cfg (package.workspace_members data) dirs0 = m).
  { destruct (existsb _ _) eqn:Hex.
    - by exists dirs.
    - exists []. split; [done|]. subst m. symmetry. by apply build_map_no_member. }
  destruct Hscan as (dirs0 & -> & ->).
  rewrite prod_deps_spec. cbn zeta. cbn iota.
  case_decide as Hs.
  { cbn [fst snd]. rewrite !app_assoc. intros H%last_snoc_inv. discriminate. }
  destruct (process.uv _ _ _ _ _ _) as [lg [r|e]]; cbn [fst snd].
  2:{ intros H%last_snoc_inv. discriminate. }
  intros _. exists (package.sorted (elements (emitted cfg m target_branch
             (all_entries (package.dependencies data) (package.optional data))))).
  split; [by rewrite lookup_insert_eq|].
  split; [apply Sorted_merge_sort; apply _|].
  split.
  { unfold package.sorted. rewrite merge_sort_Permutation. apply NoDup_elements. }
  intros x. unfold package.sorted. rewrite merge_sort_Permutation, elem_of_elements.
  rewrite elem_of_emitted. split.
  - intros (e & He & Hx). split; [by eapply emits_nonempty|].
    exists e. split; [done|]. unfold emits in Hx.
    destruct (project.process_dependency _ _ _ _ _).2 as [p|]; [|done].
    destruct (Py.truthy p); by simplify_eq.
  - intros (Hne & e & He & Hx). exists e. split; [done|].
    unfold emits. rewrite Hx. destruct x; [done|reflexivity].
Qed.

(** The files left behind and the commands run do not depend on the
    order of the dependency entries, on repetitions among them, or on
    the group an entry is listed in. *)
Theorem production_input_order_independent (cfg : Config) (target_branch : string)
    (data data' : package.Manifest) (write_fault : option Exn)
    (compile : process.Spawn) (fs : state.FS) :
  package.workspace_members data = package.workspace_members data' ->
  package.plugin_dirs data = package.plugin_dirs data' ->
  (forall e,
     e ∈ all_entries (package.dependencies data) (package.optional data) <->
     e ∈ all_entries (package.dependencies data') (package.optional data')) ->
  let out := package.create_production_package cfg target_branch (Ret data)
               write_fault compile fs in
  let out' := package.create_production_package cfg target_branch (Ret data')
                write_fault compile fs in
  out.1.1 = out'.1.1 /\ out.2 = out'.2.
Proof.
  intros Hm Hd He out out'. subst out out'.
  unfold package.create_production_package, package.on_exception.
  rewrite <- Hm, <- Hd.
  destruct (if existsb _ _ then _ else _) as [dirs|e]; [|done].
  rewrite !prod_deps_spec. cbn zeta. cbn iota.
  set (m := project.build_map cfg (package.workspace_members data) dirs).
  assert (Hs : emitted cfg m target_branch
                 (all_entries (package.dependencies data) (package.optional data))
             = emitted cfg m target_branch
                 (all_entries (package.dependencies data') (package.optional data'))).
  { apply leibniz_equiv. intros x. rewrite !elem_of_emitted.
    split; intros (e & Hin & Hx); exists e; (split; [by apply He|done]). }
  rewrite <- Hs.
  case_decide; [done|].
  destruct write_fault; [done|].
  destruct (process.uv _ _ _ _ _ _) as [lg [r|e]]; done.
Qed.

Lemma production_input_lines_witness :
  let cfg := default_config "/srv/bot" in
  let out := package.create_production_package cfg "dev" (Ret demo_manifest)
               None (process.SpawnCompleted 0 "" "") ∅ in
  last out.1.2 = Some compile_succeeded /\
  exists lines,
    out.1.1 !! package.prod_input_path cfg = Some (Py.join newline lines +:+ newline) /\
    Sorted String.le lines /\ NoDup lines /\
    forall x, x ∈ lines <->
      x <> "" /\
      exists e, e ∈ all_entries (package.dependencies demo_manifest)
                      (package.optional demo_manifest) /\
                (project.process_dependency cfg demo_map "dev" e.1 e.2).2 = Some x.
Proof.
  intros cfg out.
  assert (H : last out.1.2 = Some compile_succeeded) by (vm_compute; reflexivity).
  split; [exact H|].
  exact (production_input_lines cfg "dev" demo_manifest _
           (process.SpawnCompleted 0 "" "") ∅ eq_refl H).
Defined.

Lemma production_input_order_independent_witness :
  let cfg := default_config "/srv/bot" in
  let run data :=
    package.create_production_package cfg "dev" (Ret data) None
      (process.SpawnCompleted 0 "" "") ∅ in
  (run demo_manifest).1.1 = (run demo_manifest_reordered).1.1 /\
  (run demo_manifest).2 = (run demo_manifest_reordered).2.
Proof.
  intros cfg run.
  apply (production_input_order_independent cfg "dev" demo_manifest
           demo_manifest_reordered None (process.SpawnCompleted 0 "" "") ∅).
  - reflexivity.
  - reflexivity.
  - intros e. vm_compute all_entries. set_solver.
Defined.

(** ** [process.git] and [process.gh]: the text returned *)

Lemma rstrip_idem (s : string) : Py.rstrip (Py.rstrip s) = Py.rstrip s.
Proof.
  induction s as [|c s IH]; [reflexivity|].
  cbn [Py.rstrip]. destruct (Py.rstrip s) as [|d r] eqn:Hr.
  - destruct (Py.isspace c) eqn:Hc; [reflexivity|].
    cbn [Py.rstrip]. by rewrite Hc.
  - cbn [Py.rstrip]. cbn [Py.rstrip] in IH. by rewrite IH.
Qed.

Lemma lstrip_head (s : string) :
  Py.lstrip s = "" \/
  exists c t, Py.lstrip s = String c t /\ Py.isspace c = false.
Proof.
  induction s as [|c s IH]; [by left|].
  cbn [Py.lstrip]. destruct (Py.isspace c) eqn:Hc; [exact IH|].
  right. eauto.
Qed.

Lemma rstrip_keeps_head (c : ascii) (t : string) :
  Py.isspace c = false -> exists t', Py.rstrip (String c t) = String c t'.
Proof.
  intros Hc. cbn [Py.rstrip]. destruct (Py.rstrip t); [rewrite Hc|]; eauto.
Qed.

Lemma strip_idem (s : string) : Py.strip (Py.strip s) = Py.strip s.
Proof.
  unfold Py.strip. destruct (lstrip_head s) as [->|(c & t & -> & Hc)]; [reflexivity|].
  destruct (rstrip_keeps_head c t Hc) as [t' Ht]. rewrite Ht.
  cbn [Py.lstrip]. rewrite Hc, <- Ht. apply rstrip_idem.
Qed.

(** Whatever the process prints, the text [git] or [gh] returns has no
    white space at either end: stripping it again changes nothing. *)
Theorem git_output_is_stripped (cfg : Config) (sp : process.Spawn)
    (args : list string) (cwd : string) (check quiet : bool) (out : string) :
  (process.git cfg sp args cwd check quiet).2 = Ret out \/
  (process.gh cfg sp args cwd check quiet).2 = Ret out ->
  Py.strip out = out.
Proof.
  unfold process.git, process.gh, process.stripped_stdout.
  intros [H|H].
  - destruct (process.run _ _ _ _ _ _) as [lg [res|e]]; [|discriminate].
    destruct (process.result_stdout res) as [o|]; [destruct (Py.truthy o)|];
      injection H as <-; try reflexivity. apply strip_idem.
  - destruct (process.run _ _ _ _ _ _) as [lg [res|e]]; [|discriminate].
    destruct (process.result_stdout res) as [o|]; [destruct (Py.truthy o)|];
      injection H as <-; try reflexivity. apply strip_idem.
Qed.

Lemma git_output_is_stripped_witness :
  let sp := process.SpawnCompleted 0 ("  dev" +:+ newline) "" in
  let cfg := default_config "/srv/bot" in
  (process.git cfg sp ["rev-parse"; "--abbrev-ref"; "HEAD"] "/srv/bot" true true).2
    = Ret "dev" /\
  Py.strip "dev" = "dev".
Proof.
  intros sp cfg.
  assert (H : (process.git cfg sp ["rev-parse"; "--abbrev-ref"; "HEAD"] "/srv/bot"
                 true true).2 = Ret "dev") by (vm_compute; reflexivity).
  split; [exact H|].
  exact (git_output_is_stripped cfg sp _ _ _ _ "dev" (or_introl H)).
Defined.

(** ** [project.check_and_setup_configs] *)

(** Setting up the configuration never changes a file that exists: the
    two templates are written only where no file is.  Afterwards both
    files exist; the first-run notice is logged exactly when
    [manage.toml] was missing; and a second call changes and logs
    nothing. *)
Theorem check_and_setup_configs_keeps_files (cfg : Config) (fs : state.FS) :
  let out := configs.check_and_setup_configs cfg fs in
  (forall p text, fs !! p = Some text -> out.1 !! p = Some text) /\
  is_Some (out.1 !! configs.manage_toml cfg) /\
  is_Some (out.1 !! configs.plugins_txt cfg) /\
  (out.2 = [] <-> is_Some (fs !! configs.manage_toml cfg)) /\
  configs.check_and_setup_configs cfg out.1 = (out.1, []).
Proof.
  assert (Hkeep : forall path content (m : state.FS) p text,
            m !! p = Some text ->
            configs.ensure_file path content m !! p = Some text).
  { intros path content m p text H. unfold configs.ensure_file.
    destruct (m !! path) eqn:Hp; [done|].
    destruct (decide (p = path)) as [->|Hne]; [congruence|].
    by rewrite lookup_insert_ne. }
  assert (Hsome : forall path content (m : state.FS),
            is_Some (configs.ensure_file path content m !! path)).
  { intros path content m. unfold configs.ensure_file.
    destruct (m !! path) eqn:Hp; [by rewrite Hp|].
    rewrite lookup_insert_eq. eauto. }
  assert (Hid : forall path content (m : state.FS),
            is_Some (m !! path) -> configs.ensure_file path content m = m).
  { intros path content m [x Hx]. unfold configs.ensure_file. by rewrite Hx. }
  unfold configs.check_and_setup_configs. cbn [fst snd].
  set (fs1 := configs.ensure_file (configs.manage_toml cfg) _ fs).
  set (fs2 := configs.ensure_file (configs.plugins_txt cfg) _ fs1).
  assert (H1 : is_Some (fs2 !! configs.manage_toml cfg)).
  { destruct (Hsome (configs.manage_toml cfg) configs.MANAGE_TOML_TEMPLATE fs)
      as [x Hx]. exists x. by apply Hkeep. }
  split; [intros p text H; by apply Hkeep, Hkeep|].
  split; [exact H1|]. split; [apply Hsome|]. split.
  - destruct (fs !! configs.manage_toml cfg) eqn:Hm.
    + split; eauto.
    + split; [discriminate|]. intros [x Hx]. discriminate.
  - destruct H1 as [x Hx]. rewrite Hx.
    rewrite (Hid (configs.manage_toml cfg)) by eauto.
    rewrite Hid by apply Hsome. reflexivity.
Qed.

(** ** [nbm.py]: [DiagnoseCommand] and [ProdSetupCommand] *)

Section cli_facts.
Variable cfg : Config.
Variable list_name : string.
Variable World : Type.
Variable path_exists : World -> string -> bool.
Variable is_dir : World -> string -> bool.
Variable read_text : World -> string -> Res string.
Variable mkdir_p : World -> string -> World.
Variable spawn : World -> list string -> string -> process.Spawn * World.
Variable uv_venv : World -> cli.Bootstrap * World.
Variable str_result : CmdResult -> string.

Local Abbreviation St := (project.St World).

Lemma git_raises_CommandError (sp : process.Spawn) (args : list string)
    (cwd : string) (check quiet : bool) (e : Exn) :
  (process.git cfg sp args cwd check quiet).2 = Raise e -> is_CommandError e.
Proof.
  unfold process.git, process.stripped_stdout. intros H.
  destruct (process.run cfg sp ("git" :: args) cwd check quiet)
    as [lg [res|e']] eqn:Hr.
  - destruct (process.result_stdout res) as [out|];
      [destruct (Py.truthy out)|]; discriminate H.
  - injection H as ->.
    apply (run_raises_CommandError cfg sp "git" args cwd check quiet).
    by rewrite Hr.
Qed.

(** One turn of the loop of [prod-setup] returns, having run the
    command lines of its URL. *)
Lemma prod_setup_one_runs (url : string) (st : St) :
  exists st' cmds,
    cli.prod_setup_one cfg World path_exists spawn url st = (st', Ret tt) /\
    url_commands cfg url cmds /\
    project.calls st' = project.calls st ++ cmds.
Proof.
  unfold cli.prod_setup_one, url_commands.
  destruct (git.get_repo_name_from_url url) as [[|c r]|].
  - eexists. exists []. split; [reflexivity|]. split; [reflexivity|].
    simpl. by rewrite app_nil_r.
  - cbn zeta.
    set (plugin_name := Py.split_last_slash (String c r)).
    set (local_path := project.path_join (PLUGINS_SRC_DIR cfg) plugin_name).
    unfold project.bind at 1. unfold project.local_path_exists.
    destruct (path_exists (project.world st) local_path).
    + unfold project.bind, cli.logger, project.logger,
        project.try_except_CommandError, cli.git_, project.git_,
        project.external, cli.ret, project.ret. cbn [project.world project.log project.calls].
      destruct (spawn _ _ _) as [sp w'].
      destruct (process.git cfg sp _ _ _ _) as [lg [out|e]] eqn:Hg.
      * eexists. eexists. split; [reflexivity|]. split; [left; reflexivity|].
        reflexivity.
      * pose proof (f_equal snd Hg) as He.
        apply git_raises_CommandError in He as (msg & res & ->).
        eexists. eexists. split; [reflexivity|]. split; [left; reflexivity|].
        reflexivity.
    + unfold project.bind, cli.logger, project.logger,
        project.try_except_CommandError, cli.git_, project.git_,
        project.external, cli.ret, project.ret. cbn [project.world project.log project.calls].
      destruct (spawn _ _ _) as [sp w'].
      destruct (process.git cfg sp _ _ _ _) as [lg [out|e]] eqn:Hg.
      * eexists. eexists. split; [reflexivity|]. split; [right; reflexivity|].
        reflexivity.
      * pose proof (f_equal snd Hg) as He.
        apply git_raises_CommandError in He as (msg & res & ->).
        eexists. eexists. split; [reflexivity|]. split; [right; reflexivity|].
        reflexivity.
  - eexists. exists []. split; [reflexivity|]. split; [reflexivity|].
    simpl. by rewrite app_nil_r.
Qed.

Lemma for_each_prod_setup (urls : list string) (st : St) :
  exists st' per_url,
    cli.for_each World urls (cli.prod_setup_one cfg World path_exists spawn) st
      = (st', Ret tt) /\
    Forall2 (url_commands cfg) urls per_url /\
    project.calls st' = project.calls st ++ concat per_url.
Proof.
  revert st. induction urls as [|url urls IH]; intros st.
  - exists st, []. split; [reflexivity|]. split; [constructor|].
    simpl. by rewrite app_nil_r.
  - destruct (prod_setup_one_runs url st) as (st1 & cmds & H1 & Hc & Hcalls).
    destruct (IH st1) as (st2 & per_url & H2 & HF & Hcalls2).
    exists st2, (cmds :: per_url). split.
    + cbn [cli.for_each]. unfold project.bind. by rewrite H1.
    + split; [by constructor|].
      rewrite Hcalls2, Hcalls. simpl. by rewrite app_assoc.
Qed.

End cli_facts.


Lemma uv_raises_CommandError (cfg : Config) (sp : process.Spawn)
    (args : list string) (cwd : string) (check quiet : bool) (e : Exn) :
  (process.uv cfg sp args cwd check quiet).2 = Raise e -> is_CommandError e.
Proof. apply run_raises_CommandError. Qed.



Example demo_prod_setup_calls :
  project.calls (demo_prod_setup demo_prod_start).1
  = [["git"; "clone"; "--depth=1"; "-b"; "dev";
      "https://github.com/my-bot-workspace/foo.git"; "/srv/bot/plugins/foo"];
     ["git"; "-C"; "/srv/bot/plugins/bar"; "pull"; "origin"; "dev"];
     ["uv"; "sync"; "--all-extras"]] /\
  cli.read_urls demo_urls
  = ["https://github.com/acme/foo.git"; "not a repository"; "git@github.com:acme/bar"].
Proof. vm_compute. auto. Qed.
